(** * sentry-react-native: profile merging, profile queue, frame-signal
      fallback emitter and the React Native tracing integration

    A shallow embedding of
      - the Hermes profiling integration (class [HermesProfiling],
        [stopProfiling], [addNativeThreadCpuProfileToHermes]),
      - the fallback frame event emitter
        ([createSentryFallbackEventEmitter]),
      - the tracing integration (class [ReactNativeTracing]).

    JavaScript numbers that the code uses as indices and counters are
    integers ([Z]).  The nanosecond stamps of the profiler are integers
    too, and the product and the difference that the code computes on
    them are rounded as binary64 rounds them ([Double]).  Timestamps in
    seconds and the app start durations are rationals ([Q]), with exact
    arithmetic: the rounding of doubles is left out there.  Objects used
    as dictionaries are [gmap string _]; a property that the TypeScript
    declarations mark optional is an [option].  The code runs on one event
    loop: every method is a function from state to state, and what it
    reads from the outside (the native bridge, the clock, the random
    source) is an argument. *)

From Stdlib Require Import ZArith QArith.
From stdpp Require Import base option list gmap strings pretty.

Local Open Scope string_scope.
Local Open Scope list_scope.

(** ** Logger

    [logger.log], [logger.warn] and [logger.error] append to a log that
    the state of each integration carries, the newest entry last. *)

Inductive LogLevel := LogLog | LogWarn | LogError.

#[global] Instance LogLevel_eq_dec : EqDecision LogLevel.
Proof. solve_decision. Defined.

Abbreviation LogEntry := (LogLevel * string)%type.

(** The double quote character, as a string. *)
Definition double_quote : string := String (Ascii.ascii_of_nat 34) EmptyString.

(** ** Numbers that hold integers

    A JavaScript number is a binary64.  One that holds an integer is kept
    as that integer; the result of an operation on two of them is the
    exact result rounded to 53 significant bits, ties to even (results
    stay far below 2^1024, where a double overflows). *)

Module Double.

(** The integer [n] rounded to the nearest double.  Below 2^53 in
    magnitude every integer is a double. *)
Definition round (n : Z) : Z :=
  let a := Z.abs n in
  if (a <? 2 ^ 53)%Z then n
  else
    let e := (Z.log2 a - 52)%Z in
    let q := Z.shiftr a e in
    let r := (a - Z.shiftl q e)%Z in
    let half := Z.shiftl 1 (e - 1) in
    let q :=
      if (r <? half)%Z then q
      else if (half <? r)%Z then (q + 1)%Z
      else if Z.even q then q
      else (q + 1)%Z in
    (Z.sgn n * Z.shiftl q e)%Z.

(** [a * b] and [a - b] on numbers that hold integers. *)
Definition mul (a b : Z) : Z := round (a * b).

Definition sub (a b : Z) : Z := round (a - b).

(** The digits that [toString(10)] prints for the double [a > 0]: the
    number with the fewest significant digits that rounds to [a], the
    closest to [a] when there are two, the one with the even last digit
    when both are as close.  The search goes from multiples of [10^m]
    down to multiples of 1. *)
Fixpoint shortest (a : Z) (m : nat) : Z :=
  let p := (10 ^ Z.of_nat m)%Z in
  let below := (a / p * p)%Z in
  let above := (below + p)%Z in
  match (round below =? a)%Z, (round above =? a)%Z with
  | true, true =>
      if (a - below <? above - a)%Z then below
      else if (above - a <? a - below)%Z then above
      else if Z.even (below / p) then below
      else above
  | true, false => below
  | false, true => above
  | false, false =>
      match m with
      | O => a
      | S m => shortest a m
      end
  end.

(** [v] without its trailing zeros; [v] has at most [fuel] of them. *)
Fixpoint strip_zeros (fuel : nat) (v : Z) : Z :=
  match fuel with
  | O => v
  | S fuel => if (v mod 10 =? 0)%Z then strip_zeros fuel (v / 10) else v
  end.

(** [toString(10)] of a double [a > 0] that holds an integer: the digits
    when there are at most 21 of them, the exponent notation
    otherwise. *)
Definition toString_positive (a : Z) : string :=
  let v := shortest a (Z.to_nat (Z.log2 a) + 1) in
  if (v <? 10 ^ 21)%Z then pretty v
  else
    let digits := pretty v in
    let exponent := pretty (String.length digits - 1)%nat in
    match pretty (strip_zeros (String.length digits) v) with
    | String first EmptyString => String first EmptyString +:+ "e+" +:+ exponent
    | String first rest => String first EmptyString +:+ "." +:+ rest +:+ "e+" +:+ exponent
    | EmptyString => EmptyString
    end.

(** [d.toString(10)] of a double that holds an integer. *)
Definition toString (d : Z) : string :=
  if (d <? 0)%Z then "-" +:+ toString_positive (- d)
  else if (d =? 0)%Z then "0"
  else toString_positive d.

End Double.

(** ** Merging a native profile into the Hermes profile *)

Module Merge.

(** [ThreadCpuFrame] of @sentry/types. *)
Record ThreadCpuFrame := {
  function : option string;
  file : option string;
  lineno : option Z;
  colno : option Z;
  abs_path : option string;
  platform : option string;
  instruction_addr : option string;
  module : option string;
  in_app : option bool;
}.

(** A stack is the list of the ids of its frames. *)
Abbreviation ThreadCpuStack := (list Z).

Record ThreadCpuSample := {
  stack_id : Z;
  thread_id : string;
  queue_address : option string;
  elapsed_since_start_ns : string;
}.

Record ThreadMetadata := {
  name : option string;
  priority : option Z;
}.

Record QueueMetadata := {
  label : string;
}.

(** [ThreadCpuProfile] of @sentry/types: the three arrays and
    [thread_metadata] are required properties, [queue_metadata] is
    optional.  With the arrays present, the guards [if (native.frames)]
    and [x || []] of the source always take the array (an array is truthy,
    also when empty), so they do not show below. *)
Record ThreadCpuProfile := {
  samples : list ThreadCpuSample;
  stacks : list ThreadCpuStack;
  frames : list ThreadCpuFrame;
  thread_metadata : gmap string ThreadMetadata;
  queue_metadata : option (gmap string QueueMetadata);
}.

(** [{ ...a, ...b }]: the keys of both, [b] wins on a shared key. *)
Definition spread {V} (a b : gmap string V) : gmap string V := b ∪ a.

(** Spreading [undefined] adds nothing. *)
Definition spread_opt {V} (a b : option (gmap string V)) : gmap string V :=
  spread (default ∅ a) (default ∅ b).

(** The frame pushed for a native frame; [Platform_OS] is [Platform.OS]
    of react-native. *)
Definition native_frame (Platform_OS : string) (frame : ThreadCpuFrame)
  : ThreadCpuFrame :=
  {| function := function frame;
     file := None;
     lineno := None;
     colno := None;
     abs_path := None;
     platform := if decide (Platform_OS = "ios") then Some "cocoa" else None;
     instruction_addr := instruction_addr frame;
     module := None;
     in_app := None |}.

(** [stack => stack.map(frameId => frameId + framesOffset)] *)
Definition shift_stack (framesOffset : Z) (stack : ThreadCpuStack)
  : ThreadCpuStack :=
  map (fun frameId => frameId + framesOffset)%Z stack.

(** [sample => ({...sample, stack_id: stacksOffset + sample.stack_id})] *)
Definition shift_sample (stacksOffset : Z) (sample : ThreadCpuSample)
  : ThreadCpuSample :=
  {| stack_id := stacksOffset + stack_id sample;
     thread_id := thread_id sample;
     queue_address := queue_address sample;
     elapsed_since_start_ns := elapsed_since_start_ns sample |}.

(** [sample => sample.thread_id !== hermes_active_thread_id] *)
Definition other_thread (hermes_active_thread_id : option string)
    (sample : ThreadCpuSample) : bool :=
  bool_decide (Some (thread_id sample) ≠ hermes_active_thread_id).

(** [addNativeThreadCpuProfileToHermes]; the value returned is the
    [hermes] object after its properties were reassigned. *)
Definition addNativeThreadCpuProfileToHermes (Platform_OS : string)
    (hermes native : ThreadCpuProfile)
    (hermes_active_thread_id : option string) : ThreadCpuProfile :=
  let thread_metadata' :=
    spread (thread_metadata native) (thread_metadata hermes) in
  let queue_metadata' :=
    spread_opt (queue_metadata native) (queue_metadata hermes) in
  let framesOffset := Z.of_nat (length (frames hermes)) in
  let stacksOffset := Z.of_nat (length (stacks hermes)) in
  let frames' := frames hermes ++ map (native_frame Platform_OS) (frames native) in
  let stacks' := stacks hermes ++ map (shift_stack framesOffset) (stacks native) in
  let samples' :=
    samples hermes ++
    map (shift_sample stacksOffset)
        (filter (fun sample => other_thread hermes_active_thread_id sample = true)
                (samples native)) in
  {| samples := samples';
     stacks := stacks';
     frames := frames';
     thread_metadata := thread_metadata';
     queue_metadata := Some queue_metadata' |}.

End Merge.

(** ** The profile queue *)

Module FifoCache.

(** Modelled from the spec: [PROFILE_QUEUE] of ./cache, whose source file
    is not available.  The spec has it as a store from identifier to
    profile "with a capacity bound; insertion evicts the oldest entry when
    full"; an entry is "removed (and returned) when a transaction report
    requests it".  The entries are kept oldest first. *)
Record t (V : Type) := {
  capacity : nat;
  entries : list (string * V);
}.

Arguments capacity {V} _.
Arguments entries {V} _.

Definition empty {V} (capacity : nat) : t V :=
  {| capacity := capacity; entries := [] |}.

Definition size {V} (q : t V) : nat := length (entries q).

(** [get(key)]: the entry of [key], [undefined] when there is none. *)
Definition get {V} (key : string) (q : t V) : option V :=
  (fun found => snd (snd found)) <$> list_find (fun e => fst e = key) (entries q).

(** [delete(key)] *)
Definition delete {V} (key : string) (q : t V) : t V :=
  {| capacity := capacity q;
     entries := filter (fun e => fst e ≠ key) (entries q) |}.

(** Drops the oldest entries until fewer than [capacity] are left. *)
Definition evict {V} (capacity : nat) (es : list (string * V)) : list (string * V) :=
  drop (length es + 1 - capacity) es.

(** [add(key, value)]: an older entry of the same key is replaced. *)
Definition add {V} (key : string) (value : V) (q : t V) : t V :=
  {| capacity := capacity q;
     entries :=
       evict (capacity q) (filter (fun e => fst e ≠ key) (entries q))
       ++ [(key, value)] |}.

End FifoCache.

(** ** The Hermes profiling integration *)

Module Profiling.

Import Merge.

(** [MS_TO_NS] *)
Definition MS_TO_NS : Z := 1000000.

(** Values found under an event's contexts. *)
Inductive JsValue :=
| JsUndefined
| JsNull
| JsBoolean (b : bool)
| JsNumber (n : Z)
| JsString (s : string).

(** [typeof v === 'string'] *)
Definition as_string (v : option JsValue) : option string :=
  match v with Some (JsString s) => Some s | _ => None end.

(** A context is an object ([Record<string, unknown>]). *)
Abbreviation Context := (gmap string JsValue).

(** The part of an [Event] that the integration reads and writes. *)
Record Event := {
  event_id : option string;
  contexts : option (gmap string Context);
}.

(** [hermes.transaction] *)
Record ProfileTransaction := {
  active_thread_id : option string;
}.

Record HermesProfileEvent := {
  hermes_platform : string;
  hermes_version : string;
  profile : ThreadCpuProfile;
  transaction : ProfileTransaction;
}.

(** Payloads that the code hands on without looking inside are kept as
    their serialised text. *)
Record DebugMeta := {
  images : list string;
}.

Record NativeProfileEvent := {
  native_profile : ThreadCpuProfile;
  native_debug_meta : DebugMeta;
  native_measurements : option string;
}.

Record NativeAndroidProfileEvent := {
  sampled_profile : string;
  android_api_level : Z;
  build_id : string;
  timestamp : Z;
}.

(** [HermesProfileEvent & Partial<NativeProfileEvent>] *)
Record CombinedProfileEvent := {
  hermes : HermesProfileEvent;
  debug_meta : option DebugMeta;
  measurements : option string;
}.

Record AndroidCombinedProfileEvent := {
  android : NativeAndroidProfileEvent;
  android_platform : string;
  js_profile : ThreadCpuProfile;
  duration_ns : string;
  android_active_thread_id : option string;
}.

(** [CombinedProfileEvent | AndroidCombinedProfileEvent] *)
Inductive QueuedProfile :=
| Combined (e : CombinedProfileEvent)
| AndroidCombined (e : AndroidCombinedProfileEvent).

(** What [NATIVE.stopProfiling()] returns when it returns something. *)
Record CollectedProfiles := {
  hermesProfile : string;
  nativeProfile : option NativeProfileEvent;
  androidProfile : option NativeAndroidProfileEvent;
}.

(** A span as the integration sees it. *)
Record Span := {
  span_id : string;
  attributes : gmap string string;
}.

(** [activeSpan.setAttribute(key, value)] *)
Definition setAttribute (key value : string) (span : Span) : Span :=
  {| span_id := span_id span; attributes := <[key := value]> (attributes span) |}.

(** The functions and constants the file imports.  [uuid4_at n] is the
    value of the [n]-th call of [uuid4()]. *)
Class Imports := {
  ProfileEvent : Type;
  Platform_OS : string;
  MAX_PROFILE_DURATION_MS : Z;
  convertToSentryProfile : string -> option ThreadCpuProfile;
  createHermesProfilingEvent : ThreadCpuProfile -> option HermesProfileEvent;
  enrichCombinedProfileWithEventContext :
    string -> QueuedProfile -> Event -> option ProfileEvent;
  isCurrentlyActiveSpan : Span -> bool;
  spanIsSampled : Span -> bool;
  uuid4_at : nat -> string;
}.

Record Experiments := {
  profilesSampleRate : option Q;
}.

Record ClientOptions := {
  _experiments : option Experiments;
}.

(** [hub.getClient()] and, on it, [client.getOptions()]. *)
Record Hub := {
  getClient : option ClientOptions;
}.

Record CurrentProfile := {
  profile_id : string;
  startTimestampNs : Z;
}.

(** The integration's fields, the module-level [PROFILE_QUEUE], the
    pending [setTimeout] handles (each calls [_finishCurrentProfile]),
    the number of [uuid4()] calls made, and the log. *)
Record State := {
  _getCurrentHub : option Hub;
  _currentProfile : option CurrentProfile;
  _currentProfileTimeout : option nat;
  PROFILE_QUEUE : FifoCache.t QueuedProfile;
  timers : list (nat * Z);
  next_timer : nat;
  uuid4_calls : nat;
  log : list LogEntry;
}.

Definition set_currentProfile (v : option CurrentProfile) (st : State) : State :=
  {| _getCurrentHub := _getCurrentHub st;
     _currentProfile := v;
     _currentProfileTimeout := _currentProfileTimeout st;
     PROFILE_QUEUE := PROFILE_QUEUE st;
     timers := timers st;
     next_timer := next_timer st;
     uuid4_calls := uuid4_calls st;
     log := log st |}.

Definition set_queue (q : FifoCache.t QueuedProfile) (st : State) : State :=
  {| _getCurrentHub := _getCurrentHub st;
     _currentProfile := _currentProfile st;
     _currentProfileTimeout := _currentProfileTimeout st;
     PROFILE_QUEUE := q;
     timers := timers st;
     next_timer := next_timer st;
     uuid4_calls := uuid4_calls st;
     log := log st |}.

Definition logger (level : LogLevel) (message : string) (st : State) : State :=
  {| _getCurrentHub := _getCurrentHub st;
     _currentProfile := _currentProfile st;
     _currentProfileTimeout := _currentProfileTimeout st;
     PROFILE_QUEUE := PROFILE_QUEUE st;
     timers := timers st;
     next_timer := next_timer st;
     uuid4_calls := uuid4_calls st;
     log := log st ++ [(level, message)] |}.

(** [setTimeout(this._finishCurrentProfile, delay)], the handle stored in
    [_currentProfileTimeout]. *)
Definition setTimeout_finish (delay : Z) (st : State) : State :=
  {| _getCurrentHub := _getCurrentHub st;
     _currentProfile := _currentProfile st;
     _currentProfileTimeout := Some (next_timer st);
     PROFILE_QUEUE := PROFILE_QUEUE st;
     timers := timers st ++ [(next_timer st, delay)];
     next_timer := S (next_timer st);
     uuid4_calls := uuid4_calls st;
     log := log st |}.

(** [_clearCurrentProfileTimeout] *)
Definition _clearCurrentProfileTimeout (st : State) : State :=
  {| _getCurrentHub := _getCurrentHub st;
     _currentProfile := _currentProfile st;
     _currentProfileTimeout := None;
     PROFILE_QUEUE := PROFILE_QUEUE st;
     timers :=
       match _currentProfileTimeout st with
       | Some handle => filter (fun timer => fst timer ≠ handle) (timers st)
       | None => timers st
       end;
     next_timer := next_timer st;
     uuid4_calls := uuid4_calls st;
     log := log st |}.

(** [uuid4()] *)
Definition uuid4 `{Imports} (st : State) : string * State :=
  (uuid4_at (uuid4_calls st),
   {| _getCurrentHub := _getCurrentHub st;
      _currentProfile := _currentProfile st;
      _currentProfileTimeout := _currentProfileTimeout st;
      PROFILE_QUEUE := PROFILE_QUEUE st;
      timers := timers st;
      next_timer := next_timer st;
      uuid4_calls := S (uuid4_calls st);
      log := log st |}).

(** What one call of [startProfiling] reads from outside. *)
Record StartReadings := {
  NATIVE_startProfiling : bool;
  start_Date_now : Z;
}.

(** What one call of [stopProfiling] reads from outside. *)
Record StopReadings := {
  NATIVE_stopProfiling : option CollectedProfiles;
  stop_Date_now : Z;
}.

(** [startProfiling] *)
Definition startProfiling (r : StartReadings) : option Z :=
  if NATIVE_startProfiling r then Some (Double.mul (start_Date_now r) MS_TO_NS) else None.

(** [createAndroidWithHermesProfile] *)
Definition createAndroidWithHermesProfile (hermes : HermesProfileEvent)
    (nativeAndroid : NativeAndroidProfileEvent) (durationNs : Z)
  : AndroidCombinedProfileEvent :=
  {| android := nativeAndroid;
     android_platform := "android";
     js_profile := profile hermes;
     duration_ns := Double.toString durationNs;
     android_active_thread_id := active_thread_id (transaction hermes) |}.

(** [addNativeProfileToHermesProfile] *)
Definition addNativeProfileToHermesProfile `{Imports} (hermes : HermesProfileEvent)
    (native : NativeProfileEvent) : CombinedProfileEvent :=
  {| hermes :=
       {| hermes_platform := hermes_platform hermes;
          hermes_version := hermes_version hermes;
          profile :=
            addNativeThreadCpuProfileToHermes Platform_OS (profile hermes)
              (native_profile native) (active_thread_id (transaction hermes));
          transaction := transaction hermes |};
     debug_meta := Some {| images := images (native_debug_meta native) |};
     measurements := native_measurements native |}.

(** [stopProfiling] *)
Definition stopProfiling `{Imports} (r : StopReadings) (profileStartTimestampNs : Z)
  : option QueuedProfile :=
  match NATIVE_stopProfiling r with
  | None => None
  | Some collectedProfiles =>
      let profileEndTimestampNs := Double.mul (stop_Date_now r) MS_TO_NS in
      match convertToSentryProfile (hermesProfile collectedProfiles) with
      | None => None
      | Some hermesProfile =>
          match createHermesProfilingEvent hermesProfile with
          | None => None
          | Some hermesProfileEvent =>
              match androidProfile collectedProfiles, nativeProfile collectedProfiles with
              | Some androidProfile, _ =>
                  let durationNs :=
                    Double.sub profileEndTimestampNs profileStartTimestampNs in
                  Some (AndroidCombined
                          (createAndroidWithHermesProfile hermesProfileEvent
                             androidProfile durationNs))
              | None, Some nativeProfile =>
                  Some (Combined
                          (addNativeProfileToHermesProfile hermesProfileEvent nativeProfile))
              | None, None =>
                  Some (Combined {| hermes := hermesProfileEvent;
                                    debug_meta := None;
                                    measurements := None |})
              end
          end
      end
  end.

(** The text the logger prints for several arguments. *)
Definition log_args (args : list string) : string := String.concat " " args.

(** [_finishCurrentProfile] *)
Definition _finishCurrentProfile `{Imports} (r : StopReadings) (st : State) : State :=
  let st := _clearCurrentProfileTimeout st in
  match _currentProfile st with
  | None => st
  | Some current =>
      match stopProfiling r (startTimestampNs current) with
      | None =>
          let st := logger LogWarn "[Profiling] Stop failed. Cleaning up..." st in
          set_currentProfile None st
      | Some profile =>
          let st :=
            set_queue (FifoCache.add (profile_id current) profile (PROFILE_QUEUE st)) st in
          let st :=
            logger LogLog
              (log_args ["[Profiling] finished profiling: "; profile_id current]) st in
          set_currentProfile None st
      end
  end.

(** [_shouldStartProfiling]; [random] is the value of [Math.random()]. *)
Definition _shouldStartProfiling `{Imports} (random : Q) (activeSpan : Span)
    (st : State) : bool * State :=
  if negb (spanIsSampled activeSpan) then
    (false, logger LogLog "[Profiling] Transaction is not sampled, skipping profiling" st)
  else
    let client : option ClientOptions := _getCurrentHub st ≫= getClient in
    let options : option ClientOptions := client in
    let rate : option Q := (options ≫= _experiments) ≫= profilesSampleRate in
    match rate with
    | None =>
        (false,
         logger LogLog
           "[Profiling] Profiling disabled, enable it by setting `profilesSampleRate` option to SDK init call."
           st)
    | Some profilesSampleRate =>
        if negb (Qle_bool random profilesSampleRate) then
          (false, logger LogLog "[Profiling] Skip profiling transaction due to sampling." st)
        else (true, st)
    end.

(** [_startNewProfile]; [!profileStartTimestampNs] holds for [null] and
    for [0]. *)
Definition _startNewProfile `{Imports} (r : StartReadings) (activeSpan : Span)
    (st : State) : State * Span :=
  match startProfiling r with
  | None => (st, activeSpan)
  | Some profileStartTimestampNs =>
      if (profileStartTimestampNs =? 0)%Z then (st, activeSpan)
      else
        let (id, st) := uuid4 st in
        let current := {| profile_id := id; startTimestampNs := profileStartTimestampNs |} in
        let st := set_currentProfile (Some current) st in
        let activeSpan := setAttribute "profile_id" (profile_id current) activeSpan in
        let st :=
          logger LogLog (log_args ["[Profiling] started profiling: "; profile_id current]) st in
        (st, activeSpan)
  end.

(** What one call of [_startCurrentProfile] reads from outside. *)
Record Readings := {
  on_stop : StopReadings;
  Math_random : Q;
  on_start : StartReadings;
}.

(** [_startCurrentProfile] *)
Definition _startCurrentProfile `{Imports} (r : Readings) (activeSpan : Span)
    (st : State) : State * Span :=
  let st := _finishCurrentProfile (on_stop r) st in
  if negb (isCurrentlyActiveSpan activeSpan) then (st, activeSpan)
  else
    let (shouldStartProfiling, st) := _shouldStartProfiling (Math_random r) activeSpan st in
    if negb shouldStartProfiling then (st, activeSpan)
    else
      let st := setTimeout_finish MAX_PROFILE_DURATION_MS st in
      _startNewProfile (on_start r) activeSpan st.

(** [_startCurrentProfileForActiveTransaction]; [getActiveSpan] is the
    value of [getActiveSpan()], returned with its new attributes. *)
Definition _startCurrentProfileForActiveTransaction `{Imports} (r : Readings)
    (getActiveSpan : option Span) (st : State) : State * option Span :=
  match _currentProfile st with
  | Some _ => (st, getActiveSpan)
  | None =>
      match getActiveSpan with
      | None => (st, None)
      | Some activeSpan =>
          let (st, activeSpan) := _startCurrentProfile r activeSpan st in
          (st, Some activeSpan)
      end
  end.

(** A pending timer of [setTimeout] fires: it leaves the pending ones and
    runs [_finishCurrentProfile]; a cleared handle does nothing. *)
Definition timer_fires `{Imports} (handle : nat) (r : StopReadings) (st : State) : State :=
  if bool_decide (handle ∈ (fst <$> timers st)) then
    let st :=
      {| _getCurrentHub := _getCurrentHub st;
         _currentProfile := _currentProfile st;
         _currentProfileTimeout := _currentProfileTimeout st;
         PROFILE_QUEUE := PROFILE_QUEUE st;
         timers := filter (fun timer => fst timer ≠ handle) (timers st);
         next_timer := next_timer st;
         uuid4_calls := uuid4_calls st;
         log := log st |} in
    _finishCurrentProfile r st
  else st.

(** [delete profiledTransaction.contexts.profile] *)
Definition delete_profile_context (e : Event) : Event :=
  {| event_id := event_id e;
     contexts := base.delete "profile" <$> contexts e |}.

(** [`${x}`] of a property that may be [undefined]. *)
Definition template (x : option string) : string := default "undefined" x.

(** [_createProfileEventFor]: the value returned, the report after the
    call, and the state after it. *)
Definition _createProfileEventFor `{Imports} (profiledTransaction : Event)
    (st : State) : option ProfileEvent * Event * State :=
  let profile_id : option JsValue :=
    (contexts profiledTransaction ≫= (.!! "profile")) ≫= (.!! "profile_id") in
  match as_string profile_id with
  | None =>
      (None, profiledTransaction,
       logger LogLog
         "[Profiling] cannot find profile for a transaction without a profile context" st)
  | Some profile_id =>
      let profiledTransaction :=
        match contexts profiledTransaction ≫= (.!! ".profile") with
        | Some _ => delete_profile_context profiledTransaction
        | None => profiledTransaction
        end in
      let profile := FifoCache.get profile_id (PROFILE_QUEUE st) in
      let st := set_queue (FifoCache.delete profile_id (PROFILE_QUEUE st)) st in
      match profile with
      | None =>
          (None, profiledTransaction,
           logger LogLog
             ("[Profiling] cannot find profile " +:+ profile_id +:+ " for transaction "
                +:+ template (event_id profiledTransaction)) st)
      | Some profile =>
          let profileWithEvent :=
            enrichCombinedProfileWithEventContext profile_id profile profiledTransaction in
          (profileWithEvent, profiledTransaction,
           logger LogLog
             ("[Profiling] Created profile " +:+ profile_id +:+ " for transaction "
                +:+ template (event_id profiledTransaction)) st)
      end
  end.

(** The state of a new integration object with an empty queue. *)
Definition new_integration (queue_capacity : nat) : State :=
  {| _getCurrentHub := None;
     _currentProfile := None;
     _currentProfileTimeout := None;
     PROFILE_QUEUE := FifoCache.empty queue_capacity;
     timers := [];
     next_timer := 0;
     uuid4_calls := 0;
     log := [] |}.

(** [this._getCurrentHub = getCurrentHub] *)
Definition set_getCurrentHub (v : option Hub) (st : State) : State :=
  {| _getCurrentHub := v;
     _currentProfile := _currentProfile st;
     _currentProfileTimeout := _currentProfileTimeout st;
     PROFILE_QUEUE := PROFILE_QUEUE st;
     timers := timers st;
     next_timer := next_timer st;
     uuid4_calls := uuid4_calls st;
     log := log st |}.

(** The states that calls of the integration's methods lead to. *)
Inductive reachable `{Imports} : State → Prop :=
| reachable_new capacity getCurrentHub :
    reachable (set_getCurrentHub getCurrentHub (new_integration capacity))
| reachable_start r activeSpan st :
    reachable st → reachable (_startCurrentProfile r activeSpan st).1
| reachable_start_active r getActiveSpan st :
    reachable st → reachable (_startCurrentProfileForActiveTransaction r getActiveSpan st).1
| reachable_finish r st :
    reachable st → reachable (_finishCurrentProfile r st)
| reachable_timer handle r st :
    reachable st → reachable (timer_fires handle r st)
| reachable_create report st :
    reachable st → reachable (_createProfileEventFor report st).2.

(** The identifier of the session in progress came from an earlier call
    of [uuid4()]. *)
Definition id_issued `{Imports} (st : State) : Prop :=
  ∀ current, _currentProfile st = Some current →
    ∃ k, k < uuid4_calls st ∧ profile_id current = uuid4_at k.

(** The profile identifier that [_createProfileEventFor] reads from a
    report. *)
Definition profile_id_of (report : Event) : option string :=
  as_string ((contexts report ≫= (.!! "profile")) ≫= (.!! "profile_id")).

End Profiling.

(** ** The fallback frame event emitter *)

Module Emitter.

(** [FallBackNewFrameEvent] *)
Record FallBackNewFrameEvent := {
  newFrameTimestampInSeconds : Q;
  isFallback : option bool;
}.

(** The variables that the closure [checkNativeResponse] of one call of
    [waitForNativeResponseOrFallback] holds. *)
Record Check := {
  fallbackSeconds : Q;
  origin : string;
  firstAttemptCompleted : bool;
}.

(** The two variables of [createSentryFallbackEventEmitter], the
    listeners that [initAsync] has added, and what the event loop still
    holds: the calls of [NATIVE.getNewScreenTimeToDisplay()] that have not
    settled, the callbacks given to [requestAnimationFrame], and the
    timeouts, each with its delay, oldest first.  [emitted] lists what the
    emitter itself sent through [DeviceEventEmitter.emit]. *)
Record State := {
  NativeEmitterCalled : bool;
  isListening : bool;
  listeners : nat;
  pending_native_calls : nat;
  animation_frame_requests : nat;
  timeouts : list (Z * Check);
  emitted : list FallBackNewFrameEvent;
  log : list LogEntry;
}.

Definition createSentryFallbackEventEmitter : State :=
  {| NativeEmitterCalled := false;
     isListening := false;
     listeners := 0;
     pending_native_calls := 0;
     animation_frame_requests := 0;
     timeouts := [];
     emitted := [];
     log := [] |}.

(** [NativeEmitterCalled = false; isListening = false;] *)
Definition reset (st : State) : State :=
  {| NativeEmitterCalled := false;
     isListening := false;
     listeners := listeners st;
     pending_native_calls := pending_native_calls st;
     animation_frame_requests := animation_frame_requests st;
     timeouts := timeouts st;
     emitted := emitted st;
     log := log st |}.

Definition logger (level : LogLevel) (message : string) (st : State) : State :=
  {| NativeEmitterCalled := NativeEmitterCalled st;
     isListening := isListening st;
     listeners := listeners st;
     pending_native_calls := pending_native_calls st;
     animation_frame_requests := animation_frame_requests st;
     timeouts := timeouts st;
     emitted := emitted st;
     log := log st ++ [(level, message)] |}.

(** [setTimeout(checkNativeResponse, delay)] *)
Definition setTimeout (check : Check) (delay : Z) (st : State) : State :=
  {| NativeEmitterCalled := NativeEmitterCalled st;
     isListening := isListening st;
     listeners := listeners st;
     pending_native_calls := pending_native_calls st;
     animation_frame_requests := animation_frame_requests st;
     timeouts := timeouts st ++ [(delay, check)];
     emitted := emitted st;
     log := log st |}.

(** The listener that [initAsync] adds for [NewFrameEventName]. *)
Definition listener (st : State) : State :=
  if isListening st then
    {| NativeEmitterCalled := true;
       isListening := isListening st;
       listeners := listeners st;
       pending_native_calls := pending_native_calls st;
       animation_frame_requests := animation_frame_requests st;
       timeouts := timeouts st;
       emitted := emitted st;
       log := log st |}
  else st.

(** An event named [NewFrameEventName] reaches every listener added. *)
Definition deliver (st : State) : State := Nat.iter (listeners st) listener st.

(** [DeviceEventEmitter.emit(NewFrameEventName, event)] by the emitter. *)
Definition emit (event : FallBackNewFrameEvent) (st : State) : State :=
  deliver
    {| NativeEmitterCalled := NativeEmitterCalled st;
       isListening := isListening st;
       listeners := listeners st;
       pending_native_calls := pending_native_calls st;
       animation_frame_requests := animation_frame_requests st;
       timeouts := timeouts st;
       emitted := emitted st ++ [event];
       log := log st |}.

(** [checkNativeResponse], on the variables of its closure. *)
Definition checkNativeResponse (check : Check) (st : State) : State :=
  if NativeEmitterCalled st then reset st
  else if negb (firstAttemptCompleted check) then
    setTimeout {| fallbackSeconds := fallbackSeconds check;
                  origin := origin check;
                  firstAttemptCompleted := true |} 3000 st
  else
    let st :=
      logger LogLog
        ("[Sentry] Native event emitter did not reply in time. Using "
           +:+ origin check +:+ " fallback emitter.") st in
    let st :=
      {| NativeEmitterCalled := NativeEmitterCalled st;
         isListening := false;
         listeners := listeners st;
         pending_native_calls := pending_native_calls st;
         animation_frame_requests := animation_frame_requests st;
         timeouts := timeouts st;
         emitted := emitted st;
         log := log st |} in
    emit {| newFrameTimestampInSeconds := fallbackSeconds check;
            isFallback := Some true |} st.

(** [waitForNativeResponseOrFallback] *)
Definition waitForNativeResponseOrFallback (fallbackSeconds : Q) (origin : string)
    (st : State) : State :=
  checkNativeResponse {| fallbackSeconds := fallbackSeconds;
                         origin := origin;
                         firstAttemptCompleted := false |} st.

(** [defaultFallbackEventEmitter]: the callback waits for the next
    animation frame. *)
Definition defaultFallbackEventEmitter (st : State) : State :=
  {| NativeEmitterCalled := NativeEmitterCalled st;
     isListening := isListening st;
     listeners := listeners st;
     pending_native_calls := pending_native_calls st;
     animation_frame_requests := S (animation_frame_requests st);
     timeouts := timeouts st;
     emitted := emitted st;
     log := log st |}.

(** The callback given to [requestAnimationFrame]; [seconds] is the value
    of [timestampInSeconds()]. *)
Definition animation_frame_callback (seconds : Q) (st : State) : State :=
  if NativeEmitterCalled st then reset st
  else waitForNativeResponseOrFallback seconds "JavaScript" st.

(** [initAsync] *)
Definition initAsync (st : State) : State :=
  {| NativeEmitterCalled := NativeEmitterCalled st;
     isListening := isListening st;
     listeners := S (listeners st);
     pending_native_calls := pending_native_calls st;
     animation_frame_requests := animation_frame_requests st;
     timeouts := timeouts st;
     emitted := emitted st;
     log := log st |}.

(** [startListenerAsync], up to the call of the native module. *)
Definition startListenerAsync (st : State) : State :=
  {| NativeEmitterCalled := NativeEmitterCalled st;
     isListening := true;
     listeners := listeners st;
     pending_native_calls := S (pending_native_calls st);
     animation_frame_requests := animation_frame_requests st;
     timeouts := timeouts st;
     emitted := emitted st;
     log := log st |}.

(** [if (resolve)] on a number or [null]. *)
Definition truthy (resolve : option Q) : option Q :=
  match resolve with
  | Some seconds => if Qeq_bool seconds 0 then None else Some seconds
  | None => None
  end.

(** The [then] callback of [startListenerAsync]. *)
Definition on_resolved (resolve : option Q) (st : State) : State :=
  match truthy resolve with
  | Some seconds => waitForNativeResponseOrFallback seconds "Native" st
  | None => defaultFallbackEventEmitter st
  end.

(** The [catch] callback of [startListenerAsync]; the log line leaves
    the reason out. *)
Definition on_rejected (st : State) : State :=
  defaultFallbackEventEmitter
    (logger LogError "Failed to recceive Native fallback timestamp." st).

(** What the event loop runs next. *)
Inductive Step :=
| Call_initAsync
| Call_startListenerAsync
| NativeNewFrame
| NativeResolves (resolve : option Q)
| NativeRejects
| AnimationFrame (seconds : Q)
| TimeoutFires.

Definition settle (st : State) : State :=
  {| NativeEmitterCalled := NativeEmitterCalled st;
     isListening := isListening st;
     listeners := listeners st;
     pending_native_calls := pred (pending_native_calls st);
     animation_frame_requests := animation_frame_requests st;
     timeouts := timeouts st;
     emitted := emitted st;
     log := log st |}.

Definition take_animation_frame (st : State) : State :=
  {| NativeEmitterCalled := NativeEmitterCalled st;
     isListening := isListening st;
     listeners := listeners st;
     pending_native_calls := pending_native_calls st;
     animation_frame_requests := pred (animation_frame_requests st);
     timeouts := timeouts st;
     emitted := emitted st;
     log := log st |}.

Definition take_timeout (st : State) : State :=
  {| NativeEmitterCalled := NativeEmitterCalled st;
     isListening := isListening st;
     listeners := listeners st;
     pending_native_calls := pending_native_calls st;
     animation_frame_requests := animation_frame_requests st;
     timeouts := tail (timeouts st);
     emitted := emitted st;
     log := log st |}.

(** One turn of the event loop.  A native call settles, an animation
    frame callback runs or a timeout fires only when one is pending; all
    timeouts have the same delay, so the oldest fires first. *)
Definition step (s : Step) (st : State) : State :=
  match s with
  | Call_initAsync => initAsync st
  | Call_startListenerAsync => startListenerAsync st
  | NativeNewFrame => deliver st
  | NativeResolves resolve =>
      match pending_native_calls st with
      | O => st
      | S _ => on_resolved resolve (settle st)
      end
  | NativeRejects =>
      match pending_native_calls st with
      | O => st
      | S _ => on_rejected (settle st)
      end
  | AnimationFrame seconds =>
      match animation_frame_requests st with
      | O => st
      | S _ => animation_frame_callback seconds (take_animation_frame st)
      end
  | TimeoutFires =>
      match timeouts st with
      | [] => st
      | (_, check) :: _ => checkNativeResponse check (take_timeout st)
      end
  end.

Definition run (steps : list Step) (st : State) : State :=
  foldl (fun st s => step s st) st steps.

(** The fallback event carrying [seconds]. *)
Definition fallback (seconds : Q) : FallBackNewFrameEvent :=
  {| newFrameTimestampInSeconds := seconds; isFallback := Some true |}.

(** No call, animation frame callback or timeout is pending. *)
Definition nothing_pending (st : State) : Prop :=
  pending_native_calls st = 0
  ∧ animation_frame_requests st = 0
  ∧ timeouts st = [].

(** The emitter between two cycles: initialised, not listening, the flag
    down and nothing pending. *)
Definition quiet (st : State) : Prop :=
  0 < listeners st
  ∧ isListening st = false
  ∧ NativeEmitterCalled st = false
  ∧ nothing_pending st.

(** The timestamp and the origin that step [s] computes when its
    callback runs from [st]: the value that the pending native call
    resolves with, or the time read in the animation frame callback that
    was requested.  A step whose callback does not run computes none. *)
Definition stamp_given (s : Step) (st : State) : option (Q * string) :=
  match s with
  | NativeResolves resolve =>
      match pending_native_calls st with
      | O => None
      | S _ => (fun seconds => (seconds, "Native")) <$> truthy resolve
      end
  | AnimationFrame seconds =>
      match animation_frame_requests st with
      | O => None
      | S _ => Some (seconds, "JavaScript")
      end
  | _ => None
  end.

(** *** The retry protocol, in the words of the spec

    "Attempt an immediate check; if the confirming event has not
    arrived, wait a fixed delay (3 seconds) once; if still not arrived,
    emit the fallback signal tagged isFallback=true with the timestamp
    already computed; if the confirming event arrives at any point before
    the fallback fires, cancel the fallback and emit nothing further."

    A cycle waits for the native call, then perhaps for an animation
    frame, then for the one delay, and is over with no signal or with
    one.  [confirmed] tells whether the confirming event has arrived. *)
Inductive Phase :=
| AwaitNative (confirmed : bool)
| AwaitFrame (confirmed : bool)
| AwaitDelay (seconds : Q) (origin : string) (confirmed : bool)
| Over (signal : option Q).

Definition retry_protocol (s : Step) (phase : Phase) : Phase :=
  match phase, s with
  | AwaitNative _, NativeNewFrame => AwaitNative true
  | AwaitNative confirmed, NativeResolves resolve =>
      match truthy resolve with
      | Some seconds => if confirmed then Over None else AwaitDelay seconds "Native" false
      | None => AwaitFrame confirmed
      end
  | AwaitNative confirmed, NativeRejects => AwaitFrame confirmed
  | AwaitFrame _, NativeNewFrame => AwaitFrame true
  | AwaitFrame confirmed, AnimationFrame seconds =>
      if confirmed then Over None else AwaitDelay seconds "JavaScript" false
  | AwaitDelay seconds origin _, NativeNewFrame => AwaitDelay seconds origin true
  | AwaitDelay seconds _ confirmed, TimeoutFires =>
      if confirmed then Over None else Over (Some seconds)
  | _, _ => phase
  end.

(** The phase of a cycle after the steps that followed its start. *)
Definition phase_after (steps : list Step) : Phase :=
  foldl (fun phase s => retry_protocol s phase) (AwaitNative false) steps.

(** Whether the confirming event has arrived in time: before the
    fallback fired. *)
Definition confirmed_in (phase : Phase) : bool :=
  match phase with
  | AwaitNative confirmed | AwaitFrame confirmed | AwaitDelay _ _ confirmed => confirmed
  | Over None => true
  | Over (Some _) => false
  end.

(** The fallback signals of a phase. *)
Definition signals (phase : Phase) : list FallBackNewFrameEvent :=
  match phase with
  | Over (Some seconds) => [fallback seconds]
  | _ => []
  end.

(** The emitter [st] is in the phase [phase] of a cycle that began with
    [before] emitted: armed, with the flag as the phase has it, exactly
    the one thing pending that the phase waits for, and nothing emitted;
    or over, the flag down, nothing pending, and the signal of the phase
    emitted. *)
Definition shows (before : list FallBackNewFrameEvent) (phase : Phase) (st : State)
  : Prop :=
  0 < listeners st
  ∧ emitted st = before ++ signals phase
  ∧ match phase with
    | AwaitNative confirmed =>
        isListening st = true ∧ NativeEmitterCalled st = confirmed
        ∧ pending_native_calls st = 1 ∧ animation_frame_requests st = 0
        ∧ timeouts st = []
    | AwaitFrame confirmed =>
        isListening st = true ∧ NativeEmitterCalled st = confirmed
        ∧ pending_native_calls st = 0 ∧ animation_frame_requests st = 1
        ∧ timeouts st = []
    | AwaitDelay seconds origin confirmed =>
        isListening st = true ∧ NativeEmitterCalled st = confirmed
        ∧ pending_native_calls st = 0 ∧ animation_frame_requests st = 0
        ∧ timeouts st
          = [(3000%Z, {| fallbackSeconds := seconds;
                         origin := origin;
                         firstAttemptCompleted := true |})]
    | Over _ =>
        isListening st = false ∧ NativeEmitterCalled st = false
        ∧ nothing_pending st
    end.

(** In every cycle, a fallback that has not fired when the confirming
    event comes never fires. *)
Definition no_fallback_after_confirmation (st : State) : Prop :=
  ∀ steps steps',
    Forall (fun s => s ≠ Call_startListenerAsync) (steps ++ steps') →
    emitted (run (Call_startListenerAsync :: steps) st) = emitted st →
    emitted (run (Call_startListenerAsync :: steps ++ NativeNewFrame :: steps') st)
    = emitted st.

End Emitter.

(** ** The tracing integration *)

Module Span.

(** A recorded span. *)
Record t := {
  spanId : string;
  op : option string;
  description : option string;
  startTimestamp : Q;
  endTimestamp : option Q;
}.

Definition set_startTimestamp (seconds : Q) (span : t) : t :=
  {| spanId := spanId span;
     op := op span;
     description := description span;
     startTimestamp := seconds;
     endTimestamp := endTimestamp span |}.

End Span.

Module Tracing.

(** [_maxAppStart]: "We filter out App starts more than 60s". *)
Definition _maxAppStart : Q := 60000.

Record Measurement := {
  value : Q;
  unit : string;
}.

(** [transaction.data?.route?.hasBeenSeen], read for its truth value. *)
Record RouteData := {
  hasBeenSeen : bool;
}.

Record TransactionData := {
  route : option RouteData;
}.

Record TransactionContext := {
  context_name : string;
  context_op : option string;
  context_trimEnd : bool;
  context_data : option TransactionData;
}.

(** [NativeAppStartResponse] *)
Record NativeAppStartResponse := {
  isColdStart : bool;
  appStartTime : Q;
  didFetchAppStart : bool;
}.

(** The callbacks that this file registers with
    [registerBeforeFinishCallback], one constructor per closure. *)
Inductive BeforeFinishCallback :=
| InteractionFinished
| OnlySampleIfChildSpans
| NotifyTransactionFinish
| AttachAppStart
| AdjustTransactionDuration (finalTimeoutMs : Z)
| IgnoreEmptyBackNavigation.

#[global] Instance BeforeFinishCallback_eq_dec : EqDecision BeforeFinishCallback.
Proof. solve_decision. Defined.

(** An [IdleTransaction] object.  [spanRecorder] lists the recorded spans,
    the transaction's own span among them under the transaction's
    [spanId]. *)
Record IdleTransaction := {
  spanId : string;
  name : string;
  op : option string;
  trimEnd : bool;
  startTimestamp : Q;
  sampled : option bool;
  status : option string;
  data : option TransactionData;
  spanRecorder : option (list Span.t);
  _measurements : gmap string Measurement;
  _beforeFinishCallbacks : list BeforeFinishCallback;
  idleTimeoutMs_of : Z;
  finalTimeoutMs_of : Z;
  idleTimeoutCanceledPermanently : bool;
  cancelsInBackground : bool;
  finished : bool;
}.

Definition set_op (v : option string) (t : IdleTransaction) : IdleTransaction :=
  {| spanId := spanId t; name := name t; op := v; trimEnd := trimEnd t;
     startTimestamp := startTimestamp t; sampled := sampled t; status := status t;
     data := data t; spanRecorder := spanRecorder t; _measurements := _measurements t;
     _beforeFinishCallbacks := _beforeFinishCallbacks t;
     idleTimeoutMs_of := idleTimeoutMs_of t; finalTimeoutMs_of := finalTimeoutMs_of t;
     idleTimeoutCanceledPermanently := idleTimeoutCanceledPermanently t;
     cancelsInBackground := cancelsInBackground t; finished := finished t |}.

Definition set_startTimestamp (v : Q) (t : IdleTransaction) : IdleTransaction :=
  {| spanId := spanId t; name := name t; op := op t; trimEnd := trimEnd t;
     startTimestamp := v; sampled := sampled t; status := status t;
     data := data t; spanRecorder := spanRecorder t; _measurements := _measurements t;
     _beforeFinishCallbacks := _beforeFinishCallbacks t;
     idleTimeoutMs_of := idleTimeoutMs_of t; finalTimeoutMs_of := finalTimeoutMs_of t;
     idleTimeoutCanceledPermanently := idleTimeoutCanceledPermanently t;
     cancelsInBackground := cancelsInBackground t; finished := finished t |}.

Definition set_sampled (v : option bool) (t : IdleTransaction) : IdleTransaction :=
  {| spanId := spanId t; name := name t; op := op t; trimEnd := trimEnd t;
     startTimestamp := startTimestamp t; sampled := v; status := status t;
     data := data t; spanRecorder := spanRecorder t; _measurements := _measurements t;
     _beforeFinishCallbacks := _beforeFinishCallbacks t;
     idleTimeoutMs_of := idleTimeoutMs_of t; finalTimeoutMs_of := finalTimeoutMs_of t;
     idleTimeoutCanceledPermanently := idleTimeoutCanceledPermanently t;
     cancelsInBackground := cancelsInBackground t; finished := finished t |}.

(** [transaction.setStatus(status)] *)
Definition setStatus (v : string) (t : IdleTransaction) : IdleTransaction :=
  {| spanId := spanId t; name := name t; op := op t; trimEnd := trimEnd t;
     startTimestamp := startTimestamp t; sampled := sampled t; status := Some v;
     data := data t; spanRecorder := spanRecorder t; _measurements := _measurements t;
     _beforeFinishCallbacks := _beforeFinishCallbacks t;
     idleTimeoutMs_of := idleTimeoutMs_of t; finalTimeoutMs_of := finalTimeoutMs_of t;
     idleTimeoutCanceledPermanently := idleTimeoutCanceledPermanently t;
     cancelsInBackground := cancelsInBackground t; finished := finished t |}.

Definition set_spans (v : option (list Span.t)) (t : IdleTransaction) : IdleTransaction :=
  {| spanId := spanId t; name := name t; op := op t; trimEnd := trimEnd t;
     startTimestamp := startTimestamp t; sampled := sampled t; status := status t;
     data := data t; spanRecorder := v; _measurements := _measurements t;
     _beforeFinishCallbacks := _beforeFinishCallbacks t;
     idleTimeoutMs_of := idleTimeoutMs_of t; finalTimeoutMs_of := finalTimeoutMs_of t;
     idleTimeoutCanceledPermanently := idleTimeoutCanceledPermanently t;
     cancelsInBackground := cancelsInBackground t; finished := finished t |}.

(** [transaction.setMeasurement(name, value, unit)] *)
Definition setMeasurement (measurement : string) (v : Q) (u : string)
    (t : IdleTransaction) : IdleTransaction :=
  {| spanId := spanId t; name := name t; op := op t; trimEnd := trimEnd t;
     startTimestamp := startTimestamp t; sampled := sampled t; status := status t;
     data := data t; spanRecorder := spanRecorder t;
     _measurements := <[measurement := {| value := v; unit := u |}]> (_measurements t);
     _beforeFinishCallbacks := _beforeFinishCallbacks t;
     idleTimeoutMs_of := idleTimeoutMs_of t; finalTimeoutMs_of := finalTimeoutMs_of t;
     idleTimeoutCanceledPermanently := idleTimeoutCanceledPermanently t;
     cancelsInBackground := cancelsInBackground t; finished := finished t |}.

(** [transaction.registerBeforeFinishCallback(callback)] *)
Definition registerBeforeFinishCallback (callback : BeforeFinishCallback)
    (t : IdleTransaction) : IdleTransaction :=
  {| spanId := spanId t; name := name t; op := op t; trimEnd := trimEnd t;
     startTimestamp := startTimestamp t; sampled := sampled t; status := status t;
     data := data t; spanRecorder := spanRecorder t; _measurements := _measurements t;
     _beforeFinishCallbacks := _beforeFinishCallbacks t ++ [callback];
     idleTimeoutMs_of := idleTimeoutMs_of t; finalTimeoutMs_of := finalTimeoutMs_of t;
     idleTimeoutCanceledPermanently := idleTimeoutCanceledPermanently t;
     cancelsInBackground := cancelsInBackground t; finished := finished t |}.

(** [transaction.cancelIdleTimeout(undefined, { restartOnChildSpanChange:
    false })] *)
Definition cancelIdleTimeout (t : IdleTransaction) : IdleTransaction :=
  {| spanId := spanId t; name := name t; op := op t; trimEnd := trimEnd t;
     startTimestamp := startTimestamp t; sampled := sampled t; status := status t;
     data := data t; spanRecorder := spanRecorder t; _measurements := _measurements t;
     _beforeFinishCallbacks := _beforeFinishCallbacks t;
     idleTimeoutMs_of := idleTimeoutMs_of t; finalTimeoutMs_of := finalTimeoutMs_of t;
     idleTimeoutCanceledPermanently := true;
     cancelsInBackground := cancelsInBackground t; finished := finished t |}.

(** Modelled from the spec: [cancelInBackground(tx)] of ./transaction,
    whose source file is not available.  The spec has an idle transaction
    "cancelled (not finished normally) if the host application
    transitions to background state while it is pending"; the transaction
    is marked as one that this applies to. *)
Definition cancelInBackground (t : IdleTransaction) : IdleTransaction :=
  {| spanId := spanId t; name := name t; op := op t; trimEnd := trimEnd t;
     startTimestamp := startTimestamp t; sampled := sampled t; status := status t;
     data := data t; spanRecorder := spanRecorder t; _measurements := _measurements t;
     _beforeFinishCallbacks := _beforeFinishCallbacks t;
     idleTimeoutMs_of := idleTimeoutMs_of t; finalTimeoutMs_of := finalTimeoutMs_of t;
     idleTimeoutCanceledPermanently := idleTimeoutCanceledPermanently t;
     cancelsInBackground := true; finished := finished t |}.

Definition set_finished (t : IdleTransaction) : IdleTransaction :=
  {| spanId := spanId t; name := name t; op := op t; trimEnd := trimEnd t;
     startTimestamp := startTimestamp t; sampled := sampled t; status := status t;
     data := data t; spanRecorder := spanRecorder t; _measurements := _measurements t;
     _beforeFinishCallbacks := _beforeFinishCallbacks t;
     idleTimeoutMs_of := idleTimeoutMs_of t; finalTimeoutMs_of := finalTimeoutMs_of t;
     idleTimeoutCanceledPermanently := idleTimeoutCanceledPermanently t;
     cancelsInBackground := cancelsInBackground t; finished := true |}.

(** [ReactNativeTracingOptions], the options read by the methods below;
    [routingInstrumentation] tells whether one was passed. *)
Record ReactNativeTracingOptions := {
  idleTimeoutMs : Z;
  finalTimeoutMs : Z;
  routingInstrumentation : bool;
  ignoreEmptyBackNavigationTransactions : bool;
  enableAppStartTracking : bool;
  enableUserInteractionTracing : bool;
}.

(** The constants and functions the file imports.  [span_id_at n] is the
    id of the [n]-th span that [startChild] creates. *)
Class Imports := {
  APP_START_COLD : string;
  APP_START_WARM : string;
  APP_START_COLD_OP : string;
  APP_START_WARM_OP : string;
  UI_LOAD : string;
  onlySampleIfChildSpans : IdleTransaction -> IdleTransaction;
  adjustTransactionDuration : Z -> IdleTransaction -> Q -> IdleTransaction;
  setSpanDurationAsMeasurement : string -> Span.t -> IdleTransaction -> IdleTransaction;
  span_id_at : nat -> string;
}.

(** Calls of the native-frames and stall-tracking instrumentations. *)
Inductive Notification :=
| TransactionStarted (transaction : string)
| TransactionFinished (transaction : string).

(** The integration's fields.  Objects that several places hold
    (transactions) live in [transactions] under their span id, and a field
    or a scope holds the id.  [active_transaction] gives the transaction
    on the scope of each hub; hub [0] is the one of [getCurrentHub()]. *)
Record State := {
  options : ReactNativeTracingOptions;
  useAppStartWithProfiler : bool;
  _inflightInteractionTransaction : option string;
  _getCurrentHub : option nat;
  _awaitingAppStartData : option NativeAppStartResponse;
  _appStartFinishTimestamp : option Q;
  _currentRoute : option string;
  _currentViewName : option string;
  transactions : gmap string IdleTransaction;
  active_transaction : gmap nat string;
  spans_created : nat;
  notifications : list Notification;
  log : list LogEntry;
}.

Definition set_inflight (v : option string) (st : State) : State :=
  {| options := options st; useAppStartWithProfiler := useAppStartWithProfiler st;
     _inflightInteractionTransaction := v; _getCurrentHub := _getCurrentHub st;
     _awaitingAppStartData := _awaitingAppStartData st;
     _appStartFinishTimestamp := _appStartFinishTimestamp st;
     _currentRoute := _currentRoute st; _currentViewName := _currentViewName st;
     transactions := transactions st; active_transaction := active_transaction st;
     spans_created := spans_created st; notifications := notifications st;
     log := log st |}.

Definition set_awaiting (v : option NativeAppStartResponse) (st : State) : State :=
  {| options := options st; useAppStartWithProfiler := useAppStartWithProfiler st;
     _inflightInteractionTransaction := _inflightInteractionTransaction st;
     _getCurrentHub := _getCurrentHub st;
     _awaitingAppStartData := v;
     _appStartFinishTimestamp := _appStartFinishTimestamp st;
     _currentRoute := _currentRoute st; _currentViewName := _currentViewName st;
     transactions := transactions st; active_transaction := active_transaction st;
     spans_created := spans_created st; notifications := notifications st;
     log := log st |}.

Definition set_transactions (v : gmap string IdleTransaction) (st : State) : State :=
  {| options := options st; useAppStartWithProfiler := useAppStartWithProfiler st;
     _inflightInteractionTransaction := _inflightInteractionTransaction st;
     _getCurrentHub := _getCurrentHub st;
     _awaitingAppStartData := _awaitingAppStartData st;
     _appStartFinishTimestamp := _appStartFinishTimestamp st;
     _currentRoute := _currentRoute st; _currentViewName := _currentViewName st;
     transactions := v; active_transaction := active_transaction st;
     spans_created := spans_created st; notifications := notifications st;
     log := log st |}.

Definition set_active (v : gmap nat string) (st : State) : State :=
  {| options := options st; useAppStartWithProfiler := useAppStartWithProfiler st;
     _inflightInteractionTransaction := _inflightInteractionTransaction st;
     _getCurrentHub := _getCurrentHub st;
     _awaitingAppStartData := _awaitingAppStartData st;
     _appStartFinishTimestamp := _appStartFinishTimestamp st;
     _currentRoute := _currentRoute st; _currentViewName := _currentViewName st;
     transactions := transactions st; active_transaction := v;
     spans_created := spans_created st; notifications := notifications st;
     log := log st |}.

Definition set_spans_created (v : nat) (st : State) : State :=
  {| options := options st; useAppStartWithProfiler := useAppStartWithProfiler st;
     _inflightInteractionTransaction := _inflightInteractionTransaction st;
     _getCurrentHub := _getCurrentHub st;
     _awaitingAppStartData := _awaitingAppStartData st;
     _appStartFinishTimestamp := _appStartFinishTimestamp st;
     _currentRoute := _currentRoute st; _currentViewName := _currentViewName st;
     transactions := transactions st; active_transaction := active_transaction st;
     spans_created := v; notifications := notifications st;
     log := log st |}.

Definition notify (n : Notification) (st : State) : State :=
  {| options := options st; useAppStartWithProfiler := useAppStartWithProfiler st;
     _inflightInteractionTransaction := _inflightInteractionTransaction st;
     _getCurrentHub := _getCurrentHub st;
     _awaitingAppStartData := _awaitingAppStartData st;
     _appStartFinishTimestamp := _appStartFinishTimestamp st;
     _currentRoute := _currentRoute st; _currentViewName := _currentViewName st;
     transactions := transactions st; active_transaction := active_transaction st;
     spans_created := spans_created st; notifications := notifications st ++ [n];
     log := log st |}.

Definition logger (level : LogLevel) (message : string) (st : State) : State :=
  {| options := options st; useAppStartWithProfiler := useAppStartWithProfiler st;
     _inflightInteractionTransaction := _inflightInteractionTransaction st;
     _getCurrentHub := _getCurrentHub st;
     _awaitingAppStartData := _awaitingAppStartData st;
     _appStartFinishTimestamp := _appStartFinishTimestamp st;
     _currentRoute := _currentRoute st; _currentViewName := _currentViewName st;
     transactions := transactions st; active_transaction := active_transaction st;
     spans_created := spans_created st; notifications := notifications st;
     log := log st ++ [(level, message)] |}.

(** [onAppStartFinish] *)
Definition onAppStartFinish (endTimestamp : Q) (st : State) : State :=
  {| options := options st; useAppStartWithProfiler := useAppStartWithProfiler st;
     _inflightInteractionTransaction := _inflightInteractionTransaction st;
     _getCurrentHub := _getCurrentHub st;
     _awaitingAppStartData := _awaitingAppStartData st;
     _appStartFinishTimestamp := Some endTimestamp;
     _currentRoute := _currentRoute st; _currentViewName := _currentViewName st;
     transactions := transactions st; active_transaction := active_transaction st;
     spans_created := spans_created st; notifications := notifications st;
     log := log st |}.

(** [_onConfirmRoute] *)
Definition _onConfirmRoute (currentViewName : option string) (st : State) : State :=
  {| options := options st; useAppStartWithProfiler := useAppStartWithProfiler st;
     _inflightInteractionTransaction := _inflightInteractionTransaction st;
     _getCurrentHub := _getCurrentHub st;
     _awaitingAppStartData := _awaitingAppStartData st;
     _appStartFinishTimestamp := _appStartFinishTimestamp st;
     _currentRoute := currentViewName; _currentViewName := currentViewName;
     transactions := transactions st; active_transaction := active_transaction st;
     spans_created := spans_created st; notifications := notifications st;
     log := log st |}.

(** [x] where the code tests [!x] on a string that may be [undefined]:
    [undefined] and the empty string are falsy. *)
Definition truthy_string (x : option string) : option string :=
  match x with
  | Some s => if decide (s = EmptyString) then None else Some s
  | None => None
  end.

(** The same on a number: [undefined] and [0] are falsy. *)
Definition truthy_number (x : option Q) : option Q :=
  match x with
  | Some q => if Qeq_bool q 0 then None else Some q
  | None => None
  end.

(** [`${x}`] of a property that may be [undefined]. *)
Definition template (x : option string) : string := default "undefined" x.

(** Writes the object [t] back under its id. *)
Definition store (ref : string) (t : IdleTransaction) (st : State) : State :=
  set_transactions (<[ref := t]> (transactions st)) st.

(** [this._getCurrentHub?.() || getCurrentHub()] *)
Definition current_hub (st : State) : nat := default 0%nat (_getCurrentHub st).

(** [getActiveTransaction(hub)] *)
Definition getActiveTransaction (hub : nat) (st : State) : option string :=
  active_transaction st !! hub.

(** [onTransactionStart]; [nearToNow] is the value of [isNearToNow(...)]. *)
Definition onTransactionStart (nearToNow : bool) (transaction : string) (st : State)
  : State :=
  if nearToNow then notify (TransactionStarted transaction) st else st.

(** [onTransactionFinish] *)
Definition onTransactionFinish (transaction : string) (st : State) : State :=
  notify (TransactionFinished transaction) st.

(** [_getAppStartDurationMilliseconds] *)
Definition _getAppStartDurationMilliseconds (appStart : NativeAppStartResponse)
    (st : State) : option Q :=
  match truthy_number (_appStartFinishTimestamp st) with
  | None => None
  | Some appStartFinishTimestamp =>
      Some (appStartFinishTimestamp * 1000 - appStartTime appStart)%Q
  end.

(** [transaction.spanRecorder?.spans.find(span => span.op === operation)],
    then, on the span found, [span.startTimestamp = appStartTimeSeconds]
    and [setSpanDurationAsMeasurement(measurement, span)]. *)
Definition restart_span (operation measurement : string) (appStartTimeSeconds : Q)
    `{Imports} (t : IdleTransaction) : IdleTransaction :=
  match spanRecorder t with
  | None => t
  | Some spans =>
      match list_find (fun span => Span.op span = Some operation) spans with
      | None => t
      | Some (i, span) =>
          let span := Span.set_startTimestamp appStartTimeSeconds span in
          let t := set_spans (Some (<[i := span]> spans)) t in
          setSpanDurationAsMeasurement measurement span t
      end
  end.

(** [transaction.startChild({description, op, startTimestamp,
    endTimestamp})]: the child is recorded when the transaction has a
    recorder. *)
Definition startChild `{Imports} (description operation : string) (startTimestamp : Q)
    (endTimestamp : option Q) (t : IdleTransaction) (st : State)
  : IdleTransaction * State :=
  let child :=
    {| Span.spanId := span_id_at (spans_created st);
       Span.op := Some operation;
       Span.description := Some description;
       Span.startTimestamp := startTimestamp;
       Span.endTimestamp := endTimestamp |} in
  (match spanRecorder t with
   | Some spans => set_spans (Some (spans ++ [child])) t
   | None => t
   end,
   set_spans_created (S (spans_created st)) st).

(** [_addAppStartData] *)
Definition _addAppStartData `{Imports} (transaction : IdleTransaction)
    (appStart : NativeAppStartResponse) (st : State) : IdleTransaction * State :=
  match truthy_number (_getAppStartDurationMilliseconds appStart st) with
  | None => (transaction, logger LogWarn "App start was never finished." st)
  | Some appStartDurationMilliseconds =>
      if Qle_bool _maxAppStart appStartDurationMilliseconds then (transaction, st)
      else
        let appStartTimeSeconds := (appStartTime appStart / 1000)%Q in
        let transaction := set_startTimestamp appStartTimeSeconds transaction in
        let transaction :=
          restart_span "ui.load.initial_display" "time_to_initial_display"
            appStartTimeSeconds transaction in
        let transaction :=
          restart_span "ui.load.full_display" "time_to_full_display"
            appStartTimeSeconds transaction in
        let operation := if isColdStart appStart then APP_START_COLD_OP else APP_START_WARM_OP in
        let (transaction, st) :=
          startChild (if isColdStart appStart then "Cold App Start" else "Warm App Start")
            operation appStartTimeSeconds (_appStartFinishTimestamp st) transaction st in
        let measurement := if isColdStart appStart then APP_START_COLD else APP_START_WARM in
        (setMeasurement measurement appStartDurationMilliseconds "millisecond" transaction, st)
  end.

(** The second callback of [_createRouteTransaction]. *)
Definition attachAppStart `{Imports} (transaction : IdleTransaction) (st : State)
  : IdleTransaction * State :=
  if enableAppStartTracking (options st) then
    match _awaitingAppStartData st with
    | Some awaitingAppStartData =>
        let transaction := set_op (Some UI_LOAD) transaction in
        let (transaction, st) := _addAppStartData transaction awaitingAppStartData st in
        (transaction, set_awaiting None st)
    | None => (transaction, st)
    end
  else (transaction, st).

(** The filter of the last callback: a span that is neither the
    transaction's own, nor an initial display span, nor a navigation
    processing span. *)
Definition other_child_span (transaction : IdleTransaction) (span : Span.t) : bool :=
  bool_decide (Span.spanId span ≠ spanId transaction)
  && bool_decide (Span.op span ≠ Some "ui.load.initial_display")
  && bool_decide (Span.op span ≠ Some "navigation.processing").

(** [transaction.data?.route?.hasBeenSeen] *)
Definition route_hasBeenSeen (transaction : IdleTransaction) : bool :=
  match data transaction ≫= route with
  | Some r => hasBeenSeen r
  | None => false
  end.

(** The callback that [_createRouteTransaction] registers when
    [ignoreEmptyBackNavigationTransactions] is set. *)
Definition ignoreEmptyBackNavigation (transaction : IdleTransaction) (st : State)
  : IdleTransaction * State :=
  if route_hasBeenSeen transaction
     && match spanRecorder transaction with
        | None => true
        | Some spans =>
            bool_decide
              (length (filter (fun span => other_child_span transaction span = true) spans)
               = 0%nat)
        end
  then
    (set_sampled (Some false) transaction,
     logger LogLog
       "[ReactNativeTracing] Not sampling transaction as route has been seen before. Pass ignoreEmptyBackNavigationTransactions = false to disable this feature."
       st)
  else (transaction, st).

(** One before-finish callback, run on the transaction object [ref]. *)
Definition run_callback `{Imports} (callback : BeforeFinishCallback) (ref : string)
    (endTimestamp : Q) (st : State) : State :=
  match transactions st !! ref with
  | None => st
  | Some transaction =>
      match callback with
      | InteractionFinished => onTransactionFinish ref (set_inflight None st)
      | OnlySampleIfChildSpans => store ref (onlySampleIfChildSpans transaction) st
      | NotifyTransactionFinish => onTransactionFinish ref st
      | AttachAppStart =>
          let (transaction, st) := attachAppStart transaction st in
          store ref transaction st
      | AdjustTransactionDuration finalTimeoutMs =>
          store ref (adjustTransactionDuration finalTimeoutMs transaction endTimestamp) st
      | IgnoreEmptyBackNavigation =>
          let (transaction, st) := ignoreEmptyBackNavigation transaction st in
          store ref transaction st
      end
  end.

(** Modelled from the spec: finishing an idle transaction, which is
    @sentry/core's.  The spec has the before-finish callbacks "invoked in
    registration order immediately prior to becoming immutable". *)
Definition end_transaction `{Imports} (ref : string) (endTimestamp : Q) (st : State)
  : State :=
  match transactions st !! ref with
  | None => st
  | Some transaction =>
      let st :=
        foldl (fun st callback => run_callback callback ref endTimestamp st) st
          (_beforeFinishCallbacks transaction) in
      set_transactions (alter set_finished ref (transactions st)) st
  end.

(** What the creation of a transaction reads from outside: the id and
    start time it gets, the sampling decision, whether it records spans,
    the value of [isNearToNow], and the current time in seconds. *)
Record NewTransaction := {
  new_spanId : string;
  new_startTimestamp : Q;
  new_sampled : option bool;
  new_records_spans : bool;
  new_isNearToNow : bool;
  now : Q;
}.

(** [startIdleTransaction(hub, context, idleTimeoutMs, finalTimeoutMs,
    true)] of @sentry/core: the new transaction, put on the scope of
    [hub]. *)
Definition startIdleTransaction (r : NewTransaction) (hub : nat)
    (context : TransactionContext) (idleTimeoutMs finalTimeoutMs : Z) (st : State)
  : string * State :=
  let own :=
    {| Span.spanId := new_spanId r;
       Span.op := context_op context;
       Span.description := Some (context_name context);
       Span.startTimestamp := new_startTimestamp r;
       Span.endTimestamp := None |} in
  let tx :=
    {| spanId := new_spanId r;
       name := context_name context;
       op := context_op context;
       trimEnd := context_trimEnd context;
       startTimestamp := new_startTimestamp r;
       sampled := new_sampled r;
       status := None;
       data := context_data context;
       spanRecorder := if new_records_spans r then Some [own] else None;
       _measurements := ∅;
       _beforeFinishCallbacks := [];
       idleTimeoutMs_of := idleTimeoutMs;
       finalTimeoutMs_of := finalTimeoutMs;
       idleTimeoutCanceledPermanently := false;
       cancelsInBackground := false;
       finished := false |} in
  (new_spanId r,
   set_active (<[hub := new_spanId r]> (active_transaction st)) (store (new_spanId r) tx st)).

(** [_startIdleTransaction] *)
Definition _startIdleTransaction (r : NewTransaction) (context : TransactionContext)
    (st : State) : string * State :=
  let hub := current_hub st in
  let (tx, st) :=
    startIdleTransaction r hub context (idleTimeoutMs (options st))
      (finalTimeoutMs (options st)) st in
  (tx, set_transactions (alter cancelInBackground tx (transactions st)) st).

Definition register (callback : BeforeFinishCallback) (ref : string) (st : State)
  : State :=
  set_transactions (alter (registerBeforeFinishCallback callback) ref (transactions st)) st.

Record UserInteractionId := {
  elementId : option string;
  interaction_op : string;
}.

(** [startUserInteractionTransaction] *)
Definition startUserInteractionTransaction `{Imports} (r : NewTransaction)
    (userInteractionId : UserInteractionId) (st : State) : option string * State :=
  let operation := interaction_op userInteractionId in
  if negb (enableUserInteractionTracing (options st)) then
    (None, logger LogLog "[ReactNativeTracing] User Interaction Tracing is disabled." st)
  else if negb (routingInstrumentation (options st)) then
    (None,
     logger LogError
       "[ReactNativeTracing] User Interaction Tracing is not working because no routing instrumentation is set."
       st)
  else
    match truthy_string (elementId userInteractionId) with
    | None =>
        (None,
         logger LogLog
           "[ReactNativeTracing] User Interaction Tracing can not create transaction with undefined elementId."
           st)
    | Some elementId =>
        match truthy_string (_currentRoute st) with
        | None =>
            (None,
             logger LogLog
               "[ReactNativeTracing] User Interaction Tracing can not create transaction without a current route."
               st)
        | Some currentRoute =>
            let hub := current_hub st in
            let activeTransaction := getActiveTransaction hub st in
            let activeTransactionIsNotInteraction :=
              match activeTransaction, _inflightInteractionTransaction st with
              | None, _ => true
              | Some _, None => true
              | Some active, Some inflight => bool_decide (active ≠ inflight)
              end in
            match (if activeTransactionIsNotInteraction then activeTransaction else None) with
            | Some active =>
                (None,
                 logger LogWarn
                   ("[ReactNativeTracing] Did not create " +:+ operation
                      +:+ " transaction because active transaction "
                      +:+ template (name <$> transactions st !! active)
                      +:+ " exists on the scope.") st)
            | None =>
                let st :=
                  match _inflightInteractionTransaction st with
                  | Some inflight =>
                      set_inflight None
                        (set_transactions
                           (alter cancelIdleTimeout inflight (transactions st)) st)
                  | None => st
                  end in
                let name := currentRoute +:+ "." +:+ elementId in
                let context :=
                  {| context_name := name;
                     context_op := Some operation;
                     context_trimEnd := true;
                     context_data := None |} in
                let (tx, st) := _startIdleTransaction r context st in
                let st := set_inflight (Some tx) st in
                let st := register InteractionFinished tx st in
                let st := register OnlySampleIfChildSpans tx st in
                let st := onTransactionStart (new_isNearToNow r) tx st in
                let st :=
                  logger LogLog
                    ("[ReactNativeTracing] User Interaction Tracing Created " +:+ operation
                       +:+ " transaction " +:+ name +:+ ".") st in
                (Some tx, st)
            end
        end
    end.

(** [_createRouteTransaction] *)
Definition _createRouteTransaction `{Imports} (r : NewTransaction)
    (context : TransactionContext) (st : State) : option string * State :=
  match _getCurrentHub st with
  | None =>
      (None,
       logger LogWarn
         ("[ReactNativeTracing] Did not create " +:+ template (context_op context)
            +:+ " transaction because _getCurrentHub is invalid.") st)
  | Some _ =>
      let st :=
        match _inflightInteractionTransaction st with
        | Some inflight =>
            let st :=
              logger LogLog
                ("[ReactNativeTracing] Canceling "
                   +:+ template (transactions st !! inflight ≫= op)
                   +:+ " transaction because navigation "
                   +:+ template (context_op context) +:+ ".") st in
            let st :=
              set_transactions (alter (setStatus "cancelled") inflight (transactions st)) st in
            end_transaction inflight (now r) st
        | None => st
        end in
      let finalTimeoutMs := finalTimeoutMs (options st) in
      let expandedContext :=
        {| context_name := context_name context;
           context_op := context_op context;
           context_trimEnd := true;
           context_data := context_data context |} in
      let (idleTransaction, st) := _startIdleTransaction r expandedContext st in
      let st := onTransactionStart (new_isNearToNow r) idleTransaction st in
      let st :=
        logger LogLog
          ("[ReactNativeTracing] Starting " +:+ template (context_op context)
             +:+ " transaction " +:+ double_quote +:+ context_name context
             +:+ double_quote +:+ " on scope") st in
      let st := register NotifyTransactionFinish idleTransaction st in
      let st := register AttachAppStart idleTransaction st in
      let st := register (AdjustTransactionDuration finalTimeoutMs) idleTransaction st in
      let st :=
        if ignoreEmptyBackNavigationTransactions (options st) then
          register IgnoreEmptyBackNavigation idleTransaction st
        else st in
      (Some idleTransaction, st)
  end.

(** [_onRouteWillChange] *)
Definition _onRouteWillChange `{Imports} (r : NewTransaction)
    (context : TransactionContext) (st : State) : option string * State :=
  _createRouteTransaction r context st.

(** A transaction is active on the scope and it is not the interaction
    transaction in flight. *)
Definition unrelated_active (st : State) : Prop :=
  ∃ active, getActiveTransaction (current_hub st) st = Some active
            ∧ _inflightInteractionTransaction st ≠ Some active.

(** A span that the last callback of [_createRouteTransaction] passes
    over: the transaction's own span, an initial display span or a
    navigation processing span. *)
Definition housekeeping_span (transaction : IdleTransaction) (span : Span.t) : Prop :=
  Span.spanId span = spanId transaction
  ∨ Span.op span = Some "ui.load.initial_display"
  ∨ Span.op span = Some "navigation.processing".

End Tracing.


(** ** More of the profiling integration *)

Module ProfilingHooks.

Import Merge Profiling.

(** [options._experiments.profilesSampleRate] as [_shouldStartProfiling]
    reads it: [undefined] without a hub, a client, [_experiments] or a
    number under [profilesSampleRate]. *)
Definition sample_rate (st : State) : option Q :=
  ((_getCurrentHub st ≫= getClient) ≫= _experiments) ≫= profilesSampleRate.

(** What [setupOnce] reads from outside: [isHermesEnabled()], whether
    [getClient()] gave a client with an [on] method, the value of
    [getActiveSpan()], and what a start of profiling reads. *)
Record SetupReadings := {
  isHermesEnabled : bool;
  client_with_on : bool;
  getActiveSpan : option Span;
  on_active_span : Readings;
}.

(** [setupOnce]: the state after it, whether the hooks [spanStart],
    [spanEnd] and [beforeEnvelope] were registered, and the active span
    after it. *)
Definition setupOnce `{Imports} (r : SetupReadings) (st : State)
  : State * bool * option Span :=
  if negb (isHermesEnabled r) then
    (logger LogLog "[Profiling] Hermes is not enabled, not adding profiling integration." st,
     false, getActiveSpan r)
  else if negb (client_with_on r) then (st, false, getActiveSpan r)
  else
    let (st, activeSpan) :=
      _startCurrentProfileForActiveTransaction (on_active_span r) (getActiveSpan r) st in
    (st, true, activeSpan).

(** The loop of the [beforeEnvelope] hook: the profiles to add, the
    reports after the calls, and the state. *)
Fixpoint collect_profiles `{Imports} (profiledTransactions : list Event) (st : State)
  : list ProfileEvent * list Event * State :=
  match profiledTransactions with
  | [] => ([], [], st)
  | profiledTransaction :: rest =>
      let '(profile, profiledTransaction, st) :=
        _createProfileEventFor profiledTransaction st in
      let '(profiles, rest, st) := collect_profiles rest st in
      (match profile with
       | Some profile => profile :: profiles
       | None => profiles
       end,
       profiledTransaction :: rest, st)
  end.

(** The [beforeEnvelope] hook.  [profiledTransactions] is the value of
    [findProfiledTransactionsFromEnvelope(envelope)]; the first component
    is the list handed to [addProfilesToEnvelope], [None] when the hook
    returns before that call. *)
Definition beforeEnvelope `{Imports} (profiledTransactions : list Event) (st : State)
  : option (list ProfileEvent) * list Event * State :=
  if (FifoCache.size (PROFILE_QUEUE st) =? 0)%nat then (None, profiledTransactions, st)
  else
    match profiledTransactions with
    | [] =>
        (None, [],
         logger LogLog "[Profiling] no profiled transactions found in envelope" st)
    | _ =>
        let '(profilesToAddToEnvelope, reports, st) :=
          collect_profiles profiledTransactions st in
        (Some profilesToAddToEnvelope, reports, st)
    end.

(** Every session has its hard stop pending: the one timeout that is
    pending is the one in [_currentProfileTimeout], set for
    [MAX_PROFILE_DURATION_MS], and a session is never without it. *)
Definition deadline_set `{Imports} (st : State) : Prop :=
  (is_Some (_currentProfile st) → is_Some (_currentProfileTimeout st))
  ∧ timers st
    = match _currentProfileTimeout st with
      | Some handle => [(handle, MAX_PROFILE_DURATION_MS)]
      | None => []
      end.

(** The samples refer to stacks of the profile and the stacks to frames
    of the profile. *)
Definition well_indexed (p : ThreadCpuProfile) : Prop :=
  Forall (fun sample => (0 <= stack_id sample < Z.of_nat (length (stacks p)))%Z)
    (samples p)
  ∧ Forall (Forall (fun frameId => (0 <= frameId < Z.of_nat (length (frames p)))%Z))
      (stacks p).

End ProfilingHooks.

(** ** More of the fallback emitter *)

Module EmitterCounts.

Import Emitter.

Definition is_start (s : Step) : bool :=
  match s with Call_startListenerAsync => true | _ => false end.

(** The number of calls of [startListenerAsync] among the steps. *)
Definition starts (steps : list Step) : nat :=
  length (filter (fun s => is_start s = true) steps).

(** What the event loop still holds for the emitter. *)
Definition pending (st : State) : nat :=
  pending_native_calls st + animation_frame_requests st + length (timeouts st).

(** Every timeout pending was set after a first check, and everything
    emitted is tagged as a fallback. *)
Definition tagged (st : State) : Prop :=
  Forall (fun timeout => firstAttemptCompleted timeout.2 = true) (timeouts st)
  ∧ Forall (fun event => isFallback event = Some true) (emitted st).

End EmitterCounts.

(** ** More of the tracing integration *)

Module PartialOptions.

(** [Partial<ReactNativeTracingOptions>], the constructor's argument: a
    property is absent ([None]) or has a value. *)
Record t := {
  idleTimeout : option Z;
  maxTransactionDuration : option Z;
  idleTimeoutMs : option Z;
  finalTimeoutMs : option Z;
  routingInstrumentation : bool;
  ignoreEmptyBackNavigationTransactions : option bool;
  enableAppStartTracking : option bool;
  enableUserInteractionTracing : option bool;
}.

(** [{}], the default argument. *)
Definition empty : t :=
  {| idleTimeout := None;
     maxTransactionDuration := None;
     idleTimeoutMs := None;
     finalTimeoutMs := None;
     routingInstrumentation := false;
     ignoreEmptyBackNavigationTransactions := None;
     enableAppStartTracking := None;
     enableUserInteractionTracing := None |}.

End PartialOptions.

Module TracingSetup.

Import Tracing.

(** [defaultReactNativeTracingOptions] *)
Definition defaultReactNativeTracingOptions : ReactNativeTracingOptions :=
  {| idleTimeoutMs := 1000;
     finalTimeoutMs := 600000;
     routingInstrumentation := false;
     ignoreEmptyBackNavigationTransactions := true;
     enableAppStartTracking := true;
     enableUserInteractionTracing := false |}.

(** [a ?? b] *)
Definition nullish {A} (a b : option A) : option A :=
  match a with Some _ => a | None => b end.

(** The constructor: [this.options], with every other field as
    declared. *)
Definition constructor (options : PartialOptions.t) : State :=
  {| Tracing.options :=
       {| idleTimeoutMs :=
            default (idleTimeoutMs defaultReactNativeTracingOptions)
              (nullish (PartialOptions.idleTimeoutMs options)
                 (PartialOptions.idleTimeout options));
          finalTimeoutMs :=
            default (finalTimeoutMs defaultReactNativeTracingOptions)
              (nullish (PartialOptions.finalTimeoutMs options)
                 ((fun seconds => seconds * 1000)%Z
                    <$> PartialOptions.maxTransactionDuration options));
          routingInstrumentation := PartialOptions.routingInstrumentation options;
          ignoreEmptyBackNavigationTransactions :=
            default (ignoreEmptyBackNavigationTransactions defaultReactNativeTracingOptions)
              (PartialOptions.ignoreEmptyBackNavigationTransactions options);
          enableAppStartTracking :=
            default (enableAppStartTracking defaultReactNativeTracingOptions)
              (PartialOptions.enableAppStartTracking options);
          enableUserInteractionTracing :=
            default (enableUserInteractionTracing defaultReactNativeTracingOptions)
              (PartialOptions.enableUserInteractionTracing options) |};
     useAppStartWithProfiler := false;
     _inflightInteractionTransaction := None;
     _getCurrentHub := None;
     _awaitingAppStartData := None;
     _appStartFinishTimestamp := None;
     _currentRoute := None;
     _currentViewName := None;
     transactions := ∅;
     active_transaction := ∅;
     spans_created := 0;
     notifications := [];
     log := [] |}.

(** What [_instrumentAppStart] reads from outside: [NATIVE.enableNative],
    the value that [NATIVE.fetchNativeAppStart()] resolves with, the
    value of [getTimeOriginMilliseconds()], and what the creation of a
    transaction reads. *)
Record AppStartReadings := {
  NATIVE_enableNative : bool;
  fetchNativeAppStart : option NativeAppStartResponse;
  getTimeOriginMilliseconds : Q;
  on_transaction : NewTransaction;
}.

(** [_instrumentAppStart], from its call to the end of what follows the
    [await]. *)
Definition _instrumentAppStart `{Imports} (r : AppStartReadings) (st : State) : State :=
  if negb (enableAppStartTracking (options st)) || negb (NATIVE_enableNative r) then st
  else
    match fetchNativeAppStart r with
    | None => st
    | Some appStart =>
        if didFetchAppStart appStart then st
        else
          let st :=
            if negb (useAppStartWithProfiler st) then
              onAppStartFinish (getTimeOriginMilliseconds r / 1000)%Q st
            else st in
          if routingInstrumentation (options st) then set_awaiting (Some appStart) st
          else
            let (idleTransaction, st) :=
              _createRouteTransaction (on_transaction r)
                {| context_name := "App Start";
                   context_op := Some UI_LOAD;
                   context_trimEnd := false;
                   context_data := None |} st in
            match idleTransaction ≫= (fun ref => (fun t => (ref, t)) <$> transactions st !! ref) with
            | Some (ref, transaction) =>
                let (transaction, st) := _addAppStartData transaction appStart st in
                store ref transaction st
            | None => st
            end
    end.

(** A value under [event.contexts.app]. *)
Inductive AppValue :=
| ViewNames (view_names : list string)
| AppText (text : string).

(** The part of an [Event] that [_getCurrentViewEventProcessor] reads and
    writes. *)
Record Event := {
  contexts : option (gmap string (gmap string AppValue));
}.

(** [_getCurrentViewEventProcessor] *)
Definition _getCurrentViewEventProcessor (event : Event) (st : State) : Event :=
  match contexts event, truthy_string (_currentViewName st) with
  | Some contexts, Some currentViewName =>
      {| contexts :=
           Some (<["app" :=
                     Merge.spread {[ "view_names" := ViewNames [currentViewName] ]}
                       (default ∅ (contexts !! "app"))]> contexts) |}
  | _, _ => event
  end.

(** What [_enableNativeFramesTracking] does: nothing but a warning, a
    call of [NATIVE.disableNativeFramesTracking()], nothing at all, or
    a call of [NATIVE.enableNativeFramesTracking()] with a new
    [NativeFramesInstrumentation]. *)
Inductive NativeFramesOutcome :=
| NotAvailable
| Disabled
| Nothing
| Enabled.

(** [_enableNativeFramesTracking] *)
Definition _enableNativeFramesTracking (enableNativeFramesTracking NATIVE_enableNative : bool)
  : NativeFramesOutcome :=
  if enableNativeFramesTracking && negb NATIVE_enableNative then NotAvailable
  else if negb enableNativeFramesTracking && NATIVE_enableNative then Disabled
  else if negb enableNativeFramesTracking then Nothing
  else Enabled.

End TracingSetup.

(** ** Calls on the tracing integration *)

Module TracingCalls.

Import Tracing TracingSetup.

(** What can run on an integration once it is constructed: the methods
    handed to the routing instrumentation and to the profiler, the app
    start instrumentation, an interaction, and an idle transaction
    coming to its end. *)
Inductive Call :=
| Call_onAppStartFinish (endTimestamp : Q)
| Call_onConfirmRoute (currentViewName : option string)
| Call_onRouteWillChange (r : NewTransaction) (context : TransactionContext)
| Call_startUserInteractionTransaction (r : NewTransaction)
    (userInteractionId : UserInteractionId)
| Call_instrumentAppStart (r : AppStartReadings)
| Transaction_ends (ref : string) (endTimestamp : Q).

Definition call `{Imports} (c : Call) (st : State) : State :=
  match c with
  | Call_onAppStartFinish endTimestamp => onAppStartFinish endTimestamp st
  | Call_onConfirmRoute currentViewName => _onConfirmRoute currentViewName st
  | Call_onRouteWillChange r context => (_onRouteWillChange r context st).2
  | Call_startUserInteractionTransaction r userInteractionId =>
      (startUserInteractionTransaction r userInteractionId st).2
  | Call_instrumentAppStart r => _instrumentAppStart r st
  | Transaction_ends ref endTimestamp => end_transaction ref endTimestamp st
  end.

Definition calls `{Imports} (cs : list Call) (st : State) : State :=
  foldl (fun st c => call c st) st cs.

End TracingCalls.

(** ** The default integrations *)

Module Integrations.

(** The integrations that [getDefaultIntegrations] can add, with the
    arguments it passes. *)
Inductive Integration :=
| ReactNativeErrorHandlers (patchGlobalPromise : option bool)
| NativeLinkedErrors
| BrowserApiErrors
| BrowserGlobalHandlers
| BrowserLinkedErrors
| InboundFilters
| FunctionToString
| Breadcrumbs
| Dedupe
| HttpContext
| Release
| EventOrigin
| SdkInfo
| ReactNativeInfo
| DebugSymbolicator
| RewriteFrames
| DeviceContext
| ModulesLoader
| Screenshot
| ViewHierarchy
| HermesProfiling
| ReactNativeTracing
| HttpClient
| ExpoContext
| Spotlight (sidecarUrl : option string).

#[global] Instance Integration_eq_dec : EqDecision Integration.
Proof. solve_decision. Defined.

(** The part of [ReactNativeClientOptions] that the function reads; a
    flag is given by its truth value, [profilesSampleRate] and
    [tracesSampleRate] are numbers when present, and [tracesSampler]
    tells whether a function was passed. *)
Record ReactNativeClientOptions := {
  patchGlobalPromise : option bool;
  enableNative : bool;
  attachScreenshot : bool;
  attachViewHierarchy : bool;
  profilesSampleRate : option Q;
  enableTracing : bool;
  tracesSampleRate : option Q;
  tracesSampler : bool;
  enableAutoPerformanceTracing : bool;
  enableCaptureFailedRequests : bool;
  enableSpotlight : bool;
  spotlightSidecarUrl : option string;
}.

(** [notWeb()], [__DEV__] and [isExpoGo()]. *)
Record Environment := {
  notWeb : bool;
  __DEV__ : bool;
  isExpoGo : bool;
}.

(** [if (condition) integrations.push(...)] *)
Definition when (condition : bool) (integrations : list Integration) : list Integration :=
  if condition then integrations else [].

(** [getDefaultIntegrations] *)
Definition getDefaultIntegrations (env : Environment) (options : ReactNativeClientOptions)
  : list Integration :=
  (if notWeb env then
     [ReactNativeErrorHandlers (patchGlobalPromise options); NativeLinkedErrors]
   else [BrowserApiErrors; BrowserGlobalHandlers; BrowserLinkedErrors])
  ++ [InboundFilters; FunctionToString; Breadcrumbs; Dedupe; HttpContext]
  ++ [Release; EventOrigin; SdkInfo; ReactNativeInfo]
  ++ when (__DEV__ env && notWeb env) [DebugSymbolicator]
  ++ [RewriteFrames]
  ++ when (enableNative options)
       ([DeviceContext; ModulesLoader]
        ++ when (attachScreenshot options) [Screenshot]
        ++ when (attachViewHierarchy options) [ViewHierarchy]
        ++ when (bool_decide (is_Some (profilesSampleRate options))) [HermesProfiling])
  ++ (let hasTracingEnabled :=
        enableTracing options
        || bool_decide (is_Some (tracesSampleRate options))
        || tracesSampler options in
      when (hasTracingEnabled && enableAutoPerformanceTracing options) [ReactNativeTracing])
  ++ when (enableCaptureFailedRequests options) [HttpClient]
  ++ when (isExpoGo env) [ExpoContext]
  ++ when (enableSpotlight options) [Spotlight (spotlightSidecarUrl options)].

(** Every integration that the function can add, in the order of the
    pushes. *)
Definition every_integration (options : ReactNativeClientOptions) : list Integration :=
  [ReactNativeErrorHandlers (patchGlobalPromise options); NativeLinkedErrors;
   BrowserApiErrors; BrowserGlobalHandlers; BrowserLinkedErrors;
   InboundFilters; FunctionToString; Breadcrumbs; Dedupe; HttpContext;
   Release; EventOrigin; SdkInfo; ReactNativeInfo;
   DebugSymbolicator;
   RewriteFrames;
   DeviceContext; ModulesLoader; Screenshot; ViewHierarchy; HermesProfiling;
   ReactNativeTracing;
   HttpClient;
   ExpoContext;
   Spotlight (spotlightSidecarUrl options)].

(** The integrations that need the native module. *)
Definition native_only (i : Integration) : bool :=
  match i with
  | DeviceContext | ModulesLoader | Screenshot | ViewHierarchy | HermesProfiling => true
  | _ => false
  end.

(** The integrations of the browser SDK that replace the error handlers
    of React Native on the web. *)
Definition web_only (i : Integration) : bool :=
  match i with
  | BrowserApiErrors | BrowserGlobalHandlers | BrowserLinkedErrors => true
  | _ => false
  end.

(** Membership in the result, push by push. *)
Definition default_member (env : Environment) (options : ReactNativeClientOptions)
    (i : Integration) : Prop :=
  (if notWeb env then
     i = ReactNativeErrorHandlers (patchGlobalPromise options) ∨ i = NativeLinkedErrors
   else i = BrowserApiErrors ∨ i = BrowserGlobalHandlers ∨ i = BrowserLinkedErrors)
  ∨ i ∈ [InboundFilters; FunctionToString; Breadcrumbs; Dedupe; HttpContext;
         Release; EventOrigin; SdkInfo; ReactNativeInfo; RewriteFrames]
  ∨ (__DEV__ env = true ∧ notWeb env = true ∧ i = DebugSymbolicator)
  ∨ (enableNative options = true
     ∧ (i = DeviceContext ∨ i = ModulesLoader
        ∨ (attachScreenshot options = true ∧ i = Screenshot)
        ∨ (attachViewHierarchy options = true ∧ i = ViewHierarchy)
        ∨ (is_Some (profilesSampleRate options) ∧ i = HermesProfiling)))
  ∨ (((enableTracing options = true ∨ is_Some (tracesSampleRate options)
       ∨ tracesSampler options = true)
      ∧ enableAutoPerformanceTracing options = true)
     ∧ i = ReactNativeTracing)
  ∨ (enableCaptureFailedRequests options = true ∧ i = HttpClient)
  ∨ (isExpoGo env = true ∧ i = ExpoContext)
  ∨ (enableSpotlight options = true ∧ i = Spotlight (spotlightSidecarUrl options)).

End Integrations.

(** ** Concrete values *)

Module ProfilingSamples.

Import Merge Profiling.

Definition empty_profile : ThreadCpuProfile :=
  {| samples := []; stacks := []; frames := [];
     thread_metadata := ∅; queue_metadata := None |}.

Definition hermes_event (p : ThreadCpuProfile) : HermesProfileEvent :=
  {| hermes_platform := "javascript";
     hermes_version := "1";
     profile := p;
     transaction := {| active_thread_id := Some "1" |} |}.

(** Imports under which every part of the integration can be run:
    [uuid4()] counts up, and a profile event is the identifier, the
    profile and the report's [event_id]. *)
Definition imports : Imports :=
  {| ProfileEvent := string * QueuedProfile * option string;
     Platform_OS := "ios";
     MAX_PROFILE_DURATION_MS := 30000;
     convertToSentryProfile := fun _ => Some empty_profile;
     createHermesProfilingEvent := fun p => Some (hermes_event p);
     enrichCombinedProfileWithEventContext :=
       fun id p e => Some (id, p, event_id e);
     isCurrentlyActiveSpan := fun _ => true;
     spanIsSampled := fun _ => true;
     uuid4_at := pretty |}.

Definition queued : QueuedProfile :=
  Combined {| hermes := hermes_event empty_profile;
              debug_meta := None;
              measurements := None |}.

Definition hub : Hub :=
  {| getClient := Some {| _experiments := Some {| profilesSampleRate := Some 1%Q |} |} |}.

(** A session with the first identifier is in progress. *)
Definition profiling : State :=
  {| _getCurrentHub := Some hub;
     _currentProfile := Some {| profile_id := pretty 0%nat; startTimestampNs := 5000000 |};
     _currentProfileTimeout := Some 0%nat;
     PROFILE_QUEUE := FifoCache.empty 20;
     timers := [(0%nat, 30000%Z)];
     next_timer := 1;
     uuid4_calls := 1;
     log := [] |}.

Definition readings : Readings :=
  {| on_stop :=
       {| NATIVE_stopProfiling :=
            Some {| hermesProfile := "{}"; nativeProfile := None; androidProfile := None |};
          stop_Date_now := 7 |};
     Math_random := 1 # 2;
     on_start := {| NATIVE_startProfiling := true; start_Date_now := 8 |} |}.

Definition span : Span := {| span_id := "s1"; attributes := ∅ |}.

(** The queue holds the profile [p1]. *)
Definition with_p1 : State :=
  {| _getCurrentHub := Some hub;
     _currentProfile := None;
     _currentProfileTimeout := None;
     PROFILE_QUEUE := FifoCache.add "p1" queued (FifoCache.empty 20);
     timers := [];
     next_timer := 0;
     uuid4_calls := 1;
     log := [] |}.

(** A transaction report that carries the profile identifier [p1]. *)
Definition report_p1 : Event :=
  {| event_id := Some "e1";
     contexts := Some {[ "profile" := {[ "profile_id" := JsString "p1" ]} ]} |}.

(** A report for a profile that was never queued. *)
Definition report_p2 : Event :=
  {| event_id := Some "e2";
     contexts := Some {[ "profile" := {[ "profile_id" := JsString "p2" ]} ]} |}.

End ProfilingSamples.

Module EmitterSamples.

Import Emitter.

(** The emitter after [initAsync]. *)
Definition ready : State := initAsync createSentryFallbackEventEmitter.

(** A first cycle got the timestamp 1 from the native call and waits for
    its timeout. *)
Definition waiting : State :=
  run [Call_startListenerAsync; NativeResolves (Some 1%Q)] ready.

End EmitterSamples.

Module TracingSamples.

Import Tracing.

Definition imports : Imports :=
  {| APP_START_COLD := "app_start_cold";
     APP_START_WARM := "app_start_warm";
     APP_START_COLD_OP := "app.start.cold";
     APP_START_WARM_OP := "app.start.warm";
     UI_LOAD := "ui.load";
     onlySampleIfChildSpans := fun t => t;
     adjustTransactionDuration := fun _ t _ => t;
     setSpanDurationAsMeasurement := fun _ _ t => t;
     span_id_at := pretty |}.

(** [defaultReactNativeTracingOptions], without a routing
    instrumentation. *)
Definition default_options : ReactNativeTracingOptions :=
  {| idleTimeoutMs := 1000;
     finalTimeoutMs := 600000;
     routingInstrumentation := false;
     ignoreEmptyBackNavigationTransactions := true;
     enableAppStartTracking := true;
     enableUserInteractionTracing := false |}.

(** Interaction tracing switched on, with a routing instrumentation. *)
Definition interaction_options : ReactNativeTracingOptions :=
  {| idleTimeoutMs := 1000;
     finalTimeoutMs := 600000;
     routingInstrumentation := true;
     ignoreEmptyBackNavigationTransactions := true;
     enableAppStartTracking := true;
     enableUserInteractionTracing := true |}.

Definition own_span (id : string) : Span.t :=
  {| Span.spanId := id;
     Span.op := Some "navigation";
     Span.description := Some "Home";
     Span.startTimestamp := 1000;
     Span.endTimestamp := None |}.

Definition child_span (id operation : string) : Span.t :=
  {| Span.spanId := id;
     Span.op := Some operation;
     Span.description := None;
     Span.startTimestamp := 1000;
     Span.endTimestamp := Some 1001%Q |}.

(** A sampled route transaction on a route seen before, with the spans
    given. *)
Definition route_transaction (spans : list Span.t) : IdleTransaction :=
  {| spanId := "t1";
     name := "Home";
     op := Some "navigation";
     trimEnd := true;
     startTimestamp := 1000;
     sampled := Some true;
     status := None;
     data := Some {| route := Some {| hasBeenSeen := true |} |};
     spanRecorder := Some (own_span "t1" :: spans);
     _measurements := ∅;
     _beforeFinishCallbacks := [];
     idleTimeoutMs_of := 1000;
     finalTimeoutMs_of := 600000;
     idleTimeoutCanceledPermanently := false;
     cancelsInBackground := true;
     finished := false |}.

(** An integration with the options given, the route [Home] confirmed,
    the app start finished at second 1001, and the transaction [t1]
    active on the scope of the current hub. *)
Definition tracing (o : ReactNativeTracingOptions) : State :=
  {| options := o;
     useAppStartWithProfiler := false;
     _inflightInteractionTransaction := None;
     _getCurrentHub := Some 0%nat;
     _awaitingAppStartData := None;
     _appStartFinishTimestamp := Some 1001%Q;
     _currentRoute := Some "Home";
     _currentViewName := Some "Home";
     transactions := {[ "t1" := route_transaction [] ]};
     active_transaction := {[ 0%nat := "t1" ]};
     spans_created := 0;
     notifications := [];
     log := [] |}.

Definition new_transaction : NewTransaction :=
  {| new_spanId := "t2";
     new_startTimestamp := 1002;
     new_sampled := Some true;
     new_records_spans := true;
     new_isNearToNow := true;
     now := 1002 |}.

Definition press_button : UserInteractionId :=
  {| elementId := Some "button"; interaction_op := "ui.action.touch" |}.

(** App start records: 500 ms and 70000 ms before second 1001. *)
Definition cold_start_500 : NativeAppStartResponse :=
  {| isColdStart := true; appStartTime := 1000500; didFetchAppStart := false |}.

Definition warm_start_500 : NativeAppStartResponse :=
  {| isColdStart := false; appStartTime := 1000500; didFetchAppStart := false |}.

Definition cold_start_70000 : NativeAppStartResponse :=
  {| isColdStart := true; appStartTime := 931000; didFetchAppStart := false |}.

End TracingSamples.

Module ProfilingMoreSamples.

Import Merge Profiling ProfilingHooks ProfilingSamples.

(** A new integration, as [setupOnce] finds it: no hub. *)
Definition fresh : State := set_getCurrentHub None (new_integration 20).

(** A new integration that has a hub with a sample rate of 1. *)
Definition configured : State := set_getCurrentHub (Some hub) (new_integration 20).

(** A report that carries the second identifier. *)
Definition report_1 : Event :=
  {| event_id := Some "e3";
     contexts := Some {[ "profile" := {[ "profile_id" := JsString "1" ]} ]} |}.

End ProfilingMoreSamples.

Module MergeSamples.

Import Merge.

Definition frame (f : string) : ThreadCpuFrame :=
  {| function := Some f; file := Some "index.js"; lineno := Some 1%Z; colno := Some 1%Z;
     abs_path := None; platform := None; instruction_addr := None; module := None;
     in_app := Some true |}.

Definition sample (stack : Z) (thread : string) : ThreadCpuSample :=
  {| stack_id := stack; thread_id := thread; queue_address := None;
     elapsed_since_start_ns := "0" |}.

(** Two frames, two stacks, two samples on thread 1. *)
Definition hermes_profile : ThreadCpuProfile :=
  {| samples := [sample 0 "1"; sample 1 "1"];
     stacks := [[0%Z]; [1%Z; 0%Z]];
     frames := [frame "main"; frame "render"];
     thread_metadata := {[ "1" := {| name := Some "JavaScriptThread"; priority := Some 1%Z |} ]};
     queue_metadata := None |}.

(** One frame, one stack, a sample on thread 1 and one on thread 2. *)
Definition native_profile : ThreadCpuProfile :=
  {| samples := [sample 0 "1"; sample 0 "2"];
     stacks := [[0%Z]];
     frames := [frame "objc_msgSend"];
     thread_metadata := {[ "2" := {| name := Some "main"; priority := None |} ]};
     queue_metadata := Some {[ "q" := {| label := "com.apple.main-thread" |} ]} |}.

End MergeSamples.

Module TracingMoreSamples.

Import Tracing TracingSetup TracingSamples.

(** The constructor's argument with the deprecated
    [maxTransactionDuration] of 30 seconds and nothing else. *)
Definition thirty_seconds : PartialOptions.t :=
  {| PartialOptions.idleTimeout := None;
     PartialOptions.maxTransactionDuration := Some 30%Z;
     PartialOptions.idleTimeoutMs := None;
     PartialOptions.finalTimeoutMs := None;
     PartialOptions.routingInstrumentation := false;
     PartialOptions.ignoreEmptyBackNavigationTransactions := None;
     PartialOptions.enableAppStartTracking := None;
     PartialOptions.enableUserInteractionTracing := None |}.

Definition details : TransactionContext :=
  {| context_name := "Details";
     context_op := Some "navigation";
     context_trimEnd := false;
     context_data := None |}.

(** The integration of [tracing] while it awaits the first route
    transaction with an app start of 70000 ms. *)
Definition awaiting_70000 : State :=
  set_awaiting (Some cold_start_70000) (tracing default_options).

End TracingMoreSamples.
(** * Properties *)

(** ** The merge of a native profile into the Hermes profile *)

Module MergeFacts.

Import Merge.

Lemma frames_of_merge os hermes native tid :
  frames (addNativeThreadCpuProfileToHermes os hermes native tid)
  = frames hermes ++ map (native_frame os) (frames native).
Proof. reflexivity. Qed.

Lemma stacks_of_merge os hermes native tid :
  stacks (addNativeThreadCpuProfileToHermes os hermes native tid)
  = stacks hermes
    ++ map (shift_stack (Z.of_nat (length (frames hermes)))) (stacks native).
Proof. reflexivity. Qed.

Lemma samples_of_merge os hermes native tid :
  samples (addNativeThreadCpuProfileToHermes os hermes native tid)
  = samples hermes
    ++ map (shift_sample (Z.of_nat (length (stacks hermes))))
         (filter (fun sample => other_thread tid sample = true) (samples native)).
Proof. reflexivity. Qed.

Lemma other_thread_spec tid sample :
  other_thread tid sample = true ↔ Some (thread_id sample) ≠ tid.
Proof. unfold other_thread. apply bool_decide_eq_true. Qed.

(** C1.  The merged profile has as many frames as the two profiles
    together, the Hermes frames first and under their old ids, and the
    [k]-th native frame under the id [nF + k], where [nF] is the number of
    Hermes frames.  The Hermes stacks come first, unchanged; the [i]-th
    native stack follows at index [nS + i], every frame id in it raised by
    exactly [nF]. *)
Theorem merge_offsets_frames (os : string) (hermes native : ThreadCpuProfile)
    (tid : option string) :
  let merged := addNativeThreadCpuProfileToHermes os hermes native tid in
  let nF := length (frames hermes) in
  let nS := length (stacks hermes) in
  length (frames merged) = nF + length (frames native)
  ∧ (∀ k frame, frames hermes !! k = Some frame → frames merged !! k = Some frame)
  ∧ (∀ k frame, frames native !! k = Some frame →
       frames merged !! (nF + k) = Some (native_frame os frame))
  ∧ length (stacks merged) = nS + length (stacks native)
  ∧ (∀ i stack, stacks hermes !! i = Some stack → stacks merged !! i = Some stack)
  ∧ (∀ i stack, stacks native !! i = Some stack →
       stacks merged !! (nS + i)
       = Some (map (fun frameId => frameId + Z.of_nat nF)%Z stack)).
Proof.
  intros merged nF nS. subst merged nF nS.
  rewrite frames_of_merge, stacks_of_merge.
  repeat split.
  - by rewrite length_app, length_map.
  - intros k frame Hk. by apply lookup_app_l_Some.
  - intros k frame Hk.
    rewrite lookup_app_r by lia.
    replace (length (frames hermes) + k - length (frames hermes)) with k by lia.
    by rewrite list_lookup_fmap, Hk.
  - by rewrite length_app, length_map.
  - intros i stack Hi. by apply lookup_app_l_Some.
  - intros i stack Hi.
    rewrite lookup_app_r by lia.
    replace (length (stacks hermes) + i - length (stacks hermes)) with i by lia.
    by rewrite list_lookup_fmap, Hi.
Qed.

(** C4.  The samples of the merged profile are the Hermes samples,
    unchanged and in place, followed by the native samples of the other
    threads, each with its [stack_id] raised by the number of Hermes
    stacks: a native sample of another thread is among them, and whatever
    is among them comes from a native sample whose thread is not the
    active Hermes thread. *)
Theorem merge_filters_samples (os : string) (hermes native : ThreadCpuProfile)
    (tid : option string) :
  let merged := addNativeThreadCpuProfileToHermes os hermes native tid in
  let nS := Z.of_nat (length (stacks hermes)) in
  let from_native := drop (length (samples hermes)) (samples merged) in
  take (length (samples hermes)) (samples merged) = samples hermes
  ∧ (∀ i sample, samples hermes !! i = Some sample → samples merged !! i = Some sample)
  ∧ from_native
    = map (shift_sample nS)
        (filter (fun sample => Some (thread_id sample) ≠ tid) (samples native))
  ∧ (∀ sample, sample ∈ samples native → Some (thread_id sample) ≠ tid →
       shift_sample nS sample ∈ from_native)
  ∧ (∀ sample', sample' ∈ from_native →
       Some (thread_id sample') ≠ tid
       ∧ ∃ sample, sample ∈ samples native ∧ Some (thread_id sample) ≠ tid
                   ∧ sample' = shift_sample nS sample
                   ∧ stack_id sample' = (nS + stack_id sample)%Z).
Proof.
  intros merged nS from_native. subst merged nS from_native.
  rewrite samples_of_merge.
  rewrite take_app_length, drop_app_length.
  assert (Hfilter :
    filter (fun sample => other_thread tid sample = true) (samples native)
    = filter (fun sample => Some (thread_id sample) ≠ tid) (samples native)).
  { apply list_filter_iff. intros sample. apply other_thread_spec. }
  rewrite Hfilter.
  repeat split.
  - intros i sample Hi. by apply lookup_app_l_Some.
  - intros sample Hin Hne.
    apply list_elem_of_fmap. exists sample. split; [done |].
    by apply list_elem_of_filter.
  - apply list_elem_of_fmap in H as (sample & -> & Hin).
    apply list_elem_of_filter in Hin as [Hne _]. exact Hne.
  - apply list_elem_of_fmap in H as (sample & -> & Hin).
    apply list_elem_of_filter in Hin as [Hne Hin].
    exists sample. done.
Qed.

(** C10.  On a key that both [thread_metadata] maps (or both
    [queue_metadata] maps) have, the merged profile has the entry of the
    Hermes profile; a key that only one of them has keeps its entry; no
    other key appears. *)
Theorem merge_metadata_prefers_hermes (os : string) (hermes native : ThreadCpuProfile)
    (tid : option string) :
  let merged := addNativeThreadCpuProfileToHermes os hermes native tid in
  let hermes_queues := default ∅ (queue_metadata hermes) in
  let native_queues := default ∅ (queue_metadata native) in
  (∀ key entry, thread_metadata hermes !! key = Some entry →
     thread_metadata merged !! key = Some entry)
  ∧ (∀ key, thread_metadata hermes !! key = None →
       thread_metadata merged !! key = thread_metadata native !! key)
  ∧ ∃ merged_queues, queue_metadata merged = Some merged_queues
    ∧ (∀ key entry, hermes_queues !! key = Some entry →
         merged_queues !! key = Some entry)
    ∧ (∀ key, hermes_queues !! key = None →
         merged_queues !! key = native_queues !! key).
Proof.
  intros merged hermes_queues native_queues.
  subst merged hermes_queues native_queues. cbn.
  unfold spread_opt, spread.
  split; [| split].
  - intros key entry Hk. by apply lookup_union_Some_l.
  - intros key Hk. by apply lookup_union_r.
  - eexists. split; [reflexivity |]. split.
    + intros key entry Hk. by apply lookup_union_Some_l.
    + intros key Hk. by apply lookup_union_r.
Qed.

End MergeFacts.

(** ** The profile queue *)

Module FifoCacheFacts.

Import FifoCache.

Section Queue.

Context {V : Type}.
Implicit Types (q : t V) (key : string).

Lemma get_None key q :
  get key q = None ↔ Forall (fun e => fst e ≠ key) (entries q).
Proof.
  unfold get. rewrite fmap_None. apply list_find_None.
Qed.

Lemma get_Some_elem key q value :
  get key q = Some value → (key, value) ∈ entries q.
Proof.
  unfold get. intros Hget.
  apply fmap_Some in Hget as ([i [k v]] & Hfind & ->).
  apply list_find_Some in Hfind as (Hi & Hk & _). cbn in Hk. subst k.
  by eapply list_elem_of_lookup_2.
Qed.

Lemma get_delete_eq key q : get key (delete key q) = None.
Proof.
  apply get_None. cbn. apply Forall_forall. intros e He.
  by apply list_elem_of_filter in He as [Hne _].
Qed.

Lemma delete_absent key q : get key q = None → delete key q = q.
Proof.
  intros Hget. apply get_None in Hget. destruct q as [c es]. unfold delete. cbn in *.
  f_equal. induction Hget as [| e es He _ IH]; [done |].
  rewrite filter_cons_True by done. by rewrite IH.
Qed.

Lemma get_delete_ne key key' q : key ≠ key' → get key' (delete key q) = get key' q.
Proof.
  intros Hne. unfold get, delete. cbn. destruct q as [c es]. cbn.
  induction es as [| [k v] es IH]; [done |].
  destruct (decide (k = key)) as [-> | Hk].
  - rewrite filter_cons_False by (cbn; naive_solver).
    rewrite IH. cbn. rewrite decide_False by (cbn; done).
    by destruct (list_find _ es) as [[? [? ?]] |].
  - rewrite filter_cons_True by done. cbn.
    destruct (decide (k = key')); [done |].
    destruct (list_find _ (filter _ es)) as [[? [? ?]] |] eqn:E1;
      destruct (list_find _ es) as [[? [? ?]] |] eqn:E2; cbn in *; congruence.
Qed.

Lemma size_delete_present key q value :
  get key q = Some value → size (delete key q) < size q.
Proof.
  intros Hget. apply get_Some_elem in Hget. unfold size, delete. cbn.
  induction (entries q) as [| e es IH]; [by apply elem_of_nil in Hget |].
  apply elem_of_cons in Hget as [<- | Hin].
  - rewrite filter_cons_False by (cbn; naive_solver).
    pose proof (length_filter (fun e : string * V => fst e ≠ key) es). cbn. lia.
  - specialize (IH Hin). destruct (decide (fst e ≠ key)).
    + rewrite filter_cons_True by done. cbn. lia.
    + rewrite filter_cons_False by done. cbn. lia.
Qed.

End Queue.

End FifoCacheFacts.

(** ** The profiling integration *)

Module ProfilingFacts.

Import Profiling.

Section WithImports.

Context `{Imports}.

Lemma finish_clears r st : _currentProfile (_finishCurrentProfile r st) = None.
Proof.
  unfold _finishCurrentProfile. cbn.
  destruct (_currentProfile st) as [current |] eqn:E; cbn; [| done].
  by destruct (stopProfiling r (startTimestampNs current)).
Qed.

Lemma finish_no_timeout r st :
  _currentProfileTimeout (_finishCurrentProfile r st) = None.
Proof.
  unfold _finishCurrentProfile. cbn.
  destruct (_currentProfile st) as [current |]; cbn; [| done].
  by destruct (stopProfiling r (startTimestampNs current)).
Qed.

Lemma finish_uuid4_calls r st :
  uuid4_calls (_finishCurrentProfile r st) = uuid4_calls st.
Proof.
  unfold _finishCurrentProfile. cbn.
  destruct (_currentProfile st) as [current |]; cbn; [| done].
  by destruct (stopProfiling r (startTimestampNs current)).
Qed.

(** Without a session, finishing only clears the timeout. *)
Lemma finish_idle r st :
  _currentProfile st = None → _currentProfileTimeout st = None →
  _finishCurrentProfile r st = st.
Proof.
  intros Hc Ht. unfold _finishCurrentProfile, _clearCurrentProfileTimeout. cbn.
  rewrite Hc, Ht. destruct st. cbn in *. by subst.
Qed.

(** [_finishCurrentProfile] is idempotent. *)
Lemma finish_idempotent r r' st :
  _finishCurrentProfile r' (_finishCurrentProfile r st) = _finishCurrentProfile r st.
Proof. apply finish_idle; [apply finish_clears | apply finish_no_timeout]. Qed.

(** What [_finishCurrentProfile] does to the queue. *)
Lemma finish_queue r st :
  PROFILE_QUEUE (_finishCurrentProfile r st)
  = match _currentProfile st with
    | None => PROFILE_QUEUE st
    | Some current =>
        match stopProfiling r (startTimestampNs current) with
        | Some profile =>
            FifoCache.add (profile_id current) profile (PROFILE_QUEUE st)
        | None => PROFILE_QUEUE st
        end
    end.
Proof.
  unfold _finishCurrentProfile. cbn.
  destruct (_currentProfile st) as [current |]; cbn; [| done].
  by destruct (stopProfiling r (startTimestampNs current)).
Qed.

Lemma shouldStart_state random span st :
  let st' := snd (_shouldStartProfiling random span st) in
  _currentProfile st' = _currentProfile st
  ∧ uuid4_calls st' = uuid4_calls st
  ∧ PROFILE_QUEUE st' = PROFILE_QUEUE st.
Proof.
  unfold _shouldStartProfiling.
  destruct (negb (spanIsSampled span)); cbn; [done |].
  destruct (_ ≫= profilesSampleRate) as [rate |]; cbn; [| done].
  by destruct (negb (Qle_bool random rate)).
Qed.

(** The session that [_startNewProfile] opens carries the identifier of
    the next call of [uuid4()]. *)
Lemma startNew_state r span st :
  let st' := fst (_startNewProfile r span st) in
  PROFILE_QUEUE st' = PROFILE_QUEUE st
  ∧ ((_currentProfile st' = _currentProfile st ∧ uuid4_calls st' = uuid4_calls st)
     ∨ (∃ new, _currentProfile st' = Some new
               ∧ profile_id new = uuid4_at (uuid4_calls st)
               ∧ uuid4_calls st' = S (uuid4_calls st))).
Proof.
  unfold _startNewProfile.
  destruct (startProfiling r) as [ts |]; cbn; [| by auto].
  destruct (ts =? 0)%Z; cbn; [by auto |].
  split; [done |]. right. eexists. by cbn.
Qed.

(** What [_startCurrentProfile] leaves after the old session was ended:
    no session, or one with the identifier of the next [uuid4()] call. *)
Lemma start_state r span st :
  let finished := _finishCurrentProfile (on_stop r) st in
  let st' := fst (_startCurrentProfile r span st) in
  PROFILE_QUEUE st' = PROFILE_QUEUE finished
  ∧ ((_currentProfile st' = None ∧ uuid4_calls st' = uuid4_calls st)
     ∨ (∃ new, _currentProfile st' = Some new
               ∧ profile_id new = uuid4_at (uuid4_calls st)
               ∧ uuid4_calls st' = S (uuid4_calls st))).
Proof.
  cbn zeta. unfold _startCurrentProfile.
  set (finished := _finishCurrentProfile (on_stop r) st).
  assert (Hc : _currentProfile finished = None) by apply finish_clears.
  assert (Hu : uuid4_calls finished = uuid4_calls st) by apply finish_uuid4_calls.
  destruct (negb (isCurrentlyActiveSpan span)); cbn; [by auto |].
  pose proof (shouldStart_state (Math_random r) span finished) as (Hc' & Hu' & Hq').
  destruct (_shouldStartProfiling (Math_random r) span finished) as [should st1].
  cbn in Hc', Hu', Hq'.
  destruct should; cbn; [| rewrite Hc', Hu'; by auto].
  set (st2 := setTimeout_finish MAX_PROFILE_DURATION_MS st1).
  pose proof (startNew_state (on_start r) span st2) as (Hq2 & Hcases).
  cbn zeta in Hq2, Hcases.
  split; [by rewrite Hq2 |].
  destruct Hcases as [[Hc2 Hu2] | (new & Hc2 & Hid & Hu2)].
  - left. rewrite Hc2, Hu2. cbn. by rewrite Hc', Hu'.
  - right. exists new. rewrite Hc2, Hid, Hu2. cbn. by rewrite Hu', Hu.
Qed.

Lemma start_preserves_id_issued r span st :
  id_issued (fst (_startCurrentProfile r span st)).
Proof.
  pose proof (start_state r span st) as (_ & Hcases). cbn zeta in Hcases.
  intros current Hcur.
  destruct Hcases as [[Hc _] | (new & Hc & Hid & Hu)]; [congruence |].
  exists (uuid4_calls st). rewrite Hu. split; [lia |]. congruence.
Qed.

Lemma finish_preserves_id_issued r st : id_issued (_finishCurrentProfile r st).
Proof. intros current Hcur. by rewrite finish_clears in Hcur. Qed.

Lemma new_integration_id_issued capacity : id_issued (new_integration capacity).
Proof. by intros current Hcur. Qed.

Lemma create_session report st :
  _currentProfile (_createProfileEventFor report st).2 = _currentProfile st
  ∧ uuid4_calls (_createProfileEventFor report st).2 = uuid4_calls st.
Proof.
  unfold _createProfileEventFor.
  destruct (as_string _) as [p |]; [| done]. cbn zeta.
  by destruct (FifoCache.get p (PROFILE_QUEUE st)).
Qed.

(** Every state that the methods lead to has the identifier of its
    session from an earlier [uuid4()] call. *)
Lemma reachable_id_issued st : reachable st → id_issued st.
Proof.
  induction 1 as [capacity hub | r span st _ _ | r span st _ IH | r st _ _
                  | handle r st _ IH | report st _ IH].
  - by intros current Hcurrent.
  - apply start_preserves_id_issued.
  - unfold _startCurrentProfileForActiveTransaction.
    destruct (_currentProfile st) as [current |] eqn:Hcurrent; [exact IH |].
    destruct span as [span |]; [| exact IH].
    pose proof (start_preserves_id_issued r span st) as Hstart.
    by destruct (_startCurrentProfile r span st).
  - apply finish_preserves_id_issued.
  - unfold timer_fires. case_bool_decide; [apply finish_preserves_id_issued | exact IH].
  - destruct (create_session report st) as [Hc Hu].
    intros current Hcurrent. rewrite Hc in Hcurrent. rewrite Hu. by apply IH.
Qed.

(** C2.  [_currentProfile] holds at most one session.  When
    [_startCurrentProfile] is called with a session in progress, it first
    ends that session: [_finishCurrentProfile] leaves no session, has put
    the stopped profile in the queue under the old identifier or, when
    [stopProfiling] gave none, has dropped it, and has not called
    [uuid4()]; what follows is what [_startCurrentProfile] does from that
    state.  A session that is open afterwards has the identifier of the
    next [uuid4()] call, which differs from the old one as long as
    [uuid4()] does not repeat a value.  The hypothesis [id_issued] holds
    in every reachable state ([reachable_id_issued]). *)
Theorem start_force_finishes_previous_session
    (uuid4_never_repeats : Inj (=) (=) uuid4_at)
    (r : Readings) (activeSpan : Span) (st : State) (old : CurrentProfile) :
  id_issued st →
  _currentProfile st = Some old →
  let finished := _finishCurrentProfile (on_stop r) st in
  let started := fst (_startCurrentProfile r activeSpan st) in
  _currentProfile finished = None
  ∧ uuid4_calls finished = uuid4_calls st
  ∧ PROFILE_QUEUE finished
    = match stopProfiling (on_stop r) (startTimestampNs old) with
      | Some profile => FifoCache.add (profile_id old) profile (PROFILE_QUEUE st)
      | None => PROFILE_QUEUE st
      end
  ∧ _startCurrentProfile r activeSpan st = _startCurrentProfile r activeSpan finished
  ∧ PROFILE_QUEUE started = PROFILE_QUEUE finished
  ∧ (∀ new, _currentProfile started = Some new →
       profile_id new = uuid4_at (uuid4_calls st)
       ∧ profile_id new ≠ profile_id old)
  ∧ id_issued started.
Proof.
  intros Hissued Hold finished started. subst finished started.
  split; [apply finish_clears |].
  split; [apply finish_uuid4_calls |].
  split; [by rewrite finish_queue, Hold |].
  split.
  { unfold _startCurrentProfile at 2. by rewrite finish_idempotent. }
  pose proof (start_state r activeSpan st) as (Hq & Hcases). cbn zeta in Hq, Hcases.
  split; [exact Hq |].
  split; [| apply start_preserves_id_issued].
  intros new Hnew.
  destruct Hcases as [[Hc _] | (new' & Hc & Hid & _)]; [congruence |].
  assert (new' = new) as -> by congruence.
  split; [exact Hid |].
  destruct (Hissued old Hold) as (k & Hk & Hold_id).
  rewrite Hid, Hold_id. intros Heq. apply uuid4_never_repeats in Heq. lia.
Qed.

Lemma create_result_absent report st p :
  profile_id_of report = Some p →
  FifoCache.get p (PROFILE_QUEUE st) = None →
  (_createProfileEventFor report st).1.1 = None.
Proof.
  unfold profile_id_of, _createProfileEventFor. intros -> Hget. cbn zeta.
  by rewrite Hget.
Qed.

(** C5.  Let the report carry the profile identifier [p].  After
    [_createProfileEventFor] the queue has no entry for [p], so a lookup
    of [p] finds nothing and a further call for a report with [p] returns
    [null].  When the queue had the profile, the call removed that entry
    and returned the profile enriched with the report; when it had none,
    the call returned [null], left the queue as it was and logged the
    miss.  The function returns on every input: nothing in it throws. *)
Theorem dequeue_removes_entry (report : Event) (st : State) (p : string) :
  profile_id_of report = Some p →
  let result := (_createProfileEventFor report st).1.1 in
  let report' := (_createProfileEventFor report st).1.2 in
  let st' := (_createProfileEventFor report st).2 in
  FifoCache.get p (PROFILE_QUEUE st') = None
  ∧ (∀ later, profile_id_of later = Some p →
       (_createProfileEventFor later st').1.1 = None)
  ∧ match FifoCache.get p (PROFILE_QUEUE st) with
    | Some profile =>
        result = enrichCombinedProfileWithEventContext p profile report'
        ∧ PROFILE_QUEUE st' = FifoCache.delete p (PROFILE_QUEUE st)
        ∧ FifoCache.size (PROFILE_QUEUE st') < FifoCache.size (PROFILE_QUEUE st)
    | None =>
        result = None
        ∧ PROFILE_QUEUE st' = PROFILE_QUEUE st
        ∧ log st'
          = log st
            ++ [(LogLog,
                 "[Profiling] cannot find profile " +:+ p +:+ " for transaction "
                   +:+ template (event_id report))]
    end.
Proof.
  intros Hid result report' st'.
  assert (Hq : PROFILE_QUEUE st' = FifoCache.delete p (PROFILE_QUEUE st)).
  { subst st'. unfold _createProfileEventFor. unfold profile_id_of in Hid.
    rewrite Hid. cbn zeta.
    by destruct (FifoCache.get p (PROFILE_QUEUE st)). }
  assert (Hgone : FifoCache.get p (PROFILE_QUEUE st') = None).
  { rewrite Hq. apply FifoCacheFacts.get_delete_eq. }
  split; [exact Hgone |].
  split; [intros later Hlater; by apply create_result_absent with p |].
  subst result report' st'. unfold _createProfileEventFor in *.
  unfold profile_id_of in Hid. rewrite Hid in *. cbn zeta in *.
  destruct (FifoCache.get p (PROFILE_QUEUE st)) as [profile |] eqn:Hget; cbn in *.
  - split; [done |]. split; [done |].
    by apply FifoCacheFacts.size_delete_present with profile.
  - split; [done |]. split; [by apply FifoCacheFacts.delete_absent |].
    by destruct (contexts report ≫= (.!! ".profile")).
Qed.

(** A report without a string under [contexts.profile.profile_id] gets
    [null], and neither it nor the queue changes. *)
Lemma create_without_profile_context report st :
  profile_id_of report = None →
  _createProfileEventFor report st
  = (None, report,
     logger LogLog
       "[Profiling] cannot find profile for a transaction without a profile context" st).
Proof.
  unfold profile_id_of, _createProfileEventFor. by intros ->.
Qed.

(** The report leaves [_createProfileEventFor] as it came unless its
    contexts have an entry under the key [.profile]. *)
Lemma create_leaves_report report st :
  contexts report ≫= (.!! ".profile") = None →
  (_createProfileEventFor report st).1.2 = report.
Proof.
  intros Hdot. unfold _createProfileEventFor. rewrite Hdot.
  destruct (as_string _) as [p |]; [| done]. cbn zeta.
  by destruct (FifoCache.get p (PROFILE_QUEUE st)).
Qed.

End WithImports.

Import ProfilingSamples.

#[local] Existing Instance imports.

Lemma profiling_id_issued : id_issued profiling.
Proof.
  intros current Hcurrent. exists 0. split; [cbn; lia |].
  injection Hcurrent as <-. reflexivity.
Defined.

(** C2 at a concrete state: the session [0] is in progress, profiling
    stops and starts without failure. *)
Lemma start_force_finishes_previous_session_witness :
  _currentProfile profiling
  = Some {| profile_id := "0"; startTimestampNs := 5000000 |}
  ∧ _currentProfile (_finishCurrentProfile (on_stop readings) profiling) = None
  ∧ FifoCache.get "0"
      (PROFILE_QUEUE (_finishCurrentProfile (on_stop readings) profiling))
    = Some queued
  ∧ ∃ new, _currentProfile (_startCurrentProfile readings span profiling).1 = Some new
           ∧ profile_id new = "1"
           ∧ profile_id new ≠ "0".
Proof.
  pose proof (start_force_finishes_previous_session pretty_nat_inj readings span
                profiling _ profiling_id_issued eq_refl)
    as (Hfinished & _ & _ & _ & _ & Hnew & _).
  split; [reflexivity |].
  split; [exact Hfinished |].
  split; [vm_compute; reflexivity |].
  eexists. split; [vm_compute; reflexivity |].
  split; [reflexivity |].
  refine (proj2 (Hnew _ _)). vm_compute. reflexivity.
Defined.

(** C5 at a concrete state: the queue holds [p1]. *)
Lemma dequeue_removes_entry_witness :
  profile_id_of report_p1 = Some "p1"
  ∧ FifoCache.get "p1" (PROFILE_QUEUE with_p1) = Some queued
  ∧ FifoCache.get "p1" (PROFILE_QUEUE (_createProfileEventFor report_p1 with_p1).2)
    = None.
Proof.
  split; [reflexivity |].
  split; [vm_compute; reflexivity |].
  exact (proj1 (dequeue_removes_entry report_p1 with_p1 "p1" eq_refl)).
Defined.

(** The first report with [p1] gets the profile, a second one gets
    [null]; a report with an identifier that was never queued gets [null]
    and a line in the log. *)
Example dequeue_twice :
  (_createProfileEventFor report_p1 with_p1).1.1 = Some ("p1", queued, Some "e1")
  ∧ (_createProfileEventFor report_p1 (_createProfileEventFor report_p1 with_p1).2).1.1
    = None
  ∧ (_createProfileEventFor report_p2 with_p1).1.1 = None
  ∧ log (_createProfileEventFor report_p2 with_p1).2
    = [(LogLog, "[Profiling] cannot find profile p2 for transaction e2")].
Proof. vm_compute. done. Qed.

(** C6, at the report [report_p1] and a queue that holds [p1].  The
    source says "Remove the profile from the transaction context before
    sending", but tests [contexts['.profile']], a key that the report does
    not have: the profile is matched and dequeued, and the report still
    carries its profile context. *)
Theorem profile_context_survives_matching :
  let out := _createProfileEventFor report_p1 with_p1 in
  out.1.1 = Some ("p1", queued, Some "e1")
  ∧ FifoCache.get "p1" (PROFILE_QUEUE out.2) = None
  ∧ out.1.2 = report_p1
  ∧ contexts out.1.2 ≫= (.!! "profile") = Some {[ "profile_id" := JsString "p1" ]}.
Proof.
  cbn zeta.
  split; [vm_compute; reflexivity |].
  split; [vm_compute; reflexivity |].
  assert (Hsame : (_createProfileEventFor report_p1 with_p1).1.2 = report_p1)
    by (by apply create_leaves_report).
  split; [exact Hsame |]. by rewrite Hsame.
Qed.

End ProfilingFacts.

(** ** The fallback frame event emitter *)

Module EmitterFacts.

Import Emitter.

Lemma listener_unarmed st : isListening st = false → listener st = st.
Proof. unfold listener. by intros ->. Qed.

Lemma listener_armed st :
  isListening st = true →
  listener st
  = {| NativeEmitterCalled := true;
       isListening := true;
       listeners := listeners st;
       pending_native_calls := pending_native_calls st;
       animation_frame_requests := animation_frame_requests st;
       timeouts := timeouts st;
       emitted := emitted st;
       log := log st |}.
Proof. unfold listener. intros E. by rewrite E. Qed.

Lemma deliver_unarmed st : isListening st = false → deliver st = st.
Proof.
  intros E. unfold deliver. generalize (listeners st). intros n.
  induction n as [| n IH]; [done |].
  rewrite Nat.iter_succ, IH. by apply listener_unarmed.
Qed.

Lemma deliver_armed st :
  0 < listeners st → isListening st = true → deliver st = listener st.
Proof.
  intros Hn E. unfold deliver. destruct (listeners st) as [| n]; [lia |].
  clear Hn. induction n as [| n IH]; [done |].
  rewrite Nat.iter_succ, IH, (listener_armed st E). reflexivity.
Qed.

Lemma run_cons s steps st : run (s :: steps) st = run steps (step s st).
Proof. reflexivity. Qed.

Lemma run_app steps steps' st : run (steps ++ steps') st = run steps' (run steps st).
Proof. unfold run. apply foldl_app. Qed.

(** A state that is over stays as it is, whatever the environment does. *)
Lemma step_over s st :
  s ≠ Call_startListenerAsync → s ≠ Call_initAsync →
  isListening st = false → nothing_pending st → step s st = st.
Proof.
  intros Hs Hi Hl (Hp & Ha & Ht).
  destruct s; try done; cbn.
  - by apply deliver_unarmed.
  - by rewrite Hp.
  - by rewrite Hp.
  - by rewrite Ha.
  - by rewrite Ht.
Qed.

Lemma fallback_not_emitted (before : list FallBackNewFrameEvent) seconds :
  before ≠ before ++ [fallback seconds].
Proof.
  intros Heq. apply (f_equal length) in Heq. rewrite length_app in Heq. cbn in Heq. lia.
Qed.

(** The protocol, on its own. *)
Lemma phase_after_app steps steps' :
  phase_after (steps ++ steps')
  = foldl (fun phase s => retry_protocol s phase) (phase_after steps) steps'.
Proof. unfold phase_after. apply foldl_app. Qed.

Lemma confirmed_stays s phase :
  confirmed_in phase = true → confirmed_in (retry_protocol s phase) = true.
Proof.
  destruct phase as [c | c | seconds origin c | [seconds |]]; cbn; intros Hc; try done;
    subst; destruct s; try done; cbn.
  by destruct (truthy resolve).
Qed.

Lemma confirmed_run steps : ∀ phase,
  confirmed_in phase = true →
  confirmed_in (foldl (fun phase s => retry_protocol s phase) phase steps) = true.
Proof.
  induction steps as [| s steps IH]; intros phase Hc; [done |].
  cbn. apply IH. by apply confirmed_stays.
Qed.

Lemma unconfirmed_stays s phase :
  s ≠ NativeNewFrame →
  confirmed_in phase = false → confirmed_in (retry_protocol s phase) = false.
Proof.
  intros Hs.
  destruct phase as [c | c | seconds origin c | [seconds |]]; cbn; intros Hc; try done;
    subst; destruct s; try done; cbn.
  by destruct (truthy resolve).
Qed.

Lemma unconfirmed_run steps : ∀ phase,
  NativeNewFrame ∉ steps → confirmed_in phase = false →
  confirmed_in (foldl (fun phase s => retry_protocol s phase) phase steps) = false.
Proof.
  induction steps as [| s steps IH]; intros phase Hnot Hc; [done |].
  apply not_elem_of_cons in Hnot as [Hs Hnot].
  cbn. apply IH; [done |]. by apply unconfirmed_stays.
Qed.

Lemma confirmed_no_signal phase : confirmed_in phase = true → signals phase = [].
Proof. by destruct phase as [c | c | seconds origin c | [seconds |]]. Qed.

Lemma event_confirms phase :
  signals phase = [] → confirmed_in (retry_protocol NativeNewFrame phase) = true.
Proof. by destruct phase as [c | c | seconds origin c | [seconds |]]. Qed.

Lemma signal_needs_timeout s phase :
  s ≠ TimeoutFires → signals phase = [] → signals (retry_protocol s phase) = [].
Proof.
  intros Hs.
  destruct phase as [c | c | seconds origin c | [seconds |]]; cbn; intros Hnone; try done;
    destruct s; try done; cbn.
  - destruct (truthy resolve); [| done]. by destruct c.
  - by destruct c.
Qed.

Lemma signal_needs_timeout_run steps : ∀ phase,
  TimeoutFires ∉ steps → signals phase = [] →
  signals (foldl (fun phase s => retry_protocol s phase) phase steps) = [].
Proof.
  induction steps as [| s steps IH]; intros phase Hnot Hnone; [done |].
  apply not_elem_of_cons in Hnot as [Hs Hnot].
  cbn. apply IH; [done |]. by apply signal_needs_timeout.
Qed.

(** One step of the environment takes the emitter where the protocol
    goes. *)
Lemma step_shows before phase s st :
  s ≠ Call_startListenerAsync →
  shows before phase st →
  shows before (retry_protocol s phase) (step s st).
Proof.
  intros Hs (Hn & Hem & Hphase).
  destruct phase as [c | c | seconds origin c | signal].
  - (* waiting for the native call *)
    destruct Hphase as (Hl & Hf & Hp & Ha & Ht).
    destruct s; try done.
    + split; [cbn; lia | done].
    + cbn [step retry_protocol].
      rewrite (deliver_armed st Hn Hl), (listener_armed st Hl). done.
    + destruct st as [flag lis n p a ts em lg]. cbn in Hn, Hem, Hl, Hf, Hp, Ha, Ht.
      subst. cbn [step retry_protocol pending_native_calls].
      unfold on_resolved, waitForNativeResponseOrFallback, checkNativeResponse.
      destruct (truthy resolve) as [seconds |]; [destruct c |];
        unfold shows, nothing_pending; cbn; rewrite ?app_nil_r; done.
    + destruct st as [flag lis n p a ts em lg]. cbn in Hn, Hem, Hl, Hf, Hp, Ha, Ht.
      subst. cbn [step retry_protocol pending_native_calls].
      unfold on_rejected, shows. cbn. rewrite ?app_nil_r. done.
    + cbn [step retry_protocol]. by rewrite Ha.
    + cbn [step retry_protocol]. by rewrite Ht.
  - (* waiting for the animation frame *)
    destruct Hphase as (Hl & Hf & Hp & Ha & Ht).
    destruct s; try done.
    + split; [cbn; lia | done].
    + cbn [step retry_protocol].
      rewrite (deliver_armed st Hn Hl), (listener_armed st Hl). done.
    + cbn [step retry_protocol]. by rewrite Hp.
    + cbn [step retry_protocol]. by rewrite Hp.
    + destruct st as [flag lis n p a ts em lg]. cbn in Hn, Hem, Hl, Hf, Hp, Ha, Ht.
      subst. cbn [step retry_protocol animation_frame_requests].
      unfold animation_frame_callback, waitForNativeResponseOrFallback,
        checkNativeResponse.
      destruct c; unfold shows, nothing_pending; cbn; rewrite ?app_nil_r; done.
    + cbn [step retry_protocol]. by rewrite Ht.
  - (* waiting for the delay *)
    destruct Hphase as (Hl & Hf & Hp & Ha & Ht).
    destruct s; try done.
    + split; [cbn; lia | done].
    + cbn [step retry_protocol].
      rewrite (deliver_armed st Hn Hl), (listener_armed st Hl). done.
    + cbn [step retry_protocol]. by rewrite Hp.
    + cbn [step retry_protocol]. by rewrite Hp.
    + cbn [step retry_protocol]. by rewrite Ha.
    + destruct st as [flag lis n p a ts em lg]. cbn in Hn, Hem, Hl, Hf, Hp, Ha, Ht.
      subst. cbn [step retry_protocol timeouts].
      unfold checkNativeResponse. cbn -[emit shows].
      destruct c; cbn -[emit shows].
      * unfold shows, nothing_pending. cbn. by rewrite ?app_nil_r.
      * unfold emit. rewrite deliver_unarmed by done.
        unfold shows, nothing_pending. cbn. by rewrite ?app_nil_r.
  - (* over *)
    destruct Hphase as (Hl & Hf & Hnp).
    assert (s = Call_initAsync ∨ s ≠ Call_initAsync) as [-> | Hi]
      by (destruct s; first [by left | by right]).
    + split; [cbn; lia | done].
    + rewrite (step_over s st Hs Hi Hl Hnp).
      assert (Hsame : retry_protocol s (Over signal) = Over signal) by (by destruct s).
      rewrite Hsame. done.
Qed.

Lemma run_shows steps : ∀ before phase st,
  Forall (fun s => s ≠ Call_startListenerAsync) steps →
  shows before phase st →
  shows before (foldl (fun phase s => retry_protocol s phase) phase steps) (run steps st).
Proof.
  induction steps as [| s steps IH]; intros before phase st Hsteps Hin; [done |].
  apply Forall_cons in Hsteps as [Hs Hsteps].
  rewrite run_cons. cbn [foldl]. apply IH; [done |]. by apply step_shows.
Qed.

Lemma start_shows st :
  quiet st → shows (emitted st) (AwaitNative false) (startListenerAsync st).
Proof.
  intros (Hn & Hl & Hf & Hp & Ha & Ht).
  split; [done |]. split; [cbn; by rewrite app_nil_r |].
  cbn. by rewrite Hf, Hp, Ha, Ht.
Qed.

Lemma cycle_shows st steps :
  quiet st →
  Forall (fun s => s ≠ Call_startListenerAsync) steps →
  shows (emitted st) (phase_after steps) (run (Call_startListenerAsync :: steps) st).
Proof.
  intros Hquiet Hsteps. rewrite run_cons. cbn [step].
  apply run_shows; [done |]. by apply start_shows.
Qed.

Lemma shows_no_signal before phase st :
  shows before phase st → emitted st = before → signals phase = [].
Proof.
  intros (_ & Hem & _) Hbefore. rewrite Hbefore in Hem.
  destruct phase as [c | c | seconds origin c | [seconds |]]; try done.
  by apply fallback_not_emitted in Hem.
Qed.

(** C3, for a cycle on its own: [startListenerAsync] is called on a quiet
    emitter and not again, while the environment takes any steps.

    The emitter is then in the phase that the retry protocol of the spec
    reaches by the same steps: it waits for exactly one thing, holds
    exactly one timeout of 3000 ms with the timestamp of the first check
    while it waits for the delay, and has emitted nothing, or it is over
    and has emitted the one signal of the phase.  Nothing is emitted
    unless a timeout fired.  The step that computes the timestamp checks
    the flag at once: with the flag up the cycle is over and quiet, with
    the flag down exactly the timeout of 3000 ms with this timestamp is
    set, and nothing is emitted either way.  A pending timeout is the only
    one; when it fires the flag is checked once more and the cycle is
    over: with the flag up nothing is emitted, with the flag down exactly
    the fallback with the timestamp of the timeout.  Once the confirming
    event has come with no fallback fired, none fires.  When it never
    comes and nothing is pending any more, exactly one fallback has
    fired.  A cycle with nothing pending leaves the emitter quiet. *)
Theorem isolated_cycle_one_signal (st : State) (steps : list Step) :
  quiet st →
  Forall (fun s => s ≠ Call_startListenerAsync) steps →
  let st' := run (Call_startListenerAsync :: steps) st in
  shows (emitted st) (phase_after steps) st'
  ∧ (TimeoutFires ∉ steps → emitted st' = emitted st)
  ∧ (∀ s seconds origin,
       stamp_given s st' = Some (seconds, origin) →
       emitted (step s st') = emitted st
       ∧ if NativeEmitterCalled st' then quiet (step s st')
         else isListening (step s st') = true
              ∧ timeouts (step s st')
                = [(3000%Z, {| fallbackSeconds := seconds;
                               origin := origin;
                               firstAttemptCompleted := true |})])
  ∧ (∀ delay check rest,
       timeouts st' = (delay, check) :: rest →
       delay = 3000%Z ∧ rest = [] ∧ firstAttemptCompleted check = true
       ∧ emitted st' = emitted st
       ∧ quiet (step TimeoutFires st')
       ∧ emitted (step TimeoutFires st')
         = if NativeEmitterCalled st' then emitted st
           else emitted st ++ [fallback (fallbackSeconds check)])
  ∧ (∀ before after, steps = before ++ NativeNewFrame :: after →
       emitted (run (Call_startListenerAsync :: before) st) = emitted st →
       emitted st' = emitted st)
  ∧ (NativeNewFrame ∉ steps → nothing_pending st' →
       ∃ seconds, phase_after steps = Over (Some seconds)
                  ∧ emitted st' = emitted st ++ [fallback seconds])
  ∧ (nothing_pending st' → quiet st').
Proof.
  intros Hquiet Hsteps st'.
  pose proof (cycle_shows st steps Hquiet Hsteps) as Hend. fold st' in Hend.
  clearbody st'.
  split; [exact Hend |].
  split; [| split; [| split; [| split; [| split]]]].
  - intros Hnot. destruct Hend as (_ & Hem & _). rewrite Hem. unfold phase_after.
    rewrite (signal_needs_timeout_run steps (AwaitNative false) Hnot eq_refl).
    apply app_nil_r.
  - intros s seconds origin Hstamp.
    assert (Hs : s ≠ Call_startListenerAsync) by (by intros ->).
    pose proof (step_shows _ _ s _ Hs Hend) as Hnext.
    destruct Hend as (Hn & Hem & Hphase).
    destruct (phase_after steps) as [c | c | seconds' origin' c | signal].
    + destruct Hphase as (Hl & Hf & Hp & Ha & Ht).
      destruct s; cbn in Hstamp; try done; rewrite ?Hp, ?Ha in Hstamp; [| done].
      cbn [retry_protocol] in Hnext.
      destruct (truthy resolve) as [seconds0 |]; [| done].
      injection Hstamp as <- <-. rewrite Hf.
      destruct c; destruct Hnext as (Hn' & Hem' & Hphase'); cbn [signals] in Hem';
        rewrite app_nil_r in Hem'; (split; [done |]).
      * destruct Hphase' as (Hl' & Hf' & Hnp').
        exact (conj Hn' (conj Hl' (conj Hf' Hnp'))).
      * by destruct Hphase' as (? & _ & _ & _ & ?).
    + destruct Hphase as (Hl & Hf & Hp & Ha & Ht).
      destruct s; cbn in Hstamp; try done; rewrite ?Hp, ?Ha in Hstamp; [done |].
      cbn [retry_protocol] in Hnext.
      injection Hstamp as <- <-. rewrite Hf.
      destruct c; destruct Hnext as (Hn' & Hem' & Hphase'); cbn [signals] in Hem';
        rewrite app_nil_r in Hem'; (split; [done |]).
      * destruct Hphase' as (Hl' & Hf' & Hnp').
        exact (conj Hn' (conj Hl' (conj Hf' Hnp'))).
      * by destruct Hphase' as (? & _ & _ & _ & ?).
    + destruct Hphase as (Hl & Hf & Hp & Ha & Ht).
      destruct s; cbn in Hstamp; try done; by rewrite ?Hp, ?Ha in Hstamp.
    + destruct Hphase as (Hl & Hf & Hp & Ha & Ht).
      destruct s; cbn in Hstamp; try done; by rewrite ?Hp, ?Ha in Hstamp.
  - intros delay check rest Hpending.
    assert (Hs : TimeoutFires ≠ Call_startListenerAsync) by done.
    pose proof (step_shows _ _ TimeoutFires _ Hs Hend) as Hnext.
    destruct Hend as (Hn & Hem & Hphase).
    destruct (phase_after steps) as [c | c | seconds origin c | signal].
    + destruct Hphase as (_ & _ & _ & _ & Ht). congruence.
    + destruct Hphase as (_ & _ & _ & _ & Ht). congruence.
    + destruct Hphase as (Hl & Hf & Hp & Ha & Ht).
      rewrite Ht in Hpending. injection Hpending as <- <- <-.
      cbn [signals] in Hem. rewrite app_nil_r in Hem.
      split; [done |]. split; [done |]. split; [done |]. split; [done |].
      cbn [retry_protocol] in Hnext. rewrite Hf. cbn [fallbackSeconds].
      destruct c; destruct Hnext as (Hn' & Hem' & Hl' & Hf' & Hnp');
        cbn [signals] in Hem'; rewrite ?app_nil_r in Hem';
        exact (conj (conj Hn' (conj Hl' (conj Hf' Hnp'))) Hem').
    + destruct Hphase as (_ & _ & _ & _ & Ht). congruence.
  - intros before after -> Hbefore.
    apply Forall_app in Hsteps as [Hbefore_steps _].
    pose proof (cycle_shows st before Hquiet Hbefore_steps) as Hmid.
    pose proof (shows_no_signal _ _ _ Hmid Hbefore) as Hnone.
    destruct Hend as (_ & Hem & _). rewrite Hem.
    rewrite phase_after_app. cbn [foldl].
    rewrite (confirmed_no_signal _ (confirmed_run after _ (event_confirms _ Hnone))).
    apply app_nil_r.
  - intros Hnever (Hp & Ha & Ht).
    pose proof (unconfirmed_run steps (AwaitNative false) Hnever eq_refl) as Hopen.
    fold (phase_after steps) in Hopen.
    destruct Hend as (_ & Hem & Hphase).
    destruct (phase_after steps) as [c | c | seconds origin c | [seconds |]];
      try (destruct Hphase as (_ & _ & Hp' & Ha' & Ht'); congruence); [| done].
    by exists seconds.
  - intros (Hp & Ha & Ht).
    destruct Hend as (Hn & _ & Hphase).
    destruct (phase_after steps) as [c | c | seconds origin c | signal];
      try (destruct Hphase as (_ & _ & Hp' & Ha' & Ht'); congruence).
    destruct Hphase as (Hl & Hf & Hnp). done.
Qed.

Import EmitterSamples.

Lemma ready_quiet : quiet ready.
Proof. repeat split; cbn; lia. Defined.

(** C3 on the cycle in which the native call gives 5 and the confirming
    event never comes: after the first check the one timeout holds 5 and
    nothing is emitted; after the timeout the fallback with 5 is emitted
    and the emitter is quiet. *)
Lemma isolated_cycle_one_signal_witness :
  quiet ready
  ∧ timeouts (run [Call_startListenerAsync; NativeResolves (Some 5%Q)] ready)
    = [(3000%Z, {| fallbackSeconds := 5%Q; origin := "Native";
                   firstAttemptCompleted := true |})]
  ∧ emitted (run [Call_startListenerAsync; NativeResolves (Some 5%Q)] ready) = []
  ∧ emitted (run [Call_startListenerAsync; NativeResolves (Some 5%Q); TimeoutFires] ready)
    = [fallback 5%Q]
  ∧ quiet (run [Call_startListenerAsync; NativeResolves (Some 5%Q); TimeoutFires] ready).
Proof.
  split; [exact ready_quiet |].
  pose proof (isolated_cycle_one_signal ready [NativeResolves (Some 5%Q)] ready_quiet)
    as Hfirst.
  destruct Hfirst as ((_ & Hemitted & _ & _ & _ & _ & Htimeout) & _ & _ & Hsecond & _);
    [repeat constructor; discriminate |].
  split; [exact Htimeout |]. split; [exact Hemitted |].
  destruct (Hsecond _ _ _ Htimeout) as (_ & _ & _ & _ & Hquiet & Hfallback).
  split; [exact Hfallback | exact Hquiet].
Defined.

(** The check right after the native call, the timeout of 3000 ms, and
    the check when it fires. *)
Example first_check_sets_one_timeout :
  timeouts (run [Call_startListenerAsync; NativeResolves (Some 5%Q)] ready)
  = [(3000%Z, {| fallbackSeconds := 5%Q; origin := "Native"; firstAttemptCompleted := true |})]
  ∧ emitted (run [Call_startListenerAsync; NativeResolves (Some 5%Q)] ready) = [].
Proof. vm_compute. done. Qed.

Example confirmed_before_the_first_check :
  run [Call_startListenerAsync; NativeNewFrame; NativeResolves (Some 5%Q)] ready = ready.
Proof. vm_compute. done. Qed.

Example confirmed_before_the_timeout :
  emitted (run [Call_startListenerAsync; NativeResolves (Some 5%Q); NativeNewFrame;
                TimeoutFires] ready) = []
  ∧ timeouts (run [Call_startListenerAsync; NativeResolves (Some 5%Q); NativeNewFrame;
                   TimeoutFires] ready) = [].
Proof. vm_compute. done. Qed.

Example javascript_fallback :
  emitted (run [Call_startListenerAsync; NativeRejects; AnimationFrame 9%Q; TimeoutFires]
             ready) = [fallback 9%Q].
Proof. vm_compute. done. Qed.

(** C3 as stated fails for a cycle that starts while an earlier one still
    waits for its timeout.  In the second cycle the native call gives 2
    and then the confirming event comes; the timeout of the first cycle
    takes the flag down, and the timeout of the second emits the fallback
    with the timestamp 2. *)
Lemma overlapping_cycle_fallback_after_confirmation :
  emitted waiting = []
  ∧ emitted (run [Call_startListenerAsync; NativeResolves (Some 2%Q)] waiting) = []
  ∧ emitted (run [Call_startListenerAsync; NativeResolves (Some 2%Q); NativeNewFrame;
                  TimeoutFires; TimeoutFires] waiting) = [fallback 2%Q]
  ∧ ¬ no_fallback_after_confirmation waiting.
Proof.
  split; [vm_compute; reflexivity |].
  split; [vm_compute; reflexivity |].
  split; [vm_compute; reflexivity |].
  intros Hclaim.
  specialize (Hclaim [NativeResolves (Some 2%Q)] [TimeoutFires; TimeoutFires]).
  assert (Hsteps : Forall (fun s => s ≠ Call_startListenerAsync)
                     ([NativeResolves (Some 2%Q)] ++ [TimeoutFires; TimeoutFires]))
    by (repeat constructor; discriminate).
  specialize (Hclaim Hsteps eq_refl).
  vm_compute in Hclaim. discriminate Hclaim.
Qed.

End EmitterFacts.

(** ** The tracing integration *)

Module TracingFacts.

Import Tracing.

Lemma truthy_number_nonzero (q : Q) : ¬ (q == 0)%Q → truthy_number (Some q) = Some q.
Proof.
  intros Hq. cbn. destruct (Qeq_bool q 0) eqn:E; [| done].
  by apply Qeq_bool_iff in E.
Qed.

Lemma Qle_bool_false (a b : Q) : (b < a)%Q → Qle_bool a b = false.
Proof.
  intros Hlt. destruct (Qle_bool a b) eqn:E; [| done].
  apply Qle_bool_iff in E. by apply Qlt_not_le in Hlt.
Qed.

Section WithImports.

Context `{Imports}.

Lemma duration_truthy appStart st d :
  _getAppStartDurationMilliseconds appStart st = Some d → ¬ (d == 0)%Q →
  truthy_number (_getAppStartDurationMilliseconds appStart st) = Some d.
Proof. intros -> Hd. by apply truthy_number_nonzero. Qed.

Lemma spanRecorder_startChild description operation start finish t st :
  spanRecorder (startChild description operation start finish t st).1
  = (fun spans =>
       spans ++ [ {| Span.spanId := span_id_at (spans_created st);
                     Span.op := Some operation;
                     Span.description := Some description;
                     Span.startTimestamp := start;
                     Span.endTimestamp := finish |} ]) <$> spanRecorder t.
Proof.
  unfold startChild. cbn [fst].
  destruct (spanRecorder t) as [spans |] eqn:E; cbn; [done | by rewrite E].
Qed.

(** C7.  Let [d] be the duration that
    [_getAppStartDurationMilliseconds] computes for the app start record.
    When [d] is 60000 or more, [_addAppStartData] returns with the
    transaction and the integration as they were: no span, no
    measurement.  When [d] is positive and below 60000, the transaction
    gets the measurement [APP_START_COLD] for a cold start and
    [APP_START_WARM] otherwise, of value [d] in milliseconds, and its
    span recorder, where it has one, gets a last span with the cold or
    warm start operation, from the app start time to the time the app
    start finished. *)
Theorem app_start_outlier_filter (transaction : IdleTransaction)
    (appStart : NativeAppStartResponse) (st : State) (d : Q) :
  _getAppStartDurationMilliseconds appStart st = Some d →
  ((60000 <= d)%Q → _addAppStartData transaction appStart st = (transaction, st))
  ∧ ((0 < d)%Q → (d < 60000)%Q →
       let transaction' := (_addAppStartData transaction appStart st).1 in
       _measurements transaction'
         !! (if isColdStart appStart then APP_START_COLD else APP_START_WARM)
       = Some {| value := d; unit := "millisecond" |}
       ∧ ∀ spans, spanRecorder transaction' = Some spans →
           ∃ earlier,
             spans
             = earlier
               ++ [ {| Span.spanId := span_id_at (spans_created st);
                       Span.op :=
                         Some (if isColdStart appStart then APP_START_COLD_OP
                               else APP_START_WARM_OP);
                       Span.description :=
                         Some (if isColdStart appStart then "Cold App Start"
                               else "Warm App Start");
                       Span.startTimestamp := (appStartTime appStart / 1000)%Q;
                       Span.endTimestamp := _appStartFinishTimestamp st |} ]).
Proof.
  intros Hd. split.
  - intros Hbig. unfold _addAppStartData.
    rewrite (duration_truthy _ _ _ Hd).
    + unfold _maxAppStart. apply Qle_bool_iff in Hbig. by rewrite Hbig.
    + intros Hzero. rewrite Hzero in Hbig. by apply Qle_bool_iff in Hbig.
  - intros Hpos Hsmall transaction'. subst transaction'. unfold _addAppStartData.
    rewrite (duration_truthy _ _ _ Hd).
    2: { intros Hzero. rewrite Hzero in Hpos. by apply Qlt_irrefl in Hpos. }
    unfold _maxAppStart. rewrite (Qle_bool_false _ _ Hsmall).
    destruct (startChild _ _ _ _ _ st) as [child st'] eqn:Hchild.
    cbn [fst]. split.
    + cbn. apply lookup_insert_eq.
    + intros spans Hspans. cbn in Hspans.
      pose proof (spanRecorder_startChild
                    (if isColdStart appStart then "Cold App Start" else "Warm App Start")
                    (if isColdStart appStart then APP_START_COLD_OP else APP_START_WARM_OP)
                    (appStartTime appStart / 1000)%Q (_appStartFinishTimestamp st)
                    (restart_span "ui.load.full_display" "time_to_full_display"
                       (appStartTime appStart / 1000)%Q
                       (restart_span "ui.load.initial_display" "time_to_initial_display"
                          (appStartTime appStart / 1000)%Q
                          (set_startTimestamp (appStartTime appStart / 1000)%Q transaction)))
                    st) as Hrec.
      rewrite Hchild in Hrec. cbn [fst] in Hrec. rewrite Hspans in Hrec.
      symmetry in Hrec. apply fmap_Some in Hrec as (earlier & _ & ->).
      by exists earlier.
Qed.

(** C8, as the code has it.  With a transaction active on the scope that
    is not the interaction transaction in flight,
    [startUserInteractionTransaction] returns no transaction; it logs the
    warning when the four checks before that one pass: interaction
    tracing is enabled, a routing instrumentation is set, and the element
    id and the current route are known.  It also returns no transaction
    when interaction tracing is disabled, when there is no routing
    instrumentation, when the element id is undefined, and when there is no
    current route.  A call that returns no transaction only adds one
    line to the log. *)
Theorem interaction_rejected (r : NewTransaction) (userInteractionId : UserInteractionId)
    (st : State) :
  let out := startUserInteractionTransaction r userInteractionId st in
  (unrelated_active st → out.1 = None)
  ∧ (unrelated_active st →
     enableUserInteractionTracing (options st) = true →
     routingInstrumentation (options st) = true →
     is_Some (truthy_string (elementId userInteractionId)) →
     is_Some (truthy_string (_currentRoute st)) →
     ∃ message, out.2 = logger LogWarn message st)
  ∧ (enableUserInteractionTracing (options st) = false → out.1 = None)
  ∧ (routingInstrumentation (options st) = false → out.1 = None)
  ∧ (elementId userInteractionId = None → out.1 = None)
  ∧ (_currentRoute st = None → out.1 = None)
  ∧ (out.1 = None → ∃ level message, out.2 = logger level message st).
Proof.
  cbn zeta.
  assert (Hunrelated : unrelated_active st →
    ∃ active,
      (if match getActiveTransaction (current_hub st) st,
                 _inflightInteractionTransaction st with
          | None, _ => true
          | Some _, None => true
          | Some active, Some inflight => bool_decide (active ≠ inflight)
          end
       then getActiveTransaction (current_hub st) st else None) = Some active).
  { intros (active & Hactive & Hinflight). exists active. rewrite Hactive.
    destruct (_inflightInteractionTransaction st) as [inflight |]; [| done].
    rewrite bool_decide_eq_true_2; [done | congruence]. }
  unfold startUserInteractionTransaction.
  destruct (enableUserInteractionTracing (options st)) eqn:Henabled; cbn [negb].
  2: { repeat split; try done; eauto. }
  destruct (routingInstrumentation (options st)) eqn:Hrouting; cbn [negb].
  2: { repeat split; try done; eauto. }
  destruct (truthy_string (elementId userInteractionId)) as [e |] eqn:He.
  2: { repeat split; try done; eauto. }
  destruct (truthy_string (_currentRoute st)) as [route |] eqn:Hroute.
  2: { repeat split; try done; eauto. }
  cbn zeta.
  split; [| split; [| split; [| split; [| split; [| split]]]]]; try done.
  - intros Hu. destruct (Hunrelated Hu) as (active & ->). done.
  - intros Hu _ _ _ _. destruct (Hunrelated Hu) as (active & ->). eauto.
  - intros Hnone. by rewrite Hnone in He.
  - intros Hnone. by rewrite Hnone in Hroute.
  - destruct (if (_ : bool) then getActiveTransaction (current_hub st) st else None)
      as [active |]; [eauto |].
    destruct (_startIdleTransaction r _ _) as [tx st']. done.
Qed.

Lemma other_child_span_spec transaction span :
  other_child_span transaction span = true ↔ ¬ housekeeping_span transaction span.
Proof.
  unfold other_child_span, housekeeping_span.
  rewrite !andb_true_iff, !bool_decide_eq_true. tauto.
Qed.

Lemma no_other_child_span transaction spans :
  Forall (housekeeping_span transaction) spans →
  filter (fun span => other_child_span transaction span = true) spans = [].
Proof.
  induction 1 as [| span spans Hspan _ IH]; [done |].
  rewrite filter_cons_False; [done |].
  intros Hother. by apply other_child_span_spec in Hother.
Qed.

Lemma some_other_child_span transaction spans span :
  span ∈ spans → ¬ housekeeping_span transaction span →
  length (filter (fun span => other_child_span transaction span = true) spans) ≠ 0.
Proof.
  intros Hin Hspan Hlen. apply length_zero_iff_nil in Hlen.
  pose proof (filter_nil_not_elem_of _ spans span Hlen) as Hnot.
  apply Hnot; [by apply other_child_span_spec | done].
Qed.

Lemma options_addAppStartData transaction appStart st :
  options (_addAppStartData transaction appStart st).2 = options st.
Proof.
  unfold _addAppStartData.
  destruct (truthy_number _) as [d |]; [| done].
  by destruct (Qle_bool _maxAppStart d).
Qed.

Lemma options_run_callback callback ref endTimestamp st :
  options (run_callback callback ref endTimestamp st) = options st.
Proof.
  unfold run_callback. destruct (transactions st !! ref) as [transaction |]; [| done].
  destruct callback; try done.
  - unfold attachAppStart.
    destruct (enableAppStartTracking (options st)); [| done].
    destruct (_awaitingAppStartData st) as [appStart |]; [| done].
    pose proof (options_addAppStartData (set_op (Some UI_LOAD) transaction) appStart st)
      as Hoptions.
    by destruct (_addAppStartData _ appStart st).
  - unfold ignoreEmptyBackNavigation. by destruct (_ && _).
Qed.

Lemma options_end_transaction ref endTimestamp st :
  options (end_transaction ref endTimestamp st) = options st.
Proof.
  unfold end_transaction. destruct (transactions st !! ref) as [transaction |]; [| done].
  cbn. generalize (_beforeFinishCallbacks transaction). intros callbacks.
  revert st. induction callbacks as [| callback callbacks IH]; intros st; [done |].
  cbn. rewrite IH. apply options_run_callback.
Qed.

(** C9.  With a hub set, [_createRouteTransaction] returns a new
    transaction whose before-finish callbacks are the notification of
    the instrumentations, the app start attribution, the adjustment of
    the duration and, when [ignoreEmptyBackNavigationTransactions] is
    set, the callback [IgnoreEmptyBackNavigation], last.  On a
    transaction whose route has been seen before and whose recorder is
    missing or holds housekeeping spans only (the transaction's own span,
    initial display spans, navigation processing spans), this callback
    sets [sampled] to [false] and changes nothing else.  On a
    transaction with any other recorded span, and on a route not seen
    before, it changes nothing, so [sampled] is as it was. *)
Theorem empty_back_navigation_not_sampled :
  (∀ r context st hub,
     _getCurrentHub st = Some hub →
     let out := _createRouteTransaction r context st in
     out.1 = Some (new_spanId r)
     ∧ ∃ transaction,
         transactions out.2 !! new_spanId r = Some transaction
         ∧ _beforeFinishCallbacks transaction
           = [NotifyTransactionFinish; AttachAppStart;
              AdjustTransactionDuration (finalTimeoutMs (options st))]
             ++ (if ignoreEmptyBackNavigationTransactions (options st)
                 then [IgnoreEmptyBackNavigation] else []))
  ∧ (∀ ref endTimestamp transaction st,
       transactions st !! ref = Some transaction →
       transactions (run_callback IgnoreEmptyBackNavigation ref endTimestamp st) !! ref
       = Some (ignoreEmptyBackNavigation transaction st).1)
  ∧ (∀ transaction st,
       route_hasBeenSeen transaction = true →
       (∀ spans, spanRecorder transaction = Some spans →
                 Forall (housekeeping_span transaction) spans) →
       (ignoreEmptyBackNavigation transaction st).1 = set_sampled (Some false) transaction
       ∧ sampled (ignoreEmptyBackNavigation transaction st).1 = Some false)
  ∧ (∀ transaction st spans span,
       spanRecorder transaction = Some spans →
       span ∈ spans → ¬ housekeeping_span transaction span →
       ignoreEmptyBackNavigation transaction st = (transaction, st))
  ∧ (∀ transaction st,
       route_hasBeenSeen transaction = false →
       ignoreEmptyBackNavigation transaction st = (transaction, st)).
Proof.
  split; [| split; [| split; [| split]]].
  - intros r context st hub Hhub. cbn zeta. unfold _createRouteTransaction.
    rewrite Hhub.
    set (st1 := match _inflightInteractionTransaction st with
                | Some inflight => _
                | None => st
                end).
    assert (Hoptions : options st1 = options st).
    { subst st1. destruct (_inflightInteractionTransaction st) as [inflight |]; [| done].
      by rewrite options_end_transaction. }
    unfold _startIdleTransaction, startIdleTransaction. cbn [fst snd].
    rewrite Hoptions.
    destruct (ignoreEmptyBackNavigationTransactions (options st)) eqn:Hignore;
      unfold onTransactionStart; destruct (new_isNearToNow r); cbn;
      rewrite ?Hoptions, ?Hignore; cbn;
      (split; [done |]);
      rewrite !lookup_alter_eq, lookup_insert_eq; cbn; eauto.
  - intros ref endTimestamp transaction st Href. unfold run_callback. rewrite Href.
    destruct (ignoreEmptyBackNavigation transaction st) as [transaction' st'] eqn:Hcall.
    cbn. apply lookup_insert_eq.
  - intros transaction st Hseen Hspans. unfold ignoreEmptyBackNavigation.
    rewrite Hseen. cbn [andb].
    destruct (spanRecorder transaction) as [spans |] eqn:Hrecorder; [| done].
    rewrite (no_other_child_span transaction spans) by (by apply Hspans). done.
  - intros transaction st spans span Hrecorder Hin Hspan.
    unfold ignoreEmptyBackNavigation. rewrite Hrecorder.
    rewrite (bool_decide_eq_false_2 (length _ = 0%nat));
      [by rewrite andb_false_r |].
    by apply some_other_child_span with span.
  - intros transaction st Hseen. unfold ignoreEmptyBackNavigation. by rewrite Hseen.
Qed.

End WithImports.

Import TracingSamples.

#[local] Existing Instance imports.

(** C7 on a cold start 500 ms before the end of the app start. *)
Lemma app_start_outlier_filter_witness :
  _getAppStartDurationMilliseconds cold_start_500 (tracing default_options) = Some 500%Q
  ∧ _measurements
      (_addAppStartData (route_transaction []) cold_start_500 (tracing default_options)).1
    !! "app_start_cold"
    = Some {| value := 500; unit := "millisecond" |}.
Proof.
  split; [reflexivity |].
  refine (proj1 (proj2 (app_start_outlier_filter (route_transaction []) cold_start_500
                          (tracing default_options) 500%Q eq_refl) _ _));
    reflexivity.
Defined.

(** The two durations of the spec: 70000 ms is dropped, 500 ms becomes the
    measurement of the cold or of the warm start. *)
Example app_start_70000_and_500 :
  _getAppStartDurationMilliseconds cold_start_70000 (tracing default_options)
  = Some 70000%Q
  ∧ _addAppStartData (route_transaction []) cold_start_70000 (tracing default_options)
    = (route_transaction [], tracing default_options)
  ∧ _measurements
      (_addAppStartData (route_transaction []) warm_start_500 (tracing default_options)).1
    = {[ "app_start_warm" := {| value := 500; unit := "millisecond" |} ]}
  ∧ _measurements
      (_addAppStartData (route_transaction []) cold_start_500 (tracing default_options)).1
    = {[ "app_start_cold" := {| value := 500; unit := "millisecond" |} ]}.
Proof. vm_compute. done. Qed.

Lemma unrelated_active_sample o : unrelated_active (tracing o).
Proof. exists "t1". split; [reflexivity | discriminate]. Defined.

(** C8 with interaction tracing on: the transaction [t1] on the scope is
    not an interaction transaction, and the call is refused with the
    warning. *)
Lemma interaction_rejected_witness :
  unrelated_active (tracing interaction_options)
  ∧ (startUserInteractionTransaction new_transaction press_button
       (tracing interaction_options)).1 = None
  ∧ ∃ message,
      (startUserInteractionTransaction new_transaction press_button
         (tracing interaction_options)).2
      = logger LogWarn message (tracing interaction_options).
Proof.
  pose proof (interaction_rejected new_transaction press_button
                (tracing interaction_options)) as (Hnone & Hwarn & _).
  split; [apply unrelated_active_sample |].
  split; [apply Hnone, unrelated_active_sample |].
  apply Hwarn; [apply unrelated_active_sample | reflexivity | reflexivity | |];
    by eexists.
Defined.

Example interaction_rejected_message :
  log (startUserInteractionTransaction new_transaction press_button
         (tracing interaction_options)).2
  = [(LogWarn,
      "[ReactNativeTracing] Did not create ui.action.touch transaction because active transaction Home exists on the scope.")].
Proof. vm_compute. done. Qed.

(** C8 as stated fails under the default options, which leave interaction
    tracing off: with the unrelated transaction [t1] active on the scope,
    the call returns no transaction and logs that interaction tracing is
    disabled, at the level of [logger.log]; the log has no warning. *)
Lemma disabled_interaction_tracing_logs_no_warning :
  unrelated_active (tracing default_options)
  ∧ (startUserInteractionTransaction new_transaction press_button
       (tracing default_options)).1 = None
  ∧ log (startUserInteractionTransaction new_transaction press_button
           (tracing default_options)).2
    = [(LogLog, "[ReactNativeTracing] User Interaction Tracing is disabled.")]
  ∧ ¬ ∃ message,
        (LogWarn, message)
        ∈ log (startUserInteractionTransaction new_transaction press_button
                 (tracing default_options)).2.
Proof.
  split; [apply unrelated_active_sample |].
  split; [reflexivity |].
  split; [reflexivity |].
  intros (message & Hin). cbn in Hin.
  apply list_elem_of_singleton in Hin. discriminate Hin.
Qed.

(** With nothing on the scope, the interaction transaction starts. *)
Example interaction_started :
  (startUserInteractionTransaction new_transaction press_button
     (set_active ∅ (tracing interaction_options))).1 = Some "t2"
  ∧ _inflightInteractionTransaction
      (startUserInteractionTransaction new_transaction press_button
         (set_active ∅ (tracing interaction_options))).2 = Some "t2".
Proof. vm_compute. done. Qed.

(** C9 on a back navigation to [Home]: with an initial display span and a
    navigation processing span only, the transaction stops being sampled;
    with an HTTP span besides, it stays sampled. *)
Lemma empty_back_navigation_not_sampled_witness :
  sampled
    (ignoreEmptyBackNavigation
       (route_transaction [child_span "c1" "ui.load.initial_display";
                           child_span "c2" "navigation.processing"])
       (tracing default_options)).1 = Some false
  ∧ sampled
      (ignoreEmptyBackNavigation
         (route_transaction [child_span "c1" "ui.load.initial_display";
                             child_span "c3" "http.client"])
         (tracing default_options)).1 = Some true.
Proof.
  destruct empty_back_navigation_not_sampled as (_ & _ & Hdrop & Hkeep & _).
  split.
  - refine (proj2 (Hdrop
                     (route_transaction [child_span "c1" "ui.load.initial_display";
                                         child_span "c2" "navigation.processing"])
                     (tracing default_options) eq_refl _)).
    intros spans [= <-].
    apply Forall_cons. split; [by left |].
    apply Forall_cons. split; [right; by left |].
    apply Forall_cons. split; [right; by right |].
    apply Forall_nil_2.
  - rewrite (Hkeep
               (route_transaction [child_span "c1" "ui.load.initial_display";
                                   child_span "c3" "http.client"])
               (tracing default_options) _ (child_span "c3" "http.client") eq_refl);
      [reflexivity | |].
    + do 2 apply elem_of_cons, or_intror. apply elem_of_cons. by left.
    + intros [Hid | [Hop | Hop]]; discriminate.
Defined.

Example route_transaction_callbacks :
  (_createRouteTransaction new_transaction
     {| context_name := "Details"; context_op := Some "navigation";
        context_trimEnd := false; context_data := None |}
     (tracing default_options)).1 = Some "t2"
  ∧ _beforeFinishCallbacks
      <$> transactions
            (_createRouteTransaction new_transaction
               {| context_name := "Details"; context_op := Some "navigation";
                  context_trimEnd := false; context_data := None |}
               (tracing default_options)).2 !! "t2"
    = Some [NotifyTransactionFinish; AttachAppStart; AdjustTransactionDuration 600000;
            IgnoreEmptyBackNavigation].
Proof. vm_compute. done. Qed.

End TracingFacts.

(** ** More on the profile queue and the profiling integration *)

Module DoubleFacts.

Local Open Scope Z_scope.

Lemma round_small n : Z.abs n < 2 ^ 53 → Double.round n = n.
Proof.
  intros Hsmall. unfold Double.round.
  destruct (Z.ltb_spec (Z.abs n) (2 ^ 53)); [done | lia].
Qed.

(** Rounding gives 0 for 0 only. *)
Lemma round_zero n : Double.round n = 0 ↔ n = 0.
Proof.
  split; [| by intros ->].
  unfold Double.round.
  destruct (Z.ltb_spec (Z.abs n) (2 ^ 53)) as [Hsmall | Hbig]; [done |].
  set (a := Z.abs n) in *.
  assert (Ha : 0 < a) by lia.
  assert (Hlog : 53 ≤ Z.log2 a) by (by apply Z.log2_le_pow2).
  set (e := Z.log2 a - 52).
  assert (He : 0 ≤ e) by lia.
  assert (Hq : 0 < Z.shiftr a e).
  { rewrite Z.shiftr_div_pow2 by done.
    apply Z.div_str_pos. split; [by apply Z.pow_pos_nonneg |].
    transitivity (2 ^ Z.log2 a); [| by apply Z.log2_spec].
    apply Z.pow_le_mono_r; lia. }
  set (q := Z.shiftr a e) in *.
  intros Hzero. apply Z.mul_eq_0 in Hzero as [Hsign | Hshift].
  - by apply Z.sgn_null_iff.
  - apply Z.shiftl_eq_0_iff in Hshift; [| done].
    destruct (_ <? _); [lia |]. destruct (_ <? _); [lia |]. destruct (Z.even q); lia.
Qed.

(** [Date.now() * MS_TO_NS] is 0 only when the clock reads 0. *)
Lemma stamp_zero now : Double.mul now Profiling.MS_TO_NS = 0 ↔ now = 0.
Proof. unfold Double.mul, Profiling.MS_TO_NS. rewrite round_zero. lia. Qed.

(** A clock reading of today: the product is not a double, and the
    stamp is the double next to it; [toString(10)] prints the shortest
    digits that give this double back. *)
Example stamp_of_today :
  Double.mul 1730000000001 Profiling.MS_TO_NS = 1730000000000999936
  ∧ Double.toString 1730000000000999936 = "1730000000001000000"
  ∧ Double.sub (Double.mul 1730000000001 Profiling.MS_TO_NS)
      (Double.mul 1730000000000 Profiling.MS_TO_NS) = 999936
  ∧ Double.toString 999936 = "999936".
Proof. vm_compute. done. Qed.

Example toString_edges :
  Double.toString 0 = "0"
  ∧ Double.toString (-5) = "-5"
  ∧ Double.toString (10 ^ 21) = "1e+21"
  ∧ Double.toString (Double.round (2 ^ 70 + 12345)) = "1.1805916207174113e+21"
  ∧ Double.toString (Double.round (123456789 * 10 ^ 15)) = "1.23456789e+23"
  ∧ Double.toString (2 ^ 53 + 2) = "9007199254740994".
Proof. vm_compute. done. Qed.

End DoubleFacts.

Module ProfilingMoreFacts.

Import Merge Profiling ProfilingHooks ProfilingFacts.

Lemma get_add_eq {V} key (value : V) q :
  FifoCache.get key (FifoCache.add key value q) = Some value.
Proof.
  unfold FifoCache.get, FifoCache.add, FifoCache.evict. cbn.
  set (kept := drop _ _).
  assert (Hkept : Forall (fun e : string * V => fst e ≠ key) kept).
  { subst kept. apply Forall_drop, Forall_forall. intros e He.
    by apply list_elem_of_filter in He as [Hne _]. }
  clearbody kept. induction Hkept as [| e kept He _ IH]; cbn.
  - by rewrite decide_True.
  - rewrite decide_False by done.
    destruct (list_find _ (kept ++ _)) as [[i e'] |]; cbn in *; congruence.
Qed.

Section WithImports.

Context `{Imports}.

Lemma finish_hub r st :
  _getCurrentHub (_finishCurrentProfile r st) = _getCurrentHub st.
Proof.
  unfold _finishCurrentProfile. cbn.
  destruct (_currentProfile st) as [current |]; cbn; [| done].
  by destruct (stopProfiling r (startTimestampNs current)).
Qed.

Lemma shouldStart_spec random span st :
  (_shouldStartProfiling random span st).1 = true
  ↔ spanIsSampled span = true
    ∧ ∃ rate, sample_rate st = Some rate ∧ (random <= rate)%Q.
Proof.
  unfold _shouldStartProfiling, sample_rate.
  destruct (spanIsSampled span); cbn [negb].
  2: { split; [done | by intros [? _]]. }
  destruct ((_ ≫= _experiments) ≫= profilesSampleRate) as [rate |]; cbn.
  2: { split; [done | by intros (_ & rate & ? & _)]. }
  destruct (Qle_bool random rate) eqn:Hle; cbn.
  - apply Qle_bool_iff in Hle. split; [| done]. intros _. split; [done |]. by exists rate.
  - split; [done |]. intros (_ & rate' & [= <-] & Hle').
    apply Qle_bool_iff in Hle'. congruence.
Qed.

Lemma shouldStart_hub random span st :
  _getCurrentHub (_shouldStartProfiling random span st).2 = _getCurrentHub st.
Proof.
  unfold _shouldStartProfiling.
  destruct (negb (spanIsSampled span)); cbn; [done |].
  destruct (_ ≫= profilesSampleRate) as [rate |]; cbn; [| done].
  by destruct (negb (Qle_bool random rate)).
Qed.

(** The session that [_startCurrentProfile] opens. *)
Lemma start_shape (r : Readings) (activeSpan : Span) (st : State) :
  let out := _startCurrentProfile r activeSpan st in
  ∀ new, _currentProfile out.1 = Some new →
    new = {| profile_id := uuid4_at (uuid4_calls st);
             startTimestampNs := Double.mul (start_Date_now (on_start r)) MS_TO_NS |}
    ∧ attributes out.2 !! "profile_id" = Some (profile_id new)
    ∧ is_Some (_currentProfileTimeout out.1).
Proof.
  cbn zeta. unfold _startCurrentProfile.
  set (finished := _finishCurrentProfile (on_stop r) st).
  assert (Hc : _currentProfile finished = None) by apply finish_clears.
  assert (Hu : uuid4_calls finished = uuid4_calls st) by apply finish_uuid4_calls.
  destruct (isCurrentlyActiveSpan activeSpan); cbn [negb fst snd].
  2: { rewrite Hc. done. }
  pose proof (shouldStart_state (Math_random r) activeSpan finished) as (Hc' & Hu' & _).
  destruct (_shouldStartProfiling (Math_random r) activeSpan finished) as [should st1].
  cbn [fst snd] in Hc', Hu'.
  destruct should; cbn [negb fst snd].
  2: { rewrite Hc', Hc. done. }
  unfold _startNewProfile, startProfiling.
  destruct (NATIVE_startProfiling (on_start r)); cbn -[Double.mul].
  2: { rewrite Hc', Hc. done. }
  destruct (Z.eqb_spec (Double.mul (start_Date_now (on_start r)) MS_TO_NS) 0)
    as [Hzero | Hzero]; cbn -[Double.mul].
  - rewrite Hc', Hc. done.
  - rewrite Hu', Hu. intros new [= <-]. cbn. split; [done |]. split; [| by eexists].
    apply lookup_insert_eq.
Qed.

(** X1.  [_startCurrentProfile] leaves a session in progress exactly when
    the span is the active one and is sampled, a sample rate is
    configured and [Math.random()] is not above it, the native profiler
    started and the clock does not read 0.  The session then has the
    next [uuid4()] value as identifier and, as start, the product of the
    clock reading and [MS_TO_NS] as binary64 rounds it; the span carries
    the identifier under [profile_id]; the hard stop is set.  Otherwise
    the span is as it was. *)
Theorem session_opens_exactly_when (r : Readings) (activeSpan : Span) (st : State) :
  let out := _startCurrentProfile r activeSpan st in
  (is_Some (_currentProfile out.1)
   ↔ isCurrentlyActiveSpan activeSpan = true
     ∧ spanIsSampled activeSpan = true
     ∧ (∃ rate, sample_rate st = Some rate ∧ (Math_random r <= rate)%Q)
     ∧ NATIVE_startProfiling (on_start r) = true
     ∧ start_Date_now (on_start r) ≠ 0%Z)
  ∧ (∀ new, _currentProfile out.1 = Some new →
       new = {| profile_id := uuid4_at (uuid4_calls st);
                startTimestampNs := Double.mul (start_Date_now (on_start r)) MS_TO_NS |}
       ∧ attributes out.2 !! "profile_id" = Some (profile_id new)
       ∧ is_Some (_currentProfileTimeout out.1))
  ∧ (_currentProfile out.1 = None → out.2 = activeSpan).
Proof.
  cbn zeta. unfold _startCurrentProfile.
  set (finished := _finishCurrentProfile (on_stop r) st).
  assert (Hc : _currentProfile finished = None) by apply finish_clears.
  assert (Hu : uuid4_calls finished = uuid4_calls st) by apply finish_uuid4_calls.
  assert (Hrate : sample_rate finished = sample_rate st).
  { subst finished. unfold sample_rate. by rewrite (finish_hub (on_stop r) st). }
  destruct (isCurrentlyActiveSpan activeSpan); cbn [negb fst snd].
  2: { rewrite Hc. split; [split; [by intros [? ?] | by intros [? _]] | done]. }
  pose proof (shouldStart_spec (Math_random r) activeSpan finished) as Hshould.
  pose proof (shouldStart_state (Math_random r) activeSpan finished) as (Hc' & Hu' & _).
  destruct (_shouldStartProfiling (Math_random r) activeSpan finished) as [should st1].
  cbn [fst snd] in Hshould, Hc', Hu'. rewrite Hrate in Hshould.
  destruct should; cbn [negb fst snd].
  2: { rewrite Hc', Hc. split; [| done]. split; [by intros [? ?] |].
       intros (_ & Hs & Hr & _). by pose proof (proj2 Hshould (conj Hs Hr)). }
  destruct (proj1 Hshould eq_refl) as [Hsampled Hr].
  unfold _startNewProfile, startProfiling.
  destruct (NATIVE_startProfiling (on_start r)); cbn -[Double.mul].
  2: { rewrite Hc', Hc. split; [| done]. split; [by intros [? ?] | by intros (_ & _ & _ & ? & _)]. }
  destruct (Z.eqb_spec (Double.mul (start_Date_now (on_start r)) MS_TO_NS) 0)
    as [Hzero | Hzero]; cbn -[Double.mul].
  - rewrite Hc', Hc. split; [| done]. split; [by intros [? ?] |].
    intros (_ & _ & _ & _ & Hnow).
    destruct (Hnow (proj1 (DoubleFacts.stamp_zero _) Hzero)).
  - rewrite Hu', Hu. split; [| split; [| done]].
    + split; [| by eexists]. intros _. repeat split; try done.
      intros Hnow. apply Hzero. exact (proj2 (DoubleFacts.stamp_zero _) Hnow).
    + intros new [= <-]. cbn. split; [done |]. split; [| by eexists].
      apply lookup_insert_eq.
Qed.

Lemma start_without_rate r span st :
  sample_rate st = None → _currentProfile (_startCurrentProfile r span st).1 = None.
Proof.
  intros Hnone. unfold _startCurrentProfile.
  set (finished := _finishCurrentProfile (on_stop r) st).
  assert (Hc : _currentProfile finished = None) by apply finish_clears.
  assert (Hrate : sample_rate finished = None).
  { subst finished. unfold sample_rate in *. by rewrite (finish_hub (on_stop r) st). }
  destruct (negb (isCurrentlyActiveSpan span)); cbn [fst snd]; [done |].
  pose proof (shouldStart_spec (Math_random r) span finished) as Hshould.
  pose proof (shouldStart_state (Math_random r) span finished) as (Hc' & _).
  destruct (_shouldStartProfiling (Math_random r) span finished) as [should st1].
  cbn [fst snd] in Hshould, Hc'.
  destruct should; cbn [negb fst snd]; [| congruence].
  destruct (proj1 Hshould eq_refl) as (_ & rate & Hr & _). congruence.
Qed.

Lemma start_hub r span st :
  _getCurrentHub (_startCurrentProfile r span st).1 = _getCurrentHub st.
Proof.
  unfold _startCurrentProfile.
  destruct (negb (isCurrentlyActiveSpan span)); cbn; [apply finish_hub |].
  pose proof (shouldStart_hub (Math_random r) span
                (_finishCurrentProfile (on_stop r) st)) as Hh.
  destruct (_shouldStartProfiling _ span _) as [should st1]. cbn in Hh.
  destruct should; cbn; [| by rewrite Hh, finish_hub].
  unfold _startNewProfile. destruct (startProfiling (on_start r)) as [ts |]; cbn;
    [destruct (ts =? 0)%Z; cbn |]; by rewrite Hh, finish_hub.
Qed.

Lemma start_active_hub r span st :
  _getCurrentHub (_startCurrentProfileForActiveTransaction r span st).1
  = _getCurrentHub st.
Proof.
  unfold _startCurrentProfileForActiveTransaction.
  destruct (_currentProfile st); [done |]. destruct span as [span |]; [| done].
  pose proof (start_hub r span st) as Hh.
  by destruct (_startCurrentProfile r span st).
Qed.

Lemma timer_hub handle r st :
  _getCurrentHub (timer_fires handle r st) = _getCurrentHub st.
Proof. unfold timer_fires. case_bool_decide; [by rewrite finish_hub | done]. Qed.

Lemma create_hub report st :
  _getCurrentHub (_createProfileEventFor report st).2 = _getCurrentHub st.
Proof.
  unfold _createProfileEventFor.
  destruct (as_string _) as [p |]; [| done]. cbn zeta.
  by destruct (FifoCache.get p (PROFILE_QUEUE st)).
Qed.

Lemma create_queue report st :
  PROFILE_QUEUE (_createProfileEventFor report st).2
  = match profile_id_of report with
    | Some p => FifoCache.delete p (PROFILE_QUEUE st)
    | None => PROFILE_QUEUE st
    end.
Proof.
  unfold _createProfileEventFor, profile_id_of.
  destruct (as_string _) as [p |]; [| done]. cbn zeta.
  by destruct (FifoCache.get p (PROFILE_QUEUE st)).
Qed.

(** X2.  Without a sample rate ([_getCurrentHub] unset, as [setupOnce]
    leaves it, or no client, no [_experiments], no number under
    [profilesSampleRate]) no call of the integration's methods ever
    opens a session or puts a profile in the queue. *)
Theorem no_sample_rate_no_profile (st : State) :
  reachable st → sample_rate st = None →
  _currentProfile st = None ∧ FifoCache.entries (PROFILE_QUEUE st) = [].
Proof.
  induction 1 as [capacity hub | r span st _ IH | r span st _ IH | r st _ IH
                  | handle r st _ IH | report st _ IH]; intros Hrate.
  - done.
  - assert (Hrate' : sample_rate st = None).
    { unfold sample_rate in *. by rewrite start_hub in Hrate. }
    destruct (IH Hrate') as [Hc Hq].
    pose proof (start_state r span st) as (Hqueue & _). cbn zeta in Hqueue.
    split; [by apply start_without_rate |].
    by rewrite Hqueue, finish_queue, Hc.
  - assert (Hrate' : sample_rate st = None).
    { unfold sample_rate in *. by rewrite start_active_hub in Hrate. }
    destruct (IH Hrate') as [Hc Hq].
    unfold _startCurrentProfileForActiveTransaction. rewrite Hc.
    destruct span as [span |]; [| done].
    pose proof (start_without_rate r span st Hrate') as Hnone.
    pose proof (start_state r span st) as (Hqueue & _). cbn zeta in Hqueue.
    destruct (_startCurrentProfile r span st) as [st' span'] eqn:Hstart. cbn in *.
    split; [done |]. by rewrite Hqueue, finish_queue, Hc.
  - assert (Hrate' : sample_rate st = None).
    { unfold sample_rate in *. by rewrite finish_hub in Hrate. }
    destruct (IH Hrate') as [Hc Hq].
    split; [apply finish_clears | by rewrite finish_queue, Hc].
  - assert (Hrate' : sample_rate st = None).
    { unfold sample_rate in *. by rewrite timer_hub in Hrate. }
    destruct (IH Hrate') as [Hc Hq].
    unfold timer_fires. case_bool_decide; [| done].
    split; [apply finish_clears |]. rewrite finish_queue. cbn. by rewrite Hc.
  - assert (Hrate' : sample_rate st = None).
    { unfold sample_rate in *. by rewrite create_hub in Hrate. }
    destruct (IH Hrate') as [Hc Hq].
    split; [by rewrite (proj1 (create_session report st)) |].
    rewrite create_queue. destruct (profile_id_of report); [| done].
    cbn. by rewrite Hq.
Qed.

Lemma shouldStart_timers random span st :
  let st' := (_shouldStartProfiling random span st).2 in
  timers st' = timers st
  ∧ _currentProfileTimeout st' = _currentProfileTimeout st
  ∧ next_timer st' = next_timer st.
Proof.
  unfold _shouldStartProfiling.
  destruct (negb (spanIsSampled span)); cbn; [done |].
  destruct (_ ≫= profilesSampleRate) as [rate |]; cbn; [| done].
  by destruct (negb (Qle_bool random rate)).
Qed.

Lemma startNew_timers r span st :
  let st' := (_startNewProfile r span st).1 in
  timers st' = timers st ∧ _currentProfileTimeout st' = _currentProfileTimeout st.
Proof.
  unfold _startNewProfile. destruct (startProfiling r) as [ts |]; cbn; [| done].
  by destruct (ts =? 0)%Z.
Qed.

Lemma finish_timers r st :
  deadline_set st → timers (_finishCurrentProfile r st) = [].
Proof.
  intros [_ Htimers].
  assert (Hview : timers (_finishCurrentProfile r st)
                  = timers (_clearCurrentProfileTimeout st)).
  { unfold _finishCurrentProfile. cbn.
    destruct (_currentProfile st) as [current |]; cbn; [| done].
    by destruct (stopProfiling r (startTimestampNs current)). }
  rewrite Hview. cbn. rewrite Htimers.
  destruct (_currentProfileTimeout st) as [handle |]; [| done].
  by rewrite filter_cons_False by (cbn; naive_solver).
Qed.

Lemma finish_deadline r st : deadline_set st → deadline_set (_finishCurrentProfile r st).
Proof.
  intros Hd. split.
  - rewrite finish_clears. by intros [? ?].
  - by rewrite finish_no_timeout, finish_timers.
Qed.

Lemma start_deadline r span st :
  deadline_set st → deadline_set (_startCurrentProfile r span st).1.
Proof.
  intros Hd. unfold _startCurrentProfile.
  set (finished := _finishCurrentProfile (on_stop r) st).
  assert (Hfinished : deadline_set finished) by by apply finish_deadline.
  assert (Hc : _currentProfile finished = None) by apply finish_clears.
  assert (Ht : _currentProfileTimeout finished = None) by apply finish_no_timeout.
  assert (Hts : timers finished = []) by by apply finish_timers.
  destruct (negb (isCurrentlyActiveSpan span)); cbn [fst snd]; [done |].
  pose proof (shouldStart_timers (Math_random r) span finished) as (Hts' & Ht' & _).
  pose proof (shouldStart_state (Math_random r) span finished) as (Hc' & _).
  destruct (_shouldStartProfiling (Math_random r) span finished) as [should st1].
  cbn [fst snd] in Hts', Ht', Hc'.
  destruct should; cbn [negb fst snd].
  2: { split; [rewrite Hc', Hc; by intros [? ?] | by rewrite Hts', Ht', Hts, Ht]. }
  pose proof (startNew_timers (on_start r) span
                (setTimeout_finish MAX_PROFILE_DURATION_MS st1)) as (Hts2 & Ht2).
  cbn zeta in Hts2, Ht2. split.
  - intros _. rewrite Ht2. cbn. by eexists.
  - rewrite Hts2, Ht2. cbn. by rewrite Hts', Hts.
Qed.

Lemma create_timers report st :
  let st' := (_createProfileEventFor report st).2 in
  timers st' = timers st ∧ _currentProfileTimeout st' = _currentProfileTimeout st.
Proof.
  unfold _createProfileEventFor.
  destruct (as_string _) as [p |]; [| done]. cbn zeta.
  by destruct (FifoCache.get p (PROFILE_QUEUE st)).
Qed.

Lemma timer_deadline handle r st :
  deadline_set st → deadline_set (timer_fires handle r st)
  ∧ (handle ∈ (timers st).*1 →
     _currentProfile (timer_fires handle r st) = None
     ∧ _currentProfileTimeout (timer_fires handle r st) = None
     ∧ timers (timer_fires handle r st) = []).
Proof.
  intros Hd. unfold timer_fires. case_bool_decide as Hin; [| done].
  set (taken := {| _getCurrentHub := _; timers := filter _ _ |}).
  assert (Htaken : timers (_finishCurrentProfile r taken) = []).
  { assert (Hview : timers (_finishCurrentProfile r taken)
                    = timers (_clearCurrentProfileTimeout taken)).
    { unfold _finishCurrentProfile. cbn.
      destruct (_currentProfile st) as [current |]; cbn; [| done].
      by destruct (stopProfiling r (startTimestampNs current)). }
    rewrite Hview. cbn. destruct Hd as [_ Htimers]. rewrite Htimers in *.
    destruct (_currentProfileTimeout st) as [pending |]; [| by apply elem_of_nil in Hin].
    cbn in Hin. apply list_elem_of_singleton in Hin as ->.
    by rewrite !filter_cons_False by (cbn; naive_solver). }
  split.
  - split; [rewrite finish_clears; by intros [? ?] |].
    by rewrite finish_no_timeout, Htaken.
  - intros _. by rewrite finish_clears, finish_no_timeout, Htaken.
Qed.

(** X3.  In every state that the methods lead to, a session in progress
    has its hard stop set, and the only timeout pending is the one in
    [_currentProfileTimeout], with the delay
    [MAX_PROFILE_DURATION_MS]. *)
Theorem session_always_has_deadline (st : State) : reachable st → deadline_set st.
Proof.
  induction 1 as [capacity hub | r span st _ IH | r span st _ IH | r st _ IH
                  | handle r st _ IH | report st _ IH].
  - split; [by intros [? ?] | done].
  - by apply start_deadline.
  - unfold _startCurrentProfileForActiveTransaction.
    destruct (_currentProfile st) as [current |]; [done |].
    destruct span as [span |]; [| done].
    pose proof (start_deadline r span st IH) as Hs.
    by destruct (_startCurrentProfile r span st).
  - by apply finish_deadline.
  - by apply timer_deadline.
  - destruct IH as [Hsession Htimers].
    destruct (create_timers report st) as [Hts Ht]. cbn zeta in Hts, Ht.
    destruct (create_session report st) as [Hc _].
    split; [by rewrite Hc, Ht | by rewrite Hts, Ht].
Qed.

(** X4.  When the hard stop fires, the session is over: no session and
    no timeout are left, and the profile that [stopProfiling] gave is in
    the queue under the identifier of the session. *)
Theorem hard_stop_ends_session (handle : nat) (r : StopReadings) (st : State)
    (current : CurrentProfile) (profile : QueuedProfile) :
  deadline_set st →
  handle ∈ (timers st).*1 →
  _currentProfile st = Some current →
  stopProfiling r (startTimestampNs current) = Some profile →
  let st' := timer_fires handle r st in
  _currentProfile st' = None
  ∧ _currentProfileTimeout st' = None
  ∧ timers st' = []
  ∧ FifoCache.get (profile_id current) (PROFILE_QUEUE st') = Some profile.
Proof.
  intros Hd Hin Hcurrent Hstop st'. subst st'.
  destruct (timer_deadline handle r st Hd) as [_ Hfired].
  destruct (Hfired Hin) as (Hc & Ht & Hts).
  repeat split; try done.
  unfold timer_fires. rewrite bool_decide_eq_true_2 by done.
  rewrite finish_queue. cbn. rewrite Hcurrent, Hstop. apply get_add_eq.
Qed.

(** X5.  A profile can be claimed under the identifier that the span
    got.  When [_startCurrentProfile] opened a session, the session is
    finished with a profile from [stopProfiling], and a report carries
    the [profile_id] of the span, [_createProfileEventFor] returns that
    profile, enriched with the report. *)
Theorem profile_claimed_by_span_id (r : Readings) (activeSpan : Span) (st : State)
    (stop : StopReadings) (report : Event) (new : CurrentProfile)
    (profile : QueuedProfile) :
  _currentProfile (_startCurrentProfile r activeSpan st).1 = Some new →
  stopProfiling stop (startTimestampNs new) = Some profile →
  profile_id_of report = attributes (_startCurrentProfile r activeSpan st).2 !! "profile_id" →
  let finished := _finishCurrentProfile stop (_startCurrentProfile r activeSpan st).1 in
  let out := _createProfileEventFor report finished in
  out.1.1 = enrichCombinedProfileWithEventContext (profile_id new) profile out.1.2
  ∧ FifoCache.get (profile_id new) (PROFILE_QUEUE out.2) = None.
Proof.
  intros Hnew Hstop Hreport finished out.
  pose proof (start_shape r activeSpan st) as Hshape. cbn zeta in Hshape.
  destruct (Hshape new Hnew) as (_ & Hattribute & _).
  rewrite Hattribute in Hreport.
  assert (Hqueued : FifoCache.get (profile_id new) (PROFILE_QUEUE finished) = Some profile).
  { subst finished. rewrite finish_queue, Hnew, Hstop. apply get_add_eq. }
  subst out. split.
  - unfold _createProfileEventFor. unfold profile_id_of in Hreport. rewrite Hreport.
    cbn zeta. by rewrite Hqueued.
  - rewrite create_queue, Hreport. apply FifoCacheFacts.get_delete_eq.
Qed.






End WithImports.

Import ProfilingSamples ProfilingMoreSamples.

#[local] Existing Instance imports.

(** X2 on a new integration without a hub, after a span started. *)
Lemma no_sample_rate_no_profile_witness :
  sample_rate (_startCurrentProfile readings span fresh).1 = None
  ∧ _currentProfile (_startCurrentProfile readings span fresh).1 = None.
Proof.
  split; [reflexivity |].
  refine (proj1 (no_sample_rate_no_profile
                   (_startCurrentProfile readings span fresh).1 _ eq_refl)).
  apply reachable_start. apply (reachable_new 20 None).
Defined.

(** X3 on a configured integration, after a span started: the session
    is open and its hard stop is the only timeout. *)
Lemma session_always_has_deadline_witness :
  is_Some (_currentProfile (_startCurrentProfile readings span configured).1)
  ∧ timers (_startCurrentProfile readings span configured).1 = [(0%nat, 30000%Z)]
  ∧ deadline_set (_startCurrentProfile readings span configured).1.
Proof.
  split; [by eexists |]. split; [reflexivity |].
  apply session_always_has_deadline.
  apply reachable_start. apply (reachable_new 20 (Some hub)).
Defined.

Lemma profiling_deadline_set : deadline_set profiling.
Proof. split; [intros _; by eexists | reflexivity]. Defined.

(** X4 on the state with the session [0] and its timeout. *)
Lemma hard_stop_ends_session_witness :
  _currentProfile (timer_fires 0 (on_stop readings) profiling) = None
  ∧ FifoCache.get "0" (PROFILE_QUEUE (timer_fires 0 (on_stop readings) profiling))
    = Some queued.
Proof.
  pose proof (hard_stop_ends_session 0 (on_stop readings) profiling
                {| profile_id := "0"; startTimestampNs := 5000000 |} queued
                profiling_deadline_set) as Hstop.
  destruct Hstop as (Hsession & _ & _ & Hqueue);
    [cbn; apply list_elem_of_singleton; reflexivity | reflexivity | reflexivity |].
  exact (conj Hsession Hqueue).
Defined.

(** X5: the span gets the identifier [1], and the report that carries
    [1] gets the profile. *)
Lemma profile_claimed_by_span_id_witness :
  attributes (_startCurrentProfile readings span profiling).2 !! "profile_id" = Some "1"
  ∧ (_createProfileEventFor report_1
       (_finishCurrentProfile (on_stop readings)
          (_startCurrentProfile readings span profiling).1)).1.1
    = Some ("1", queued, Some "e3").
Proof.
  split; [reflexivity |].
  refine (eq_trans
            (proj1 (profile_claimed_by_span_id readings span profiling (on_stop readings)
                      report_1 {| profile_id := "1"; startTimestampNs := 8000000 |} queued
                      _ _ _)) _);
    reflexivity.
Defined.

(** Two reports of one envelope carry [p1]: the first gets the profile,
    the second nothing. *)
Example envelope_with_two_reports :
  (beforeEnvelope [report_p1; report_p1] with_p1).1.1 = Some [("p1", queued, Some "e1")]
  ∧ FifoCache.size (PROFILE_QUEUE (beforeEnvelope [report_p1; report_p1] with_p1).2) = 0%nat.
Proof. vm_compute. done. Qed.

(** With an empty queue the hook returns at once. *)
Example envelope_with_empty_queue :
  beforeEnvelope [report_p1] fresh = (None, [report_p1], fresh).
Proof. reflexivity. Qed.

End ProfilingMoreFacts.

(** ** More on the merge of profiles *)

Module MergeMoreFacts.

Import Merge ProfilingHooks.

(** X7.  The offsets keep the references whole: when in each of the two
    profiles every sample names a stack of that profile and every stack
    names frames of that profile, the same holds in the merged
    profile. *)
Theorem merge_keeps_references (os : string) (hermes native : ThreadCpuProfile)
    (tid : option string) :
  well_indexed hermes → well_indexed native →
  well_indexed (addNativeThreadCpuProfileToHermes os hermes native tid).
Proof.
  intros [Hhs Hht] [Hns Hnt]. unfold well_indexed.
  rewrite MergeFacts.samples_of_merge, MergeFacts.stacks_of_merge,
    MergeFacts.frames_of_merge.
  rewrite !length_app, !length_map. split.
  - apply Forall_app. split.
    + eapply Forall_impl; [exact Hhs |]. cbn. intros sample Hs. lia.
    + apply Forall_fmap, Forall_forall. intros sample Hin.
      apply list_elem_of_filter in Hin as [_ Hin].
      rewrite Forall_forall in Hns. specialize (Hns sample Hin). cbn. lia.
  - apply Forall_app. split.
    + eapply Forall_impl; [exact Hht |]. cbn. intros stack Hstack.
      eapply Forall_impl; [exact Hstack |]. cbn. intros frameId Hf. lia.
    + apply Forall_fmap. eapply Forall_impl; [exact Hnt |]. cbn. intros stack Hstack.
      unfold shift_stack. apply Forall_fmap.
      eapply Forall_impl; [exact Hstack |]. cbn. intros frameId Hf. lia.
Qed.

(** X8.  Without an active Hermes thread id no native sample is dropped;
    when every native sample is on the active Hermes thread, the merged
    profile has the Hermes samples only. *)
Theorem merge_thread_filter_edges (os : string) (hermes native : ThreadCpuProfile) :
  samples (addNativeThreadCpuProfileToHermes os hermes native None)
  = samples hermes
    ++ map (shift_sample (Z.of_nat (length (stacks hermes)))) (samples native)
  ∧ ∀ thread,
      Forall (fun sample => thread_id sample = thread) (samples native) →
      samples (addNativeThreadCpuProfileToHermes os hermes native (Some thread))
      = samples hermes.
Proof.
  rewrite !MergeFacts.samples_of_merge. split.
  - f_equal. f_equal. induction (samples native) as [| sample rest IH]; [done |].
    rewrite filter_cons_True by done. by rewrite IH.
  - intros thread Hall. rewrite MergeFacts.samples_of_merge.
    replace (filter _ (samples native)) with (@nil ThreadCpuSample);
      [by rewrite app_nil_r |].
    induction Hall as [| sample rest Hsample _ IH]; [done |].
    rewrite filter_cons_False; [done |].
    rewrite MergeFacts.other_thread_spec. intros Hne. by rewrite Hsample in Hne.
Qed.

(** X9.  Merging a native profile that is empty leaves the frames, the
    stacks, the samples and the thread metadata of the Hermes profile as
    they were; [queue_metadata] becomes an object, empty when it was
    [undefined]. *)
Theorem merge_empty_native (os : string) (hermes : ThreadCpuProfile) (tid : option string) :
  addNativeThreadCpuProfileToHermes os hermes
    {| samples := []; stacks := []; frames := [];
       thread_metadata := ∅; queue_metadata := None |} tid
  = {| samples := samples hermes;
       stacks := stacks hermes;
       frames := frames hermes;
       thread_metadata := thread_metadata hermes;
       queue_metadata := Some (default ∅ (queue_metadata hermes)) |}.
Proof.
  unfold addNativeThreadCpuProfileToHermes, spread_opt, spread. cbn.
  rewrite !app_nil_r. by rewrite !(right_id_L ∅ (∪)).
Qed.

Import MergeSamples.

(** X7 on two small profiles. *)
Lemma merge_keeps_references_witness :
  well_indexed (addNativeThreadCpuProfileToHermes "ios" hermes_profile native_profile
                  (Some "1"))
  ∧ stacks (addNativeThreadCpuProfileToHermes "ios" hermes_profile native_profile
              (Some "1")) = [[0%Z]; [1%Z; 0%Z]; [2%Z]]
  ∧ samples (addNativeThreadCpuProfileToHermes "ios" hermes_profile native_profile
               (Some "1")) = [sample 0 "1"; sample 1 "1"; sample 2 "2"].
Proof.
  split; [| split; reflexivity].
  apply merge_keeps_references.
  - split; repeat constructor; cbn; lia.
  - split; repeat constructor; cbn; lia.
Defined.

End MergeMoreFacts.

(** ** More on the fallback emitter *)

Module EmitterMoreFacts.

Import Emitter EmitterCounts EmitterFacts.

Lemma iter_listener_keeps n st :
  isListening (Nat.iter n listener st) = isListening st
  ∧ listeners (Nat.iter n listener st) = listeners st
  ∧ pending_native_calls (Nat.iter n listener st) = pending_native_calls st
  ∧ animation_frame_requests (Nat.iter n listener st) = animation_frame_requests st
  ∧ timeouts (Nat.iter n listener st) = timeouts st
  ∧ emitted (Nat.iter n listener st) = emitted st.
Proof.
  induction n as [| n IH]; [done |].
  rewrite Nat.iter_succ. destruct IH as (Hl & Hn & Hp & Ha & Ht & He).
  set (st' := Nat.iter n listener st) in *. clearbody st'.
  unfold listener. destruct (isListening st') eqn:E; cbn; repeat split; congruence.
Qed.

Lemma deliver_keeps st :
  isListening (deliver st) = isListening st
  ∧ listeners (deliver st) = listeners st
  ∧ pending_native_calls (deliver st) = pending_native_calls st
  ∧ animation_frame_requests (deliver st) = animation_frame_requests st
  ∧ timeouts (deliver st) = timeouts st
  ∧ emitted (deliver st) = emitted st.
Proof. apply iter_listener_keeps. Qed.

Lemma pending_deliver st : pending (deliver st) = pending st.
Proof.
  unfold pending. destruct (deliver_keeps st) as (_ & _ & -> & -> & -> & _). done.
Qed.

(** X11.  A frame event sets the flag exactly when the emitter is
    listening and [initAsync] has added a listener; otherwise the event
    changes nothing. *)
Theorem frame_event_needs_armed_listener (st : State) :
  step NativeNewFrame st
  = if isListening st && (0 <? listeners st)%nat
    then {| NativeEmitterCalled := true;
            isListening := true;
            listeners := listeners st;
            pending_native_calls := pending_native_calls st;
            animation_frame_requests := animation_frame_requests st;
            timeouts := timeouts st;
            emitted := emitted st;
            log := log st |}
    else st.
Proof.
  cbn [step]. destruct (isListening st) eqn:Hl; cbn [andb].
  - destruct (Nat.ltb_spec 0 (listeners st)) as [Hn | Hn].
    + rewrite deliver_armed by done. by apply listener_armed.
    + unfold deliver. by replace (listeners st) with 0 by lia.
  - by apply deliver_unarmed.
Qed.

Lemma check_counts check st :
  tagged st →
  tagged (checkNativeResponse check st)
  ∧ (length (emitted (checkNativeResponse check st)) + pending (checkNativeResponse check st)
     ≤ length (emitted st) + pending st + 1)%nat.
Proof.
  intros [Htimeouts Hemitted]. unfold checkNativeResponse.
  destruct (NativeEmitterCalled st); [cbn; split; [done | unfold pending; cbn; lia] |].
  destruct (firstAttemptCompleted check); cbn [negb].
  - unfold emit.
    set (sent := {| NativeEmitterCalled := _; emitted := _ ++ _ |}).
    destruct (deliver_keeps sent) as (_ & _ & Hp & Ha & Ht & He).
    split.
    + split; [by rewrite Ht | rewrite He; cbn].
      apply Forall_app. split; [done |]. by apply Forall_singleton.
    + unfold pending. rewrite Hp, Ha, Ht, He. cbn. rewrite length_app. cbn. lia.
  - split.
    + split; [cbn | done]. apply Forall_app. split; [done |]. by apply Forall_singleton.
    + unfold pending. cbn. rewrite length_app. cbn. lia.
Qed.

Lemma step_counts s st :
  tagged st →
  tagged (step s st)
  ∧ (length (emitted (step s st)) + pending (step s st)
     ≤ length (emitted st) + pending st + (if is_start s then 1 else 0))%nat.
Proof.
  intros Htagged. destruct s; cbn [step is_start].
  - split; [done | unfold pending; cbn; lia].
  - split; [done | unfold pending; cbn; lia].
  - destruct (deliver_keeps st) as (_ & _ & _ & _ & Ht & He).
    split; [by unfold tagged; rewrite Ht, He | rewrite pending_deliver, He; lia].
  - destruct (pending_native_calls st) as [| n] eqn:Hp; [split; [done | lia] |].
    assert (Hsettled : tagged (settle st)) by done.
    assert (Hless : pending (settle st) + 1 = pending st)
      by (unfold pending; cbn; rewrite Hp; cbn; lia).
    unfold on_resolved. destruct (truthy resolve) as [seconds |].
    + unfold waitForNativeResponseOrFallback.
      destruct (check_counts {| fallbackSeconds := seconds; origin := "Native";
                                firstAttemptCompleted := false |} (settle st) Hsettled)
        as [Ht Hc].
      split; [done |]. cbn [emitted settle] in Hc. cbn [emitted settle]. lia.
    + split; [done |]. unfold pending in *. cbn in *. lia.
  - destruct (pending_native_calls st) as [| n] eqn:Hp; [split; [done | lia] |].
    split; [done |]. unfold pending. cbn. rewrite Hp. cbn. lia.
  - destruct (animation_frame_requests st) as [| n] eqn:Ha; [split; [done | lia] |].
    assert (Htaken : tagged (take_animation_frame st)) by done.
    assert (Hless : pending (take_animation_frame st) + 1 = pending st)
      by (unfold pending; cbn; rewrite Ha; cbn; lia).
    unfold animation_frame_callback.
    destruct (NativeEmitterCalled (take_animation_frame st)) eqn:Hflag.
    + split; [done |]. unfold pending in *. cbn in *. lia.
    + unfold waitForNativeResponseOrFallback.
      destruct (check_counts {| fallbackSeconds := seconds; origin := "JavaScript";
                                firstAttemptCompleted := false |}
                  (take_animation_frame st) Htaken) as [Ht Hc].
      split; [done |]. cbn [emitted take_animation_frame] in Hc.
      cbn [emitted take_animation_frame]. lia.
  - destruct (timeouts st) as [| [delay check] rest] eqn:Hts; [split; [done | lia] |].
    assert (Htaken : tagged (take_timeout st)).
    { destruct Htagged as [Ht He]. split; [| done]. cbn. rewrite Hts in *. cbn.
      by apply Forall_cons in Ht as [_ Ht]. }
    assert (Hless : pending (take_timeout st) + 1 = pending st)
      by (unfold pending; cbn; rewrite Hts; cbn; lia).
    destruct (check_counts check (take_timeout st) Htaken) as [Ht Hc].
    split; [done |]. cbn [emitted take_timeout] in Hc. cbn [emitted take_timeout]. lia.
Qed.

Lemma run_counts steps : ∀ st,
  tagged st →
  tagged (run steps st)
  ∧ (length (emitted (run steps st)) + pending (run steps st)
     ≤ length (emitted st) + pending st + starts steps)%nat.
Proof.
  induction steps as [| s steps IH]; intros st Htagged; [cbn; split; [done | lia] |].
  rewrite run_cons.
  destruct (step_counts s st Htagged) as [Hnext Hcount].
  destruct (IH (step s st) Hnext) as [Hlast Hcounts].
  split; [done |].
  assert (Hstarts : starts (s :: steps) = (if is_start s then 1 else 0) + starts steps).
  { unfold starts. destruct s; cbn;
      rewrite ?filter_cons_True, ?filter_cons_False by done; done. }
  lia.
Qed.

(** X10.  Whatever the calls and the environment do, and however cycles
    overlap, the emitter sends at most one fallback for each call of
    [startListenerAsync]: what it has emitted and what is still pending
    never add up to more than the calls made.  Everything it emits has
    [isFallback = true]. *)
Theorem at_most_one_fallback_per_start (steps : list Step) :
  let st := run steps createSentryFallbackEventEmitter in
  (length (emitted st) + pending st ≤ starts steps)%nat
  ∧ Forall (fun event => isFallback event = Some true) (emitted st).
Proof.
  cbn zeta.
  assert (Hinit : tagged createSentryFallbackEventEmitter) by (split; constructor).
  destruct (run_counts steps _ Hinit) as [[_ Htag] Hcount].
  split; [| done]. unfold pending in Hcount at 2. cbn in Hcount. lia.
Qed.

End EmitterMoreFacts.

(** ** More on the tracing integration *)

Module TracingMoreFacts.

Import Tracing TracingSetup TracingCalls TracingFacts.

Section WithImports.

Context `{Imports}.

Lemma startIdle_transaction r context st :
  let out := _startIdleTransaction r context st in
  out.1 = new_spanId r
  ∧ _inflightInteractionTransaction out.2 = _inflightInteractionTransaction st
  ∧ options out.2 = options st
  ∧ active_transaction out.2 = <[current_hub st := new_spanId r]> (active_transaction st)
  ∧ (∀ ref, ref ≠ new_spanId r → transactions out.2 !! ref = transactions st !! ref)
  ∧ ∃ t, transactions out.2 !! new_spanId r = Some t
         ∧ name t = context_name context
         ∧ op t = context_op context
         ∧ trimEnd t = context_trimEnd context
         ∧ sampled t = new_sampled r
         ∧ _beforeFinishCallbacks t = []
         ∧ idleTimeoutMs_of t = idleTimeoutMs (options st)
         ∧ finalTimeoutMs_of t = finalTimeoutMs (options st)
         ∧ cancelsInBackground t = true
         ∧ finished t = false.
Proof.
  cbn zeta. unfold _startIdleTransaction, startIdleTransaction. cbn.
  repeat split; try done.
  - intros ref Href. by rewrite lookup_alter_ne, lookup_insert_ne.
  - eexists. rewrite lookup_alter_eq, lookup_insert_eq. cbn. done.
Qed.

(** X12.  The timeouts of a transaction come from the constructor's
    argument: [finalTimeoutMs] when given, even 0; otherwise
    [maxTransactionDuration] times 1000; otherwise 600000.
    [idleTimeoutMs] when given, otherwise [idleTimeout], otherwise 1000.
    A transaction that [_startIdleTransaction] starts under these
    options has these two timeouts and is cancelled in the
    background. *)
Theorem timeouts_from_constructor (given : PartialOptions.t) (r : NewTransaction)
    (context : TransactionContext) (st : State) :
  options st = options (constructor given) →
  let final :=
    match PartialOptions.finalTimeoutMs given, PartialOptions.maxTransactionDuration given with
    | Some ms, _ => ms
    | None, Some seconds => (seconds * 1000)%Z
    | None, None => 600000%Z
    end in
  let idle :=
    match PartialOptions.idleTimeoutMs given, PartialOptions.idleTimeout given with
    | Some ms, _ => ms
    | None, Some ms => ms
    | None, None => 1000%Z
    end in
  finalTimeoutMs (options st) = final
  ∧ idleTimeoutMs (options st) = idle
  ∧ ∃ t, transactions (_startIdleTransaction r context st).2
           !! (_startIdleTransaction r context st).1 = Some t
         ∧ finalTimeoutMs_of t = final
         ∧ idleTimeoutMs_of t = idle
         ∧ cancelsInBackground t = true.
Proof.
  intros Hoptions final idle.
  assert (Hfinal : finalTimeoutMs (options st) = final).
  { rewrite Hoptions. subst final. cbn.
    by destruct (PartialOptions.finalTimeoutMs given),
         (PartialOptions.maxTransactionDuration given). }
  assert (Hidle : idleTimeoutMs (options st) = idle).
  { rewrite Hoptions. subst idle. cbn.
    by destruct (PartialOptions.idleTimeoutMs given), (PartialOptions.idleTimeout given). }
  split; [done |]. split; [done |].
  destruct (startIdle_transaction r context st)
    as (Hid & _ & _ & _ & _ & t & Ht & _ & _ & _ & _ & _ & Hi & Hf & Hb & _).
  exists t. rewrite Hid. by rewrite Ht, Hi, Hf, Hb.
Qed.

Lemma unrelated_active_dec st :
  (if match getActiveTransaction (current_hub st) st, _inflightInteractionTransaction st with
      | None, _ => true
      | Some _, None => true
      | Some active, Some inflight => bool_decide (active ≠ inflight)
      end
   then getActiveTransaction (current_hub st) st else None) = None
  ↔ ¬ unrelated_active st.
Proof.
  unfold unrelated_active.
  destruct (getActiveTransaction (current_hub st) st) as [active |] eqn:Hactive.
  2: { split; [intros _ (active & ? & _); done | done]. }
  destruct (_inflightInteractionTransaction st) as [inflight |] eqn:Hinflight.
  - case_bool_decide as Hne.
    + split; [done |]. intros Hnot. destruct Hnot. exists active. split; [done | congruence].
    + split; [| done]. intros _ (active' & [= <-] & Hdiff).
      apply Hdiff. f_equal. by destruct (decide (active = inflight)).
  - split; [done |]. intros Hnot. destruct Hnot. by exists active.
Qed.

(** X13.  [startUserInteractionTransaction] returns a transaction
    exactly when interaction tracing is enabled, a routing
    instrumentation is set, the element id and the current route are
    known and not empty, and no transaction other than the interaction
    transaction in flight is active on the scope.  The transaction is
    then the one in flight and the one on the scope; its name is the
    route, a dot and the element id; its operation is the one given; it
    trims its end; and its before-finish callbacks are the one that
    clears the transaction in flight and [onlySampleIfChildSpans], in
    this order. *)
Theorem interaction_starts_exactly_when (r : NewTransaction)
    (userInteractionId : UserInteractionId) (st : State) :
  let out := startUserInteractionTransaction r userInteractionId st in
  (is_Some out.1
   ↔ enableUserInteractionTracing (options st) = true
     ∧ routingInstrumentation (options st) = true
     ∧ is_Some (truthy_string (elementId userInteractionId))
     ∧ is_Some (truthy_string (_currentRoute st))
     ∧ ¬ unrelated_active st)
  ∧ (∀ tx, out.1 = Some tx →
       tx = new_spanId r
       ∧ _inflightInteractionTransaction out.2 = Some tx
       ∧ active_transaction out.2 !! current_hub st = Some tx
       ∧ ∃ t element route,
           transactions out.2 !! tx = Some t
           ∧ truthy_string (elementId userInteractionId) = Some element
           ∧ truthy_string (_currentRoute st) = Some route
           ∧ name t = route +:+ "." +:+ element
           ∧ op t = Some (interaction_op userInteractionId)
           ∧ trimEnd t = true
           ∧ _beforeFinishCallbacks t = [InteractionFinished; OnlySampleIfChildSpans]).
Proof.
  cbn zeta. unfold startUserInteractionTransaction.
  destruct (enableUserInteractionTracing (options st)); cbn [negb].
  2: { split; [split; [by intros [? ?] | by intros [? _]] | done]. }
  destruct (routingInstrumentation (options st)); cbn [negb].
  2: { split; [split; [by intros [? ?] | by intros (_ & ? & _)] | done]. }
  destruct (truthy_string (elementId userInteractionId)) as [element |].
  2: { split; [split; [by intros [? ?] | by intros (_ & _ & [? ?] & _)] | done]. }
  destruct (truthy_string (_currentRoute st)) as [route |].
  2: { split; [split; [by intros [? ?] | by intros (_ & _ & _ & [? ?] & _)] | done]. }
  cbn zeta. pose proof (unrelated_active_dec st) as Hdec.
  destruct (if (_ : bool) then getActiveTransaction (current_hub st) st else None)
    as [active |] eqn:Hguard.
  { split; [| done]. split; [by intros [? ?] |].
    intros (_ & _ & _ & _ & Hnot). by apply Hdec in Hnot. }
  set (st1 := match _inflightInteractionTransaction st with
              | Some inflight => _
              | None => st
              end).
  assert (Hhub : current_hub st1 = current_hub st)
    by (subst st1; by destruct (_inflightInteractionTransaction st)).
  set (context := {| context_name := route +:+ "." +:+ element |}).
  destruct (startIdle_transaction r context st1)
    as (Hid & _ & _ & Hactive & _ & t & Ht & Hname & Hop & Htrim & _ & Hcallbacks & _).
  destruct (_startIdleTransaction r context st1) as [tx st2].
  cbn [fst snd] in *. subst tx.
  split.
  - split; [| by eexists]. intros _. repeat split; try by eexists.
    by apply Hdec.
  - intros tx [= <-]. split; [done |].
    unfold onTransactionStart. destruct (new_isNearToNow r); cbn;
      (split; [done |]); rewrite Hactive, Hhub, lookup_insert_eq; (split; [done |]);
      exists (registerBeforeFinishCallback OnlySampleIfChildSpans
                (registerBeforeFinishCallback InteractionFinished t)), element, route;
      rewrite !lookup_alter_eq, Ht; cbn; rewrite Hcallbacks, Hname, Hop, Htrim; done.
Qed.

(** What [_addAppStartData] leaves alone in the integration. *)
Lemma addAppStartData_state transaction appStart st :
  let st' := (_addAppStartData transaction appStart st).2 in
  options st' = options st
  ∧ _inflightInteractionTransaction st' = _inflightInteractionTransaction st
  ∧ _awaitingAppStartData st' = _awaitingAppStartData st
  ∧ _appStartFinishTimestamp st' = _appStartFinishTimestamp st
  ∧ transactions st' = transactions st
  ∧ active_transaction st' = active_transaction st.
Proof.
  cbn zeta. unfold _addAppStartData.
  destruct (truthy_number _) as [d |]; [| done].
  by destruct (Qle_bool _maxAppStart d).
Qed.

(** A duration that is not zero and below the limit is attached. *)
Lemma addAppStartData_attaches transaction appStart st d :
  _getAppStartDurationMilliseconds appStart st = Some d →
  ¬ (d == 0)%Q → (d < 60000)%Q →
  _measurements (_addAppStartData transaction appStart st).1
    !! (if isColdStart appStart then APP_START_COLD else APP_START_WARM)
  = Some {| value := d; unit := "millisecond" |}.
Proof.
  intros Hd Hnonzero Hsmall. unfold _addAppStartData.
  rewrite (duration_truthy _ _ _ Hd Hnonzero).
  unfold _maxAppStart. rewrite (Qle_bool_false _ _ Hsmall).
  destruct (startChild _ _ _ _ _ st) as [child st']. cbn. apply lookup_insert_eq.
Qed.

(** A duration at the limit or above is dropped. *)
Lemma addAppStartData_drops transaction appStart st d :
  _getAppStartDurationMilliseconds appStart st = Some d → (60000 <= d)%Q →
  _addAppStartData transaction appStart st = (transaction, st).
Proof.
  intros Hd Hbig. unfold _addAppStartData.
  rewrite (duration_truthy _ _ _ Hd).
  - unfold _maxAppStart. apply Qle_bool_iff in Hbig. by rewrite Hbig.
  - intros Hzero. rewrite Hzero in Hbig. by apply Qle_bool_iff in Hbig.
Qed.

(** X15.  The app start is attributed once.  The callback that a route
    transaction runs before it finishes hands the awaited app start
    record to [_addAppStartData] and forgets it, so on any later
    transaction the callback changes nothing.  The operation of the
    first transaction becomes [UI_LOAD] also when the duration is 60000
    or more and the app start data is dropped. *)
Theorem app_start_attached_once (transaction : IdleTransaction) (st : State)
    (appStart : NativeAppStartResponse) :
  enableAppStartTracking (options st) = true →
  _awaitingAppStartData st = Some appStart →
  let out := attachAppStart transaction st in
  out = (let (t, st') := _addAppStartData (set_op (Some UI_LOAD) transaction) appStart st in
         (t, set_awaiting None st'))
  ∧ _awaitingAppStartData out.2 = None
  ∧ (∀ later, attachAppStart later out.2 = (later, out.2))
  ∧ (∀ d, _getAppStartDurationMilliseconds appStart st = Some d → (60000 <= d)%Q →
          out.1 = set_op (Some UI_LOAD) transaction).
Proof.
  intros Henabled Hawaiting out.
  assert (Hout : out
                 = let (t, st') :=
                     _addAppStartData (set_op (Some UI_LOAD) transaction) appStart st in
                   (t, set_awaiting None st')).
  { subst out. unfold attachAppStart. by rewrite Henabled, Hawaiting. }
  clearbody out.
  pose proof (addAppStartData_drops (set_op (Some UI_LOAD) transaction) appStart st)
    as Hbig.
  destruct (_addAppStartData (set_op (Some UI_LOAD) transaction) appStart st)
    as [t st'] eqn:Hadd.
  subst out. cbn [fst snd].
  split; [done |]. split; [done |]. split.
  - intros later. unfold attachAppStart. cbn.
    by destruct (enableAppStartTracking (options st')).
  - intros d Hd Hlimit. specialize (Hbig d Hd Hlimit). by injection Hbig as -> _.
Qed.

(** X16.  The edges of [_addAppStartData].  When the app start never
    finished, or the duration is zero, the transaction stays as it is
    and a warning is logged.  A negative duration is not filtered: it
    becomes the measurement. *)
Theorem app_start_duration_edges (transaction : IdleTransaction)
    (appStart : NativeAppStartResponse) (st : State) :
  (_appStartFinishTimestamp st = None →
   _addAppStartData transaction appStart st
   = (transaction, logger LogWarn "App start was never finished." st))
  ∧ (∀ d, _getAppStartDurationMilliseconds appStart st = Some d → (d == 0)%Q →
       _addAppStartData transaction appStart st
       = (transaction, logger LogWarn "App start was never finished." st))
  ∧ (∀ d, _getAppStartDurationMilliseconds appStart st = Some d → (d < 0)%Q →
       _measurements (_addAppStartData transaction appStart st).1
         !! (if isColdStart appStart then APP_START_COLD else APP_START_WARM)
       = Some {| value := d; unit := "millisecond" |}).
Proof.
  split; [| split].
  - intros Hnone. unfold _addAppStartData, _getAppStartDurationMilliseconds.
    by rewrite Hnone.
  - intros d Hd Hzero. unfold _addAppStartData. rewrite Hd. cbn.
    apply Qeq_bool_iff in Hzero. by rewrite Hzero.
  - intros d Hd Hnegative. apply addAppStartData_attaches; [done | |].
    + intros Hzero. rewrite Hzero in Hnegative. by apply Qlt_irrefl in Hnegative.
    + eapply Qlt_trans; [exact Hnegative | reflexivity].
Qed.

(** X17.  [_instrumentAppStart] does nothing when app start tracking is
    off, when there is no native module, when the native call gives
    nothing, and when the app start was fetched before.  Otherwise,
    with a routing instrumentation, it only takes the record to await
    the first route transaction and, unless the profiler gives the end
    of the app start, sets that end to the time origin; the duration
    computed later is then the time origin minus the app start time. *)
Theorem instrument_app_start (r : AppStartReadings) (st : State) :
  (enableAppStartTracking (options st) = false ∨ NATIVE_enableNative r = false
   ∨ fetchNativeAppStart r = None
   ∨ (∃ appStart, fetchNativeAppStart r = Some appStart ∧ didFetchAppStart appStart = true)
   → _instrumentAppStart r st = st)
  ∧ (∀ appStart,
       enableAppStartTracking (options st) = true → NATIVE_enableNative r = true →
       fetchNativeAppStart r = Some appStart → didFetchAppStart appStart = false →
       routingInstrumentation (options st) = true →
       let st' := _instrumentAppStart r st in
       _awaitingAppStartData st' = Some appStart
       ∧ transactions st' = transactions st
       ∧ log st' = log st
       ∧ (useAppStartWithProfiler st = true →
          _appStartFinishTimestamp st' = _appStartFinishTimestamp st)
       ∧ (useAppStartWithProfiler st = false →
          ¬ (getTimeOriginMilliseconds r == 0)%Q →
          ∃ d, _getAppStartDurationMilliseconds appStart st' = Some d
               ∧ (d == getTimeOriginMilliseconds r - appStartTime appStart)%Q)).
Proof.
  split.
  - intros Hgate. unfold _instrumentAppStart.
    destruct (enableAppStartTracking (options st)); [| done].
    destruct (NATIVE_enableNative r); [| done]. cbn.
    destruct (fetchNativeAppStart r) as [appStart |]; [| done].
    destruct (didFetchAppStart appStart) eqn:Hfetched; [done |].
    destruct Hgate as [? | [? | [? | (appStart' & [= <-] & ?)]]]; congruence.
  - intros appStart Henabled Hnative Hfetch Hfirst Hrouting st'. subst st'.
    unfold _instrumentAppStart. rewrite Henabled, Hnative, Hfetch, Hfirst. cbn.
    destruct (useAppStartWithProfiler st) eqn:Hprofiler; cbn; rewrite Hrouting.
    + repeat split; done.
    + repeat split; try done. intros _ Hnonzero.
      unfold _getAppStartDurationMilliseconds. cbn.
      destruct (Qeq_bool (getTimeOriginMilliseconds r / 1000) 0) eqn:Hzero.
      * apply Qeq_bool_iff in Hzero. destruct Hnonzero.
        apply (Qeq_trans _ (1000 * (getTimeOriginMilliseconds r / 1000))).
        -- symmetry. by apply Qmult_div_r.
        -- apply (Qeq_trans _ (1000 * 0)); [| reflexivity].
           by apply Qmult_comp.
      * eexists. split; [reflexivity |].
        apply Qplus_comp; [| reflexivity].
        apply (Qeq_trans _ (1000 * (getTimeOriginMilliseconds r / 1000)));
          [apply Qmult_comm | by apply Qmult_div_r].
Qed.

(** X18.  [_getCurrentViewEventProcessor] leaves an event without
    contexts alone, and every event while no view is current.
    Otherwise it touches [contexts.app] only: an entry already there
    stays, [view_names] included, and when [view_names] is missing it
    becomes the list with the current view.  Running it again changes
    nothing more. *)
Theorem current_view_added_once (event : Event) (st : State) :
  let out := _getCurrentViewEventProcessor event st in
  (contexts event = None → out = event)
  ∧ (truthy_string (_currentViewName st) = None → out = event)
  ∧ (∀ given view, contexts event = Some given →
       truthy_string (_currentViewName st) = Some view →
       ∃ after app,
         contexts out = Some after
         ∧ after !! "app" = Some app
         ∧ (∀ key, key ≠ "app" → after !! key = given !! key)
         ∧ (∀ key value, given !! "app" ≫= (.!! key) = Some value →
                         app !! key = Some value)
         ∧ (∀ key, key ≠ "view_names" → app !! key = given !! "app" ≫= (.!! key))
         ∧ (given !! "app" ≫= (.!! "view_names") = None →
            app !! "view_names" = Some (ViewNames [view])))
  ∧ _getCurrentViewEventProcessor out st = out.
Proof.
  cbn zeta. unfold _getCurrentViewEventProcessor.
  destruct (contexts event) as [given |] eqn:Hgiven.
  2: { rewrite Hgiven. done. }
  destruct (truthy_string (_currentViewName st)) as [view |] eqn:Hview.
  2: { rewrite Hgiven. done. }
  cbn [contexts]. split; [done |]. split; [done |]. split.
  - intros given' view' [= <-] [= <-].
    eexists _, _. split; [reflexivity |]. split; [apply lookup_insert_eq |].
    unfold Merge.spread.
    assert (Happ : ∀ key, default ∅ (given !! "app") !! key
                          = given !! "app" ≫= (.!! key)).
    { intros key. by destruct (given !! "app"). }
    split; [| split; [| split]].
    + intros key Hkey. by rewrite lookup_insert_ne.
    + intros key value Hvalue. apply lookup_union_Some_l. by rewrite Happ.
    + intros key Hkey. rewrite lookup_union, Happ, lookup_singleton_ne by done.
      by destruct (_ ≫= _).
    + intros Hnone. rewrite lookup_union_r by (by rewrite Happ).
      apply lookup_singleton_eq.
  - f_equal. f_equal. rewrite lookup_insert_eq. cbn. rewrite insert_insert_eq.
    f_equal. unfold Merge.spread. by rewrite <- (assoc_L (∪)), (idemp_L (∪)).
Qed.

(** No method assigns [_getCurrentHub]. *)
Lemma hub_addAppStartData transaction appStart st :
  _getCurrentHub (_addAppStartData transaction appStart st).2 = _getCurrentHub st.
Proof.
  unfold _addAppStartData.
  destruct (truthy_number _) as [d |]; [| done].
  by destruct (Qle_bool _maxAppStart d).
Qed.

Lemma hub_run_callback callback ref endTimestamp st :
  _getCurrentHub (run_callback callback ref endTimestamp st) = _getCurrentHub st.
Proof.
  unfold run_callback. destruct (transactions st !! ref) as [transaction |]; [| done].
  destruct callback; try done.
  - unfold attachAppStart.
    destruct (enableAppStartTracking (options st)); [| done].
    destruct (_awaitingAppStartData st) as [appStart |]; [| done].
    pose proof (hub_addAppStartData (set_op (Some UI_LOAD) transaction) appStart st)
      as Hhub.
    by destruct (_addAppStartData _ appStart st).
  - unfold ignoreEmptyBackNavigation. by destruct (_ && _).
Qed.

Lemma hub_end_transaction ref endTimestamp st :
  _getCurrentHub (end_transaction ref endTimestamp st) = _getCurrentHub st.
Proof.
  unfold end_transaction. destruct (transactions st !! ref) as [transaction |]; [| done].
  cbn. generalize (_beforeFinishCallbacks transaction). intros callbacks.
  revert st. induction callbacks as [| callback callbacks IH]; intros st; [done |].
  cbn. rewrite IH. apply hub_run_callback.
Qed.

Lemma createRoute_without_hub r context st :
  _getCurrentHub st = None →
  _createRouteTransaction r context st
  = (None,
     logger LogWarn
       ("[ReactNativeTracing] Did not create " +:+ template (context_op context)
          +:+ " transaction because _getCurrentHub is invalid.") st).
Proof. intros Hhub. unfold _createRouteTransaction. by rewrite Hhub. Qed.

Lemma hub_startUserInteraction r userInteractionId st :
  _getCurrentHub (startUserInteractionTransaction r userInteractionId st).2
  = _getCurrentHub st.
Proof.
  unfold startUserInteractionTransaction.
  destruct (enableUserInteractionTracing (options st)); [| done].
  destruct (routingInstrumentation (options st)); [| done]. cbn [negb].
  destruct (truthy_string (elementId userInteractionId)); [| done].
  destruct (truthy_string (_currentRoute st)); [| done]. cbn zeta.
  destruct (if (_ : bool) then getActiveTransaction (current_hub st) st else None);
    [done |].
  unfold onTransactionStart.
  by destruct (_inflightInteractionTransaction st), (new_isNearToNow r).
Qed.

Lemma instrumentAppStart_without_hub r st :
  _getCurrentHub st = None →
  _getCurrentHub (_instrumentAppStart r st) = None
  ∧ transactions (_instrumentAppStart r st) = transactions st.
Proof.
  intros Hhub. unfold _instrumentAppStart.
  destruct (negb _ || negb _); [done |].
  destruct (fetchNativeAppStart r) as [appStart |]; [| done].
  destruct (didFetchAppStart appStart); [done |].
  set (st1 := if negb (useAppStartWithProfiler st) then _ else st).
  assert (Hhub1 : _getCurrentHub st1 = None)
    by (subst st1; by destruct (useAppStartWithProfiler st)).
  assert (Htransactions : transactions st1 = transactions st)
    by (subst st1; by destruct (useAppStartWithProfiler st)).
  destruct (routingInstrumentation (options st1)); [done |].
  by rewrite createRoute_without_hub.
Qed.

Lemma call_without_hub c st : _getCurrentHub st = None → _getCurrentHub (call c st) = None.
Proof.
  intros Hhub. destruct c; cbn; try done.
  - unfold _onRouteWillChange. by rewrite createRoute_without_hub.
  - by rewrite hub_startUserInteraction.
  - by apply instrumentAppStart_without_hub.
  - by rewrite hub_end_transaction.
Qed.

Lemma calls_without_hub cs : ∀ st,
  _getCurrentHub st = None → _getCurrentHub (calls cs st) = None.
Proof.
  induction cs as [| c cs IH]; intros st Hhub; [done |].
  cbn. apply IH. by apply call_without_hub.
Qed.

(** X14.  No method of the class assigns [_getCurrentHub], which the
    constructor leaves undefined.  So whatever was called on the
    integration since its construction, a route change creates no
    transaction and only logs the warning, and the app start
    instrumentation, which without a routing instrumentation asks for
    a route transaction of its own, adds or changes no transaction. *)
Theorem route_transaction_needs_hub (given : PartialOptions.t) (cs : list Call)
    (r : NewTransaction) (context : TransactionContext) (a : AppStartReadings) :
  let st := calls cs (constructor given) in
  _getCurrentHub st = None
  ∧ _onRouteWillChange r context st
    = (None,
       logger LogWarn
         ("[ReactNativeTracing] Did not create " +:+ template (context_op context)
            +:+ " transaction because _getCurrentHub is invalid.") st)
  ∧ transactions (_instrumentAppStart a st) = transactions st.
Proof.
  cbn zeta.
  assert (Hhub : _getCurrentHub (calls cs (constructor given)) = None)
    by (by apply calls_without_hub).
  split; [done |]. split.
  - unfold _onRouteWillChange. by apply createRoute_without_hub.
  - by apply instrumentAppStart_without_hub.
Qed.

End WithImports.

Import TracingSamples TracingMoreSamples.

#[local] Existing Instance imports.

(** X12 on the deprecated [maxTransactionDuration] of 30 seconds. *)
Lemma timeouts_from_constructor_witness :
  finalTimeoutMs (options (constructor thirty_seconds)) = 30000%Z
  ∧ idleTimeoutMs (options (constructor thirty_seconds)) = 1000%Z.
Proof.
  pose proof (timeouts_from_constructor thirty_seconds new_transaction details
                (constructor thirty_seconds) eq_refl) as (Hfinal & Hidle & _).
  exact (conj Hfinal Hidle).
Defined.

(** X15 on an app start of 70000 ms: the record is forgotten and the
    operation of the transaction is [ui.load]. *)
Lemma app_start_attached_once_witness :
  _awaitingAppStartData (attachAppStart (route_transaction []) awaiting_70000).2 = None
  ∧ op (attachAppStart (route_transaction []) awaiting_70000).1 = Some "ui.load".
Proof.
  pose proof (app_start_attached_once (route_transaction []) awaiting_70000
                cold_start_70000 eq_refl eq_refl) as (_ & Hforgotten & _ & Hop).
  split; [exact Hforgotten |].
  rewrite (Hop 70000%Q); [reflexivity | reflexivity | discriminate].
Defined.

(** An integration just constructed, after a route was confirmed and a
    route change announced: one warning, no transaction. *)
Example route_change_after_construction :
  calls [Call_onConfirmRoute (Some "Home"); Call_onRouteWillChange new_transaction details]
    (constructor PartialOptions.empty)
  = logger LogWarn
      "[ReactNativeTracing] Did not create navigation transaction because _getCurrentHub is invalid."
      (_onConfirmRoute (Some "Home") (constructor PartialOptions.empty)).
Proof. reflexivity. Qed.

End TracingMoreFacts.

(** ** The default integrations *)

Module IntegrationsFacts.

Import Integrations.

Lemma elem_of_when (i : Integration) condition integrations :
  i ∈ when condition integrations ↔ condition = true ∧ i ∈ integrations.
Proof.
  destruct condition; cbn; [tauto |].
  split; [intros Hin; by apply elem_of_nil in Hin | by intros [? _]].
Qed.

Lemma when_sublist condition (integrations : list Integration) :
  when condition integrations `sublist_of` integrations.
Proof. destruct condition; [done | apply sublist_nil_l]. Qed.

Lemma default_sublist env options :
  getDefaultIntegrations env options `sublist_of` every_integration options.
Proof.
  unfold getDefaultIntegrations, every_integration.
  apply (sublist_app _ [_; _; _; _; _]).
  { destruct (notWeb env); [| do 2 apply sublist_cons; done].
    do 2 apply sublist_skip. apply sublist_nil_l. }
  apply (sublist_app [_; _; _; _; _] [_; _; _; _; _]); [done |].
  apply (sublist_app [_; _; _; _] [_; _; _; _]); [done |].
  apply (sublist_app _ [_]); [apply when_sublist |].
  apply (sublist_app [_] [_]); [done |].
  apply (sublist_app _ [_; _; _; _; _]).
  { etrans; [apply when_sublist |].
    apply (sublist_app [_; _] [_; _]); [done |].
    apply (sublist_app _ [_]); [apply when_sublist |].
    apply (sublist_app _ [_]); apply when_sublist. }
  apply (sublist_app _ [_]); [apply when_sublist |].
  apply (sublist_app _ [_]); [apply when_sublist |].
  apply (sublist_app _ [_]); apply when_sublist.
Qed.

(** X19.  [getDefaultIntegrations] returns no integration twice, and
    the integrations come in the order of the pushes. *)
Theorem default_integrations_distinct (env : Environment)
    (options : ReactNativeClientOptions) :
  NoDup (getDefaultIntegrations env options)
  ∧ getDefaultIntegrations env options `sublist_of` every_integration options.
Proof.
  split; [| apply default_sublist].
  eapply sublist_NoDup; [| apply default_sublist].
  unfold every_integration.
  repeat (apply NoDup_cons; split;
          [intros Hin;
           repeat (apply elem_of_cons in Hin as [Hin | Hin]; [discriminate Hin |]);
           by apply elem_of_nil in Hin |]).
  apply NoDup_nil_2.
Qed.

(** X20.  What the comment above the function promises, and the two
    integrations this repository defines.  The integrations that need
    the native module are returned only when [enableNative] is set; the
    browser's error integrations exactly on the web, and the error
    handlers of React Native exactly off it.  [HermesProfiling] is
    returned exactly when [enableNative] is set and
    [profilesSampleRate] is a number; [ReactNativeTracing] exactly when
    tracing is enabled ([enableTracing], a number as
    [tracesSampleRate], or a [tracesSampler]) together with
    [enableAutoPerformanceTracing]. *)
Theorem default_integrations_by_platform (env : Environment)
    (options : ReactNativeClientOptions) :
  let integrations := getDefaultIntegrations env options in
  (∀ i, i ∈ integrations → native_only i = true → enableNative options = true)
  ∧ (∀ i, web_only i = true → i ∈ integrations ↔ notWeb env = false)
  ∧ (NativeLinkedErrors ∈ integrations ↔ notWeb env = true)
  ∧ (ReactNativeErrorHandlers (patchGlobalPromise options) ∈ integrations
     ↔ notWeb env = true)
  ∧ (HermesProfiling ∈ integrations
     ↔ enableNative options = true ∧ is_Some (profilesSampleRate options))
  ∧ (ReactNativeTracing ∈ integrations
     ↔ (enableTracing options = true ∨ is_Some (tracesSampleRate options)
        ∨ tracesSampler options = true)
       ∧ enableAutoPerformanceTracing options = true).
Proof.
  cbn zeta.
  assert (Hin : ∀ i, i ∈ getDefaultIntegrations env options ↔ default_member env options i).
  { intros i. unfold getDefaultIntegrations, default_member.
    rewrite !elem_of_app, !elem_of_when, !elem_of_app, !elem_of_when.
    rewrite !andb_true_iff, !orb_true_iff, !bool_decide_eq_true.
    destruct (notWeb env); rewrite !elem_of_cons, !elem_of_nil; tauto. }
  split; [| split; [| split; [| split; [| split]]]].
  - intros i Hi Hnative. apply Hin in Hi. unfold default_member in Hi.
    rewrite !elem_of_cons, elem_of_nil in Hi.
    destruct i; cbn in Hnative; try discriminate Hnative; destruct (notWeb env);
      intuition discriminate.
  - intros i Hweb. rewrite Hin. unfold default_member.
    rewrite !elem_of_cons, elem_of_nil.
    destruct i; cbn in Hweb; try discriminate Hweb; destruct (notWeb env);
      intuition (discriminate || done).
  - rewrite Hin. unfold default_member. rewrite !elem_of_cons, elem_of_nil.
    destruct (notWeb env); intuition (discriminate || done).
  - rewrite Hin. unfold default_member. rewrite !elem_of_cons, elem_of_nil.
    destruct (notWeb env); intuition (discriminate || done).
  - rewrite Hin. unfold default_member. rewrite !elem_of_cons, elem_of_nil.
    destruct (notWeb env); intuition (discriminate || done).
  - rewrite Hin. unfold default_member. rewrite !elem_of_cons, elem_of_nil.
    destruct (notWeb env); intuition (discriminate || done).
Qed.

End IntegrationsFacts.

